(** * Airline booking market demand: the analysis pipeline

    A shallow embedding of [data_processor.py] (class [DataProcessor]) and
    of [filter_data] from [app.py], with the properties of the pipeline
    stated and proved over it.

    Modelling conventions.
    - A pandas DataFrame is a list of column names, the dtype flag of the
      [flight_date] column and a list of rows.  A row carries one typed
      cell per column the program ever reads or writes; columns the program
      never looks at are present by name only.
    - A float cell is [option Q]: [None] is NaN, [Some q] a finite value.
      The sums, means, ratios and roundings the program computes on such
      cells are computed in binary64, every operation rounded to the
      nearest double as numpy and pandas do; see "Binary64 arithmetic".
      Order statistics (minimum, maximum, median, quantiles) and what is
      derived from them by comparison (the price fence, the price ratios
      of the opportunities) are exact: a median of an even number of
      values is the exact half sum of the two middle values and a quantile
      the exact interpolation, where the program rounds them to the
      nearest double.  Overflow to an infinity is not modelled.
    - A Python exception is a value of [exn]; a method of the processor is
      a function from the processor state to the new state and an
      [outcome].
    - The model follows pandas 1.3 and later (1.x and 2.x), without the
      optional bottleneck accelerator, and numpy 1.19 and later: there
      [df['price'].fillna(..., inplace=True)] writes through to [df], the
      mean of a group is a compensated sum, and [round] on a numpy float
      is numpy's own. *)

From Stdlib Require Import List ZArith QArith Qround Qabs Qpower Lqa Ascii String Bool Lia
  Permutation Sorted.
From stdpp Require Import gmap strings.
Import ListNotations.
Open Scope string_scope.

(** ** Cells, rows and tables *)

Record date := mkdate { d_year : Z; d_month : Z; d_day : Z }.

(** A cell of the [flight_date] column: a raw string as collected, a parsed
    timestamp, or a missing value (NaN / NaT). *)
Inductive date_cell :=
| DateStr (s : string)
| DateVal (d : date)
| DateNaT.

(** Labels of [pd.cut] in [analyze_price_distribution]. *)
Inductive category := Budget | Economy | Premium | Luxury.

Record Row := mkRow {
  flight_date : date_cell;
  flight_time : option string;
  origin : option string;
  destination : option string;
  price : option Q;
  airline : option string;
  duration : option Z;
  is_domestic : option bool;
  day_of_week : option Z;
  month : option Z;
  is_weekend : option Z;
  week : option Z;
  year : option Z;
  price_category : option category
}.

Record DataFrame := mkDF {
  columns : list string;
  (** [pd.api.types.is_datetime64_any_dtype(df['flight_date'])] *)
  date_dtype : bool;
  rows : list Row
}.

#[global] Instance date_eq_dec : EqDecision date.
Proof. solve_decision. Defined.
#[global] Instance date_cell_eq_dec : EqDecision date_cell.
Proof. solve_decision. Defined.
#[global] Instance category_eq_dec : EqDecision category.
Proof. solve_decision. Defined.

(** The exceptions the pipeline can raise.  A [KeyError] carries the first
    of the column names that are missing. *)
Inductive exn :=
| KeyError (col : string)
| ValueError (msg : string)
| IndexError (msg : string)
| TypeError (msg : string).

Inductive outcome := Returned | Raised (e : exn).

(** Column assignment [df[c] = ...] on the row level. *)
Definition set_flight_date (v : date_cell) (r : Row) : Row :=
  mkRow v (flight_time r) (origin r) (destination r) (price r) (airline r)
        (duration r) (is_domestic r) (day_of_week r) (month r) (is_weekend r)
        (week r) (year r) (price_category r).
Definition set_price (v : option Q) (r : Row) : Row :=
  mkRow (flight_date r) (flight_time r) (origin r) (destination r) v (airline r)
        (duration r) (is_domestic r) (day_of_week r) (month r) (is_weekend r)
        (week r) (year r) (price_category r).
Definition set_day_of_week (v : option Z) (r : Row) : Row :=
  mkRow (flight_date r) (flight_time r) (origin r) (destination r) (price r)
        (airline r) (duration r) (is_domestic r) v (month r) (is_weekend r)
        (week r) (year r) (price_category r).
Definition set_month (v : option Z) (r : Row) : Row :=
  mkRow (flight_date r) (flight_time r) (origin r) (destination r) (price r)
        (airline r) (duration r) (is_domestic r) (day_of_week r) v (is_weekend r)
        (week r) (year r) (price_category r).
Definition set_is_weekend (v : option Z) (r : Row) : Row :=
  mkRow (flight_date r) (flight_time r) (origin r) (destination r) (price r)
        (airline r) (duration r) (is_domestic r) (day_of_week r) (month r) v
        (week r) (year r) (price_category r).
Definition set_week (v : option Z) (r : Row) : Row :=
  mkRow (flight_date r) (flight_time r) (origin r) (destination r) (price r)
        (airline r) (duration r) (is_domestic r) (day_of_week r) (month r)
        (is_weekend r) v (year r) (price_category r).
Definition set_year (v : option Z) (r : Row) : Row :=
  mkRow (flight_date r) (flight_time r) (origin r) (destination r) (price r)
        (airline r) (duration r) (is_domestic r) (day_of_week r) (month r)
        (is_weekend r) (week r) v (price_category r).
Definition set_price_category (v : option category) (r : Row) : Row :=
  mkRow (flight_date r) (flight_time r) (origin r) (destination r) (price r)
        (airline r) (duration r) (is_domestic r) (day_of_week r) (month r)
        (is_weekend r) (week r) (year r) v.

(** ['c' in df.columns] *)
Definition has_col (df : DataFrame) (c : string) : bool :=
  existsb (String.eqb c) (columns df).

(** The column index after [df[c] = ...]: a new name goes last. *)
Definition add_col (c : string) (cols : list string) : list string :=
  if existsb (String.eqb c) cols then cols else cols ++ [c].

(** [df.empty]: some axis has length zero. *)
Definition df_empty (df : DataFrame) : bool :=
  match rows df, columns df with
  | [], _ | _, [] => true
  | _, _ => false
  end.

(** [pd.DataFrame()] *)
Definition empty_frame : DataFrame := mkDF [] false [].

(** ** Binary64 arithmetic *)

(** Round half to even to the nearest integer ([np.rint]). *)
Definition round_half_even (q : Q) : Z :=
  let f := Qfloor q in
  let r := (q - inject_Z f)%Q in
  if Qle_bool r (1 # 2) then
    if Qeq_bool r (1 # 2) then (if Z.even f then f else f + 1)%Z else f
  else (f + 1)%Z.

(** The binary exponent of a rational that is not zero: the integer [e]
    with [2 ^ e <= |q| < 2 ^ (e + 1)]. *)
Definition ilog2 (q : Q) : Z :=
  let e := (Z.log2 (Z.abs (Qnum q)) - Z.log2 (Z.pos (Qden q)))%Z in
  if Qle_bool (2 ^ e) (Qabs q) then e else (e - 1)%Z.

(** The double nearest to a rational, a tie going to the even significand:
    the rounding of every IEEE 754 operation in the default mode.  A
    double has a significand of 53 bits, and of fewer bits below
    [2 ^ -1022], where the spacing stays [2 ^ -1074].  A value beyond the
    largest double is rounded like any other, where the machine gives an
    infinity. *)
Definition b64 (q : Q) : Q :=
  if Qeq_bool q 0 then 0%Q
  else
    let s := (Z.max (ilog2 q) (-1022) - 52)%Z in
    Qred (inject_Z (round_half_even (q / 2 ^ s)) * 2 ^ s).

(** The four operations on doubles; the divisor of [fquot] is not zero
    where the model uses it. *)
Definition fadd (x y : Q) : Q := b64 (x + y).
Definition fsub (x y : Q) : Q := b64 (x - y).
Definition fmul (x y : Q) : Q := b64 (x * y).
Definition fquot (x y : Q) : Q := b64 (x / y).

(** [round(x, 1)] and [round(x, 2)] on a numpy float: scale by the power
    of ten, round to the nearest integer, divide by the power of ten. *)
Definition round_to (digits : positive) (q : Q) : Q :=
  fquot (inject_Z (round_half_even (fmul q (inject_Z (Z.pos digits)))))
        (inject_Z (Z.pos digits)).
Definition round1 (q : Q) : Q := round_to 10 q.
Definition round2 (q : Q) : Q := round_to 100 q.

(** ** Series arithmetic *)

Fixpoint insert_sorted (x : Q) (l : list Q) : list Q :=
  match l with
  | [] => [x]
  | y :: t => if Qle_bool x y then x :: l else y :: insert_sorted x t
  end.

Definition sort_values (l : list Q) : list Q := fold_right insert_sorted [] l.

(** The non-null values of the price column ([skipna=True]). *)
Definition prices (rs : list Row) : list Q := omap price rs.

(** [res += a[i]] over a run of an array. *)
Definition sum_loop (res : Q) (l : list Q) : Q := fold_left fadd l res.

(** The unrolled loop of numpy's pairwise summation: eight running sums
    [r], each taking one value of every block of eight. *)
Fixpoint add_blocks (blocks : nat) (r l : list Q) : list Q :=
  match blocks with
  | O => r
  | S k => add_blocks k (zip_with fadd r (firstn 8 l)) (skipn 8 l)
  end.

(** An array of 8 to 128 values: the eight running sums are added up in
    pairs and the values beyond the last full block one by one. *)
Definition block_sum (l : list Q) : Q :=
  let blocks := (length l / 8)%nat in
  let r := add_blocks (blocks - 1) (firstn 8 l) (skipn 8 l) in
  let r_ i := nth i r 0%Q in
  let res := fadd (fadd (fadd (r_ 0%nat) (r_ 1%nat)) (fadd (r_ 2%nat) (r_ 3%nat)))
                  (fadd (fadd (r_ 4%nat) (r_ 5%nat)) (fadd (r_ 6%nat) (r_ 7%nat))) in
  sum_loop res (skipn (8 * blocks) l).

(** A longer array is cut near its middle, at a multiple of eight.  The
    recursion is on [fuel]; an array is never longer than the fuel
    [pairwise_sum] gives it. *)
Fixpoint pairwise (fuel : nat) (l : list Q) : Q :=
  let n := length l in
  if (n <? 8)%nat then sum_loop 0%Q l
  else if (n <=? 128)%nat then block_sum l
  else
    match fuel with
    | O => block_sum l
    | S fuel =>
      let n2 := (n / 2 - (n / 2) mod 8)%nat in
      fadd (pairwise fuel (firstn n2 l)) (pairwise fuel (skipn n2 l))
    end.

(** [ndarray.sum()] of a float array: numpy's pairwise summation. *)
Definition pairwise_sum (l : list Q) : Q := pairwise (length l) l.

(** The column as [nanops] sums it: a null counts as zero. *)
Definition zero_filled (cells : list (option Q)) : list Q := map (default 0%Q) cells.

(** The number of cells that are not null. *)
Definition count (cells : list (option Q)) : nat := length (omap id cells).

(** [Series.mean()]: the sum of the column, nulls counted as zero, divided
    by the number of cells that are not null; NaN when there is none. *)
Definition mean (cells : list (option Q)) : option Q :=
  if (count cells =? 0)%nat then None
  else Some (fquot (pairwise_sum (zero_filled cells)) (inject_Z (Z.of_nat (count cells)))).

(** One step of the compensated sum of a group: the running sum and its
    compensation. *)
Definition kahan_step (acc : Q * Q) (val : Q) : Q * Q :=
  let '(sumx, compensation) := acc in
  let y := fsub val compensation in
  let t := fadd sumx y in
  (t, fsub (fsub t sumx) y).

(** The mean of a group of [groupby(...).mean()], over the values of the
    group that are not null: a compensated sum divided by their number. *)
Definition group_mean (l : list Q) : option Q :=
  match l with
  | [] => None
  | _ => Some (fquot (fst (fold_left kahan_step l (0%Q, 0%Q)))
                     (inject_Z (Z.of_nat (length l))))
  end.

(** [Series.quantile(p)] with numpy's default linear interpolation: the
    value at position [(n-1)*p] of the sorted series. *)
Definition quantile (p : Q) (l : list Q) : option Q :=
  match l with
  | [] => None
  | _ =>
    let s := sort_values l in
    let h := (inject_Z (Z.of_nat (length l) - 1) * p)%Q in
    let lo := Qfloor h in
    let frac := (h - inject_Z lo)%Q in
    let a := nth (Z.to_nat lo) s 0%Q in
    let b := nth (Z.to_nat (lo + 1)) s a in
    Some (a + frac * (b - a))%Q
  end.

(** [Series.median()]: the middle value of the sorted series, or the mean
    of the two middle values. *)
Definition median (l : list Q) : option Q :=
  match l with
  | [] => None
  | _ =>
    let s := sort_values l in
    let n := length l in
    if Nat.even n
    then Some ((nth (n / 2 - 1) s 0 + nth (n / 2) s 0) / 2)%Q
    else Some (nth (n / 2) s 0%Q)
  end.

Definition Qmin_list (l : list Q) : option Q :=
  match l with
  | [] => None
  | x :: t => Some (fold_left (fun m y => if Qle_bool m y then m else y) t x)
  end.

Definition Qmax_list (l : list Q) : option Q :=
  match l with
  | [] => None
  | x :: t => Some (fold_left (fun m y => if Qle_bool y m then m else y) t x)
  end.

(** Comparison of a float cell with a float bound; any comparison with NaN
    is false. *)
Definition ge_cell (x b : option Q) : bool :=
  match x, b with Some x, Some b => Qle_bool b x | _, _ => false end.
Definition le_cell (x b : option Q) : bool :=
  match x, b with Some x, Some b => Qle_bool x b | _, _ => false end.

(** ** Calendar fields of a timestamp *)

Definition is_leap (y : Z) : bool :=
  ((y mod 4 =? 0) && negb (y mod 100 =? 0) || (y mod 400 =? 0))%Z.

(** Days since 1970-01-01 of a proleptic Gregorian date. *)
Definition days_from_civil (d : date) : Z :=
  let y := (if d_month d <=? 2 then d_year d - 1 else d_year d)%Z in
  let era := (y / 400)%Z in
  let yoe := (y - era * 400)%Z in
  let mp := ((d_month d + 9) mod 12)%Z in
  let doy := ((153 * mp + 2) / 5 + d_day d - 1)%Z in
  let doe := (yoe * 365 + yoe / 4 - yoe / 100 + doy)%Z in
  (era * 146097 + doe - 719468)%Z.

(** [.dt.dayofweek]: Monday is 0, Sunday is 6. *)
Definition dayofweek (d : date) : Z := ((days_from_civil d + 3) mod 7)%Z.

Definition day_of_year (d : date) : Z :=
  (days_from_civil d - days_from_civil (mkdate (d_year d) 1 1) + 1)%Z.

(** Number of ISO weeks of a year: 53 when 1 January is a Thursday, or a
    Wednesday in a leap year. *)
Definition iso_weeks_in_year (y : Z) : Z :=
  let jan1 := dayofweek (mkdate y 1 1) in
  if ((jan1 =? 3) || (is_leap y && (jan1 =? 2)))%Z then 53%Z else 52%Z.

(** [.dt.isocalendar()]: the ISO (year, week) of a date. *)
Definition isocalendar (d : date) : Z * Z :=
  let w := ((day_of_year d - (dayofweek d + 1) + 10) / 7)%Z in
  if (w <? 1)%Z then ((d_year d - 1)%Z, iso_weeks_in_year (d_year d - 1))
  else if (iso_weeks_in_year (d_year d) <? w)%Z then ((d_year d + 1)%Z, 1%Z)
  else (d_year d, w).

(** [datetime(2000, m, 1).strftime('%B')]; [datetime] raises ValueError
    for a month outside 1..12. *)
Definition month_name (m : Z) : option string :=
  match m with
  | 1%Z => Some "January" | 2%Z => Some "February" | 3%Z => Some "March"
  | 4%Z => Some "April" | 5%Z => Some "May" | 6%Z => Some "June"
  | 7%Z => Some "July" | 8%Z => Some "August" | 9%Z => Some "September"
  | 10%Z => Some "October" | 11%Z => Some "November" | 12%Z => Some "December"
  | _ => None
  end.

(** The [day_names] dictionary of the processor. *)
Definition day_names (d : Z) : option string :=
  match d with
  | 0%Z => Some "Monday" | 1%Z => Some "Tuesday" | 2%Z => Some "Wednesday"
  | 3%Z => Some "Thursday" | 4%Z => Some "Friday" | 5%Z => Some "Saturday"
  | 6%Z => Some "Sunday"
  | _ => None
  end.

(** Result of a division of two float cells, where the divisor may be
    zero: numpy yields an infinity or NaN there, it does not raise. *)
Inductive flt :=
| FNaN
| FInf (negative : bool)
| FFin (q : Q).

Definition fdiv (a b : option Q) : flt :=
  match a, b with
  | Some a, Some b =>
    if Qeq_bool b 0 then
      if Qeq_bool a 0 then FNaN else FInf (negb (Qle_bool 0 a))
    else FFin (a / b)%Q
  | _, _ => FNaN
  end.

(** [x > c] for a finite constant [c]. *)
Definition fgt (x : flt) (c : Q) : bool :=
  match x with
  | FNaN => false
  | FInf neg => negb neg
  | FFin q => negb (Qle_bool q c)
  end.

(** ** Configuration ([config.py]) *)

Definition AUSTRALIAN_CITIES : list (string * string) :=
  [("Sydney", "SYD"); ("Melbourne", "MEL"); ("Brisbane", "BNE"); ("Perth", "PER");
   ("Adelaide", "ADL"); ("Darwin", "DRW"); ("Gold Coast", "OOL"); ("Cairns", "CNS");
   ("Canberra", "CBR"); ("Hobart", "HBA")].

Definition POPULAR_INTERNATIONAL_DESTINATIONS : list (string * string) :=
  [("Auckland", "AKL"); ("Singapore", "SIN"); ("Bali", "DPS"); ("Tokyo", "HND");
   ("Hong Kong", "HKG"); ("Los Angeles", "LAX"); ("London", "LHR"); ("Dubai", "DXB");
   ("Bangkok", "BKK"); ("Kuala Lumpur", "KUL")].

(** [dict.values()] *)
Definition dict_values (d : list (string * string)) : list string := map snd d.

(** [code in d.values()] *)
Definition in_values (code : string) (d : list (string * string)) : bool :=
  existsb (String.eqb code) (dict_values d).

(** ** Grouping, ordering and counting *)

Definition pair_leb {A B} `{EqDecision A} (la : A -> A -> bool) (lb : B -> B -> bool)
    (x y : A * B) : bool :=
  if decide (fst x = fst y) then lb (snd x) (snd y) else la (fst x) (fst y).

Definition date_leb (a b : date) : bool :=
  pair_leb Z.leb (pair_leb Z.leb Z.leb)
    (d_year a, (d_month a, d_day a)) (d_year b, (d_month b, d_day b)).

Section Unique.
Context {V : Type} `{EqDecision V}.

(** [Series.unique()]: the distinct values in order of first appearance. *)
Fixpoint unique (l : list V) : list V :=
  match l with
  | [] => []
  | x :: t => x :: List.filter (fun y => negb (bool_decide (y = x))) (unique t)
  end.

Definition count_of (x : V) (l : list V) : nat :=
  length (List.filter (fun y => bool_decide (y = x)) l).
End Unique.

Section GroupBy.
Context {K : Type} `{EqDecision K}.
Variable leb : K -> K -> bool.
Variable key : Row -> option K.

Fixpoint insert_key (k : K) (l : list K) : list K :=
  match l with
  | [] => [k]
  | h :: t => if leb k h then k :: l else h :: insert_key k t
  end.

Definition sort_keys (l : list K) : list K := fold_right insert_key [] l.

(** The keys of [df.groupby(...)]: the distinct keys, sorted
    ([sort=True]); rows with a missing key are left out ([dropna=True]). *)
Definition group_keys (rs : list Row) : list K :=
  sort_keys (unique (omap key rs)).

Definition group_rows (rs : list Row) (k : K) : list Row :=
  List.filter (fun r => bool_decide (key r = Some k)) rs.

Definition groupby (rs : list Row) : list (K * list Row) :=
  map (fun k => (k, group_rows rs k)) (group_keys rs).
End GroupBy.

Section Ordering.
Context {A : Type}.
Variable weight : A -> Q.

(** Insertion for a descending order that keeps the earlier of two equal
    elements first. *)
Fixpoint insert_desc (x : A) (l : list A) : list A :=
  match l with
  | [] => [x]
  | y :: t => if Qle_bool (weight y) (weight x) then x :: l else y :: insert_desc x t
  end.

(** [sort_values(..., ascending=False)].  pandas leaves the relative order
    of equal elements to the sort kind; here they keep their order. *)
Definition sort_desc (l : list A) : list A := fold_right insert_desc [] l.
End Ordering.

(** [frame.head(n)]: the first [n] rows, or all but the last [-n]. *)
Definition head_n {A} (n : Z) (l : list A) : list A :=
  if (0 <=? n)%Z then firstn (Z.to_nat n) l
  else firstn (length l - Z.to_nat (- n)) l.

Section ValueCounts.
Context {V : Type} `{EqDecision V}.

(** [Series.value_counts()]: the non-null values with their number of
    occurrences, most frequent first. *)
Definition value_counts (l : list (option V)) : list (V * nat) :=
  let vs := omap id l in
  sort_desc (fun p => inject_Z (Z.of_nat (snd p)))
            (map (fun v => (v, count_of v vs)) (unique vs)).
End ValueCounts.

(** [Series.idxmax()] by position: the first position holding the largest
    non-null value; [None] when there is none (pandas raises). *)
Fixpoint idx_best (better : Q -> Q -> bool) (l : list (option Q)) (i : nat)
    (best : option (nat * Q)) : option (nat * Q) :=
  match l with
  | [] => best
  | None :: t => idx_best better t (S i) best
  | Some x :: t =>
    match best with
    | None => idx_best better t (S i) (Some (i, x))
    | Some (j, y) =>
      if better x y then idx_best better t (S i) (Some (i, x))
      else idx_best better t (S i) best
    end
  end.

Definition idxmax (l : list (option Q)) : option nat :=
  fst <$> idx_best (fun x y => negb (Qle_bool x y)) l 0%nat None.
Definition idxmin (l : list (option Q)) : option nat :=
  fst <$> idx_best (fun x y => negb (Qle_bool y x)) l 0%nat None.

(** ** The insights document *)

Record route_record := mkRoute {
  rr_origin : string;
  rr_destination : string;
  rr_frequency : nat;
  rr_is_domestic : bool
}.

Record daily_record := mkDaily {
  dr_date : date;
  dr_avg_price : option Q;
  dr_median_price : option Q;
  dr_flight_count : nat
}.

Record weekly_record := mkWeekly {
  wr_year : Z;
  wr_week : Z;
  wr_avg_price : option Q;
  wr_median_price : option Q;
  wr_flight_count : nat
}.

Record monthly_record := mkMonthly {
  mr_month : Z;
  mr_avg_price : option Q;
  mr_median_price : option Q;
  mr_flight_count : nat
}.

Record dow_record := mkDow {
  wd_day_of_week : Z;
  wd_avg_price : option Q;
  wd_median_price : option Q;
  wd_flight_count : nat;
  wd_day_name : option string
}.

(** [std] is the square root of the sample variance; the record keeps the
    variance, the double the root is taken of. *)
Record price_stats := mkStats {
  ps_min : option Q;
  ps_max : option Q;
  ps_mean : option Q;
  ps_median : option Q;
  ps_std_squared : option Q;
  ps_q1 : option Q;
  ps_q3 : option Q
}.

(** The records of [market_opportunities].  The ['type'] field is the
    constructor; the ['opportunity'] text is a constant of the type (with
    the ratio printed into it for a seasonal variation) and is not kept. *)
Inductive opportunity :=
| high_demand_high_price (o d : string) (frequency : nat) (median_price : option Q)
| weekend_premium (o d : string) (weekday_price weekend_price price_difference : Q)
| seasonal_variation (o d : string)
    (high_price_month low_price_month : string) (price_ratio : Q).

Record code_count := mkCode {
  cc_code : string;
  cc_count : nat;
  cc_city : string
}.

(** The summary dictionary: a key that is not written is [None]. *)
Record summary := mkSummary {
  total_flights : nat;
  domestic_flights : option Z;
  international_flights : option Z;
  domestic_percentage : option (option Q);
  avg_price : option (option Q);
  median_price : option (option Q);
  avg_domestic_price : option (option Q);
  avg_international_price : option (option Q);
  top_origins : option (list code_count);
  top_destinations : option (list code_count);
  busiest_day : option (option string);
  weekend_price_premium : option flt;
  busiest_month : option string
}.

Inductive insight :=
| popular_routes_of (l : list route_record)
| daily_price_trends_of (l : list daily_record)
| weekly_price_trends_of (l : list weekly_record)
| monthly_patterns_of (l : list monthly_record)
| day_of_week_patterns_of (l : list dow_record)
| peak_travel_periods_of (l : list string)
| price_stats_of (s : price_stats)
| price_categories_of (l : list (category * nat))
| market_opportunities_of (l : list opportunity)
| summary_of (s : summary).

(** ** The processor *)

Record DataProcessor := mkDP {
  raw_data : option DataFrame;
  processed_data : option DataFrame;
  insights : gmap string insight;
  (** messages passed to [logger.warning], oldest first *)
  log : list string
}.

(** [DataProcessor()] *)
Definition new_processor : DataProcessor := mkDP None None ∅ [].

Definition load_data (data : DataFrame) (self : DataProcessor) : DataProcessor :=
  mkDP (Some data) (processed_data self) (insights self) (log self).

Definition warning (msg : string) (self : DataProcessor) : DataProcessor :=
  mkDP (raw_data self) (processed_data self) (insights self) (log self ++ [msg]).

Definition set_processed (df : DataFrame) (self : DataProcessor) : DataProcessor :=
  mkDP (raw_data self) (Some df) (insights self) (log self).

(** [self.insights[k] = v] *)
Definition set_insight (k : string) (v : insight) (self : DataProcessor) : DataProcessor :=
  mkDP (raw_data self) (processed_data self) (<[k := v]> (insights self)) (log self).

(** ** Cleaning *)

Definition route_key (r : Row) : option (string * string) :=
  match origin r, destination r with
  | Some o, Some d => Some (o, d)
  | _, _ => None
  end.

(** [df.groupby(['origin','destination'])['price'].transform('median')] at
    the position of row [r]. *)
Definition route_median (rs : list Row) (r : Row) : option Q :=
  match route_key r with
  | Some k => median (prices (group_rows route_key rs k))
  | None => None
  end.

(** [Series.fillna(v)] on one cell. *)
Definition fillna (v : option Q) (r : Row) : Row :=
  match price r with
  | Some _ => r
  | None => set_price v r
  end.

Definition isna_any (rs : list Row) : bool :=
  existsb (fun r => match price r with None => true | Some _ => false end) rs.

(** The first of the names [cs] that is not a column. *)
Definition missing_col (df : DataFrame) (cs : list string) : option string :=
  List.find (fun c => negb (has_col df c)) cs.

(** "Handle missing values" *)
Definition fill_missing_prices (df : DataFrame) : exn + DataFrame :=
  if has_col df "price" && isna_any (rows df) then
    match missing_col df ["origin"; "destination"] with
    | Some c => inl (KeyError c)
    | None =>
      let filled := map (fun r => fillna (route_median (rows df) r) r) (rows df) in
      let overall := median (prices filled) in
      inr (mkDF (columns df) (date_dtype df) (map (fillna overall) filled))
    end
  else inr df.

Definition subset_key (r : Row) :=
  (flight_date r, flight_time r, origin r, destination r, airline r).

(** [drop_duplicates(subset=..., keep='first')] on the rows. *)
Fixpoint keep_first (rs : list Row) : list Row :=
  match rs with
  | [] => []
  | r :: t =>
    r :: List.filter (fun x => negb (bool_decide (subset_key x = subset_key r)))
                     (keep_first t)
  end.

(** "Remove duplicate flights" *)
Definition drop_duplicates (df : DataFrame) : exn + DataFrame :=
  if (3 <? length (columns df))%nat then
    match missing_col df ["flight_date"; "flight_time"; "origin"; "destination"; "airline"] with
    | Some c => inl (KeyError c)
    | None => inr (mkDF (columns df) (date_dtype df) (keep_first (rows df)))
    end
  else inr df.

(** The bounds of the price fence. *)
Definition lower_bound (ps : list Q) : option Q :=
  match quantile (1 # 4) ps, quantile (3 # 4) ps with
  | Some q1, Some q3 => Some (q1 - (3 # 2) * (q3 - q1))%Q
  | _, _ => None
  end.
Definition upper_bound (ps : list Q) : option Q :=
  match quantile (1 # 4) ps, quantile (3 # 4) ps with
  | Some q1, Some q3 => Some (q3 + (3 # 2) * (q3 - q1))%Q
  | _, _ => None
  end.

Definition within_fence (ps : list Q) (r : Row) : bool :=
  ge_cell (price r) (lower_bound ps) && le_cell (price r) (upper_bound ps).

(** "Remove outliers in price (if price exists)" *)
Definition remove_outliers (df : DataFrame) : DataFrame :=
  if has_col df "price" then
    mkDF (columns df) (date_dtype df)
         (List.filter (within_fence (prices (rows df))) (rows df))
  else df.

Definition cell_date (c : date_cell) : option date :=
  match c with DateVal d => Some d | _ => None end.

(** The three calendar cells of a row; a missing timestamp gives a missing
    day and month, and [isin([5, 6])] is false on it. *)
Definition date_fields (r : Row) : Row :=
  let dow := dayofweek <$> cell_date (flight_date r) in
  let mon := d_month <$> cell_date (flight_date r) in
  let we := match dow with
            | Some d => if ((d =? 5) || (d =? 6))%Z then 1%Z else 0%Z
            | None => 0%Z
            end in
  set_is_weekend (Some we) (set_month mon (set_day_of_week dow r)).

(** "Add day of week if we have flight date" *)
Definition add_date_fields (df : DataFrame) : DataFrame :=
  if has_col df "flight_date" && date_dtype df then
    mkDF (add_col "is_weekend" (add_col "month" (add_col "day_of_week" (columns df))))
         (date_dtype df) (map date_fields (rows df))
  else df.

Section Cleaner.
(** [pd.to_datetime] on one string: [None] when the parser raises,
    [Some None] for a string that parses to NaT. *)
Variable parse_datetime : string -> option (option date).

Definition to_datetime_cell (r : Row) : option Row :=
  match flight_date r with
  | DateStr s =>
    match parse_datetime s with
    | Some (Some d) => Some (set_flight_date (DateVal d) r)
    | Some None => Some (set_flight_date DateNaT r)
    | None => None
    end
  | DateVal _ | DateNaT => Some r
  end.

(** "Ensure dates are in datetime format": a column that fails to parse
    is left as it is, with a warning. *)
Definition ensure_datetime (df : DataFrame) : DataFrame * list string :=
  if has_col df "flight_date" then
    if date_dtype df then (df, [])
    else
      match mapM to_datetime_cell (rows df) with
      | Some rs => (mkDF (columns df) true rs, [])
      | None => (df, ["Could not convert flight_date to datetime"])
      end
  else (df, []).

Definition clean_data (self : DataProcessor) : DataProcessor * outcome :=
  match raw_data self with
  | None => (warning "No data to clean" self, Returned)
  | Some raw =>
    if (length (rows raw) =? 0)%nat then (warning "No data to clean" self, Returned)
    else
      match fill_missing_prices raw with
      | inl e => (self, Raised e)
      | inr df =>
        let '(df, msgs) := ensure_datetime df in
        let self := fold_left (fun s m => warning m s) msgs self in
        match drop_duplicates df with
        | inl e => (self, Raised e)
        | inr df =>
          (set_processed (add_date_fields (remove_outliers df)) self, Returned)
        end
      end
  end.
End Cleaner.

(** A parser for the dates the collector writes, ['%Y-%m-%d']; the empty
    string is a missing date. *)
Definition digit_of (a : Ascii.ascii) : option Z :=
  let n := Z.of_nat (Ascii.nat_of_ascii a) in
  if ((48 <=? n) && (n <=? 57))%Z then Some (n - 48)%Z else None.

Fixpoint number_of (s : list Ascii.ascii) (acc : Z) : option Z :=
  match s with
  | [] => Some acc
  | a :: t => match digit_of a with
              | Some d => number_of t (acc * 10 + d)%Z
              | None => None
              end
  end.

Definition days_in_month (y m : Z) : Z :=
  match m with
  | 2%Z => if is_leap y then 29%Z else 28%Z
  | 4%Z | 6%Z | 9%Z | 11%Z => 30%Z
  | _ => 31%Z
  end.

Definition parse_iso_date (s : string) : option (option date) :=
  match list_ascii_of_string s with
  | [] => Some None
  | [y1; y2; y3; y4; "-"%char; m1; m2; "-"%char; d1; d2] =>
    match number_of [y1; y2; y3; y4] 0, number_of [m1; m2] 0, number_of [d1; d2] 0 with
    | Some y, Some m, Some d =>
      if ((1 <=? m) && (m <=? 12) && (1 <=? d) && (d <=? days_in_month y m))%Z
      then Some (Some (mkdate y m d)) else None
    | _, _, _ => None
    end
  | _ => None
  end.

(** ** The analysis passes *)

Definition route_leb : string * string -> string * string -> bool :=
  pair_leb String.leb String.leb.

(** The (mean, median, count) aggregate of the price of a group. *)
Definition price_agg (g : list Row) : option Q * option Q * nat :=
  (group_mean (prices g), median (prices g), length (prices g)).

(** The nested [is_domestic] of [analyze_popular_routes]. *)
Definition route_is_domestic (o d : string) : bool :=
  in_values o AUSTRALIAN_CITIES && in_values d AUSTRALIAN_CITIES.

(** [groupby(['origin','destination']).size().reset_index(name='frequency')] *)
Definition route_counts (rs : list Row) : list (string * string * nat) :=
  map (fun g => (fst g, length (snd g))) (groupby route_leb route_key rs).

Definition by_frequency (p : string * string * nat) : Q := inject_Z (Z.of_nat (snd p)).

(** [top_n] is 10 when the caller gives none, as [run_all_analyses] does.
    On a table without routes the new column is empty and so is the list
    (pandas 2.x). *)
Definition analyze_popular_routes (top_n : Z) (self : DataProcessor)
    : DataProcessor * outcome :=
  match processed_data self with
  | None => (warning "No processed data available for route analysis" self, Returned)
  | Some df =>
    match missing_col df ["origin"; "destination"] with
    | Some c => (self, Raised (KeyError c))
    | None =>
      let popular := head_n top_n (sort_desc by_frequency (route_counts (rows df))) in
      let records :=
        map (fun p => mkRoute (fst (fst p)) (snd (fst p)) (snd p)
                              (route_is_domestic (fst (fst p)) (snd (fst p))))
            popular in
      (set_insight "popular_routes" (popular_routes_of records) self, Returned)
    end
  end.

Definition iso_fields (r : Row) : Row :=
  let iso := isocalendar <$> cell_date (flight_date r) in
  set_year (fst <$> iso) (set_week (snd <$> iso) r).

Definition year_week_key (r : Row) : option (Z * Z) :=
  match year r, week r with
  | Some y, Some w => Some (y, w)
  | _, _ => None
  end.

Definition analyze_price_trends (self : DataProcessor) : DataProcessor * outcome :=
  match processed_data self with
  | None => (warning "No price data available for trend analysis" self, Returned)
  | Some df =>
    if negb (has_col df "price")
    then (warning "No price data available for trend analysis" self, Returned)
    else if has_col df "flight_date" && date_dtype df then
      let daily :=
        map (fun g => let '(avg, med, n) := price_agg (snd g) in mkDaily (fst g) avg med n)
            (groupby date_leb (fun r => cell_date (flight_date r)) (rows df)) in
      (* df['week'] = ...; df['year'] = ... on the processed table itself *)
      let df := mkDF (add_col "year" (add_col "week" (columns df))) (date_dtype df)
                     (map iso_fields (rows df)) in
      let weekly :=
        map (fun g => let '(avg, med, n) := price_agg (snd g) in
                      mkWeekly (fst (fst g)) (snd (fst g)) avg med n)
            (groupby (pair_leb Z.leb Z.leb) year_week_key (rows df)) in
      (set_insight "weekly_price_trends" (weekly_price_trends_of weekly)
         (set_insight "daily_price_trends" (daily_price_trends_of daily)
            (set_processed df self)), Returned)
    else (warning "Flight date not available for trend analysis" self, Returned)
  end.

(** A column that holds a missing value has a float dtype, and
    [datetime(2000, m, 1)] refuses a float month. *)
Definition month_is_float (rs : list Row) : bool :=
  existsb (fun r => match month r with None => true | Some _ => false end) rs.

Definition month_label (is_float : bool) (m : Z) : exn + string :=
  if is_float then inl (TypeError "integer argument expected, got float")
  else match month_name m with
       | Some s => inr s
       | None => inl (ValueError "month must be in 1..12")
       end.

(** A list comprehension whose body may raise. *)
Fixpoint collect {A B} (f : A -> exn + B) (l : list A) : exn + list B :=
  match l with
  | [] => inr []
  | x :: t =>
    match f x with
    | inl e => inl e
    | inr y => match collect f t with
               | inl e => inl e
               | inr ys => inr (y :: ys)
               end
    end
  end.

Definition monthly_stats (rs : list Row) : list monthly_record :=
  map (fun g => let '(avg, med, n) := price_agg (snd g) in mkMonthly (fst g) avg med n)
      (groupby Z.leb month rs).

Definition day_stats (rs : list Row) : list dow_record :=
  map (fun g => let '(avg, med, n) := price_agg (snd g) in
                mkDow (fst g) avg med n (day_names (fst g)))
      (groupby Z.leb day_of_week rs).

Definition analyze_seasonal_patterns (self : DataProcessor) : DataProcessor * outcome :=
  match processed_data self with
  | None => (warning "No processed data available for seasonal analysis" self, Returned)
  | Some df0 =>
    let with_month :=
      if has_col df0 "month" then Some df0
      else if has_col df0 "flight_date" && date_dtype df0 then
        Some (mkDF (add_col "month" (columns df0)) (date_dtype df0)
                   (map (fun r => set_month (d_month <$> cell_date (flight_date r)) r)
                        (rows df0)))
      else None in
    match with_month with
    | None =>
      (warning "Date information not available for seasonal analysis" self, Returned)
    | Some df =>
      let self := set_processed df self in
      if negb (has_col df "price") then (self, Raised (KeyError "price"))
      else
        let monthly := monthly_stats (rows df) in
        let self :=
          if has_col df "day_of_week"
          then set_insight "day_of_week_patterns"
                 (day_of_week_patterns_of (day_stats (rows df))) self
          else self in
        let self := set_insight "monthly_patterns" (monthly_patterns_of monthly) self in
        let peak_months :=
          map mr_month
              (head_n 2 (sort_desc (fun m => inject_Z (Z.of_nat (mr_flight_count m))) monthly)) in
        match collect (month_label (month_is_float (rows df))) peak_months with
        | inl e => (self, Raised e)
        | inr names =>
          (set_insight "peak_travel_periods" (peak_travel_periods_of names) self, Returned)
        end
    end
  end.

(** [Series.var()] with one delta degree of freedom, in two passes: the
    mean, then the sum of the squared deviations of the cells that are
    not null. *)
Definition sample_variance (cells : list (option Q)) : option Q :=
  if (count cells <=? 1)%nat then None
  else
    let avg := fquot (pairwise_sum (zero_filled cells))
                     (inject_Z (Z.of_nat (count cells))) in
    let sqr := map (fun c => match c with
                             | Some x => fmul (fsub avg x) (fsub avg x)
                             | None => 0%Q
                             end) cells in
    Some (fquot (pairwise_sum sqr) (inject_Z (Z.of_nat (count cells) - 1))).

(** [pd.cut(price, bins=[0, 200, 500, 1000, inf], labels=...)]: the bins are
    closed on the right ([right=True], the default) and the lowest edge is
    not included. *)
Definition cut (x : option Q) : option category :=
  match x with
  | None => None
  | Some p =>
    if Qle_bool p 0 then None
    else if Qle_bool p 200 then Some Budget
    else if Qle_bool p 500 then Some Economy
    else if Qle_bool p 1000 then Some Premium
    else Some Luxury
  end.

Definition labels : list category := [Budget; Economy; Premium; Luxury].

(** [value_counts()] of a categorical column: every category, also an
    unused one, with its count, most frequent first. *)
Definition category_counts (cells : list (option category)) : list (category * nat) :=
  sort_desc (fun p => inject_Z (Z.of_nat (snd p)))
            (map (fun c => (c, count_of c (omap id cells))) labels).

Definition analyze_price_distribution (self : DataProcessor) : DataProcessor * outcome :=
  match processed_data self with
  | None => (warning "No price data available for distribution analysis" self, Returned)
  | Some df =>
    if negb (has_col df "price")
    then (warning "No price data available for distribution analysis" self, Returned)
    else
      let ps := prices (rows df) in
      let cells := map price (rows df) in
      let stats := mkStats (Qmin_list ps) (Qmax_list ps) (mean cells) (median ps)
                           (sample_variance cells) (quantile (1 # 4) ps)
                           (quantile (3 # 4) ps) in
      (* df['price_category'] = pd.cut(...) on the processed table itself *)
      let df := mkDF (add_col "price_category" (columns df)) (date_dtype df)
                     (map (fun r => set_price_category (cut (price r)) r) (rows df)) in
      let price_categories := category_counts (map price_category (rows df)) in
      (set_insight "price_categories" (price_categories_of price_categories)
         (set_insight "price_stats" (price_stats_of stats)
            (set_processed df self)), Returned)
  end.

(** [x > b] on float cells. *)
Definition gt_cell (x b : option Q) : bool :=
  match x, b with Some x, Some b => negb (Qle_bool x b) | _, _ => false end.

(** Opportunity 1: routes in demand above the median whose median price is
    above the median of those routes. *)
Definition high_demand_opportunities (df : DataFrame) : list opportunity :=
  if has_col df "origin" && has_col df "destination" then
    let route_demand := route_counts (rows df) in
    let cutoff := median (map by_frequency route_demand) in
    let high_demand :=
      List.filter (fun p => gt_cell (Some (by_frequency p)) cutoff) route_demand in
    if has_col df "price" then
      (* inner merge on the route: one price row for each demand row *)
      let route_analysis :=
        map (fun p => (p, median (prices (group_rows route_key (rows df) (fst p)))))
            high_demand in
      let price_cutoff := median (omap snd route_analysis) in
      let high_opportunity :=
        List.filter (fun x => gt_cell (snd x) price_cutoff) route_analysis in
      map (fun x => high_demand_high_price (fst (fst (fst x))) (snd (fst (fst x)))
                      (snd (fst x)) (snd x))
          (head_n 5 high_opportunity)
    else []
  else [].

Definition weekend_key (r : Row) : option (string * string * Z) :=
  match route_key r, is_weekend r with
  | Some k, Some w => Some (k, w)
  | _, _ => None
  end.

(** One row of the pivoted weekend table. *)
Record pivot_row := mkPivot {
  pv_route : string * string;
  pv_weekday_price : option Q;
  pv_weekend_price : option Q
}.

Definition pv_difference (p : pivot_row) : option Q :=
  match pv_weekend_price p, pv_weekday_price p with
  | Some we, Some wd => Some (we - wd)%Q
  | _, _ => None
  end.

Definition pv_ratio (p : pivot_row) : flt :=
  fdiv (pv_weekend_price p) (pv_weekday_price p).

(** Sorting key of [sort_values('price_difference', ascending=False)]; the
    rows that reach the sort all have a difference. *)
Definition pv_weight (p : pivot_row) : Q :=
  match pv_difference p with Some d => d | None => 0%Q end.

(** Opportunity 2: weekend against weekday median price of a route. *)
Definition weekend_opportunities (df : DataFrame) : exn + list opportunity :=
  if has_col df "is_weekend" && has_col df "price" then
    match missing_col df ["origin"; "destination"] with
    | Some c => inl (KeyError c)
    | None =>
      let medians :=
        map (fun g => (fst g, median (prices (snd g))))
            (groupby (pair_leb route_leb Z.leb) weekend_key (rows df)) in
      (* pivot_table drops the missing medians before reshaping *)
      let cells := omap (fun g => match snd g with
                                  | Some q => Some (fst g, q)
                                  | None => None
                                  end) medians in
      let flags := sort_keys Z.leb (unique (map (fun c => snd (fst c)) cells)) in
      let routes := sort_keys route_leb (unique (map (fun c => fst (fst c)) cells)) in
      let cell_of k w :=
        snd <$> List.find (fun c => bool_decide (fst c = (k, w))) cells in
      if bool_decide (0%Z ∈ flags) && bool_decide (1%Z ∈ flags) then
        if (2 <? length flags)%nat
        then inl (ValueError "Length mismatch")
        else
          let table := map (fun k => mkPivot k (cell_of k 0%Z) (cell_of k 1%Z)) routes in
          let selected :=
            sort_desc pv_weight (List.filter (fun p => fgt (pv_ratio p) (13 # 10)) table) in
          inr (omap (fun p =>
                       match pv_weekday_price p, pv_weekend_price p with
                       | Some wd, Some we =>
                         Some (weekend_premium (fst (pv_route p)) (snd (pv_route p))
                                               wd we (we - wd)%Q)
                       | _, _ => None
                       end)
                    (head_n 5 selected))
      else inr []
    end
  else inr [].

Definition month_key (r : Row) : option (string * string * Z) :=
  match route_key r, month r with
  | Some k, Some m => Some (k, m)
  | _, _ => None
  end.

(** A row of [monthly_prices] after [reset_index()], with its index label. *)
Record month_price := mkMonthPrice {
  mp_label : nat;
  mp_origin : string;
  mp_destination : string;
  mp_month : Z;
  mp_price : option Q
}.

Definition monthly_prices (rs : list Row) : list month_price :=
  let groups := groupby (pair_leb route_leb Z.leb) month_key rs in
  map (fun lg => let '(l, g) := lg in
                 mkMonthPrice l (fst (fst (fst g))) (snd (fst (fst g))) (snd (fst g))
                              (median (prices (snd g))))
      (combine (seq 0 (length groups)) groups).

(** [route_data['price'].idxmax()]: the index label of the largest price. *)
Definition label_of (pos : option nat) (route_data : list month_price) : option nat :=
  match pos with
  | Some i => mp_label <$> nth_error route_data i
  | None => None
  end.

(** [route_data.iloc[i]]: the row at position [i]. *)
Definition iloc (route_data : list month_price) (i : option nat) : exn + month_price :=
  match i with
  | Some i =>
    match nth_error route_data i with
    | Some r => inr r
    | None => inl (IndexError "single positional indexer is out-of-bounds")
    end
  | None => inl (ValueError "attempt to get argmax of an empty sequence")
  end.

(** The body of the loop over origins of opportunity 3. *)
Definition seasonal_opportunity (is_float : bool) (table : list month_price)
    (route : string) : exn + list opportunity :=
  let route_data := List.filter (fun r => String.eqb (mp_origin r) route) table in
  if (1 <? length route_data)%nat then
    let ps := omap mp_price route_data in
    let price_ratio :=
      match Qmin_list ps, Qmax_list ps with
      | Some lo, Some hi => if negb (Qle_bool lo 0) then (hi / lo)%Q else 1%Q
      | _, _ => 1%Q
      end in
    if negb (Qle_bool price_ratio (3 # 2)) then
      let imax := label_of (idxmax (map mp_price route_data)) route_data in
      let imin := label_of (idxmin (map mp_price route_data)) route_data in
      match iloc route_data imax with
      | inl e => inl e
      | inr hi_row =>
        match iloc route_data imin with
        | inl e => inl e
        | inr lo_row =>
          match month_label is_float (mp_month hi_row) with
          | inl e => inl e
          | inr high =>
            match month_label is_float (mp_month lo_row) with
            | inl e => inl e
            | inr low =>
              inr [seasonal_variation route (mp_destination hi_row) high low price_ratio]
            end
          end
        end
      end
    else inr []
  else inr [].

(** Opportunity 3: seasonal variation of the monthly median price, origin
    by origin. *)
Definition seasonal_opportunities (df : DataFrame) : exn + list opportunity :=
  if has_col df "month" && has_col df "price" then
    match missing_col df ["origin"; "destination"] with
    | Some c => inl (KeyError c)
    | None =>
      let table := monthly_prices (rows df) in
      match collect (seasonal_opportunity (month_is_float (rows df)) table)
                    (unique (map mp_origin table)) with
      | inl e => inl e
      | inr found => inr (concat found)
      end
    end
  else inr [].

Definition analyze_market_opportunities (self : DataProcessor) : DataProcessor * outcome :=
  match processed_data self with
  | None => (warning "No processed data available for opportunity analysis" self, Returned)
  | Some df =>
    let first := high_demand_opportunities df in
    match weekend_opportunities df with
    | inl e => (self, Raised e)
    | inr second =>
      match seasonal_opportunities df with
      | inl e => (self, Raised e)
      | inr third =>
        (set_insight "market_opportunities"
           (market_opportunities_of (first ++ second ++ third)) self, Returned)
      end
    end
  end.

(** [airport_to_city]: the two city dictionaries inverted, the second
    updating the first. *)
Definition airport_to_city : list (string * string) :=
  map (fun kv => (snd kv, fst kv)) (AUSTRALIAN_CITIES ++ POPULAR_INTERNATIONAL_DESTINATIONS).

(** [airport_to_city.get(code, code)] *)
Definition city_of (code : string) : string :=
  match List.find (fun kv => String.eqb (fst kv) code) (rev airport_to_city) with
  | Some kv => snd kv
  | None => code
  end.

(** [value_counts().head(5)] of a column of codes, with the city attached. *)
Definition top_codes (cells : list (option string)) : list code_count :=
  map (fun p => mkCode (fst p) (snd p) (city_of (fst p)))
      (head_n 5 (value_counts cells)).

(** [value_counts().idxmax()]: raises on an empty series. *)
Definition busiest {V} `{EqDecision V} (cells : list (option V)) : exn + V :=
  match value_counts cells with
  | p :: _ => inr (fst p)
  | [] => inl (ValueError "attempt to get argmax of an empty sequence")
  end.

Definition is_flag (v : Z) (r : Row) : bool := bool_decide (is_weekend r = Some v).

(** [round((weekend_mean / weekday_mean - 1) * 100, 1)]; an infinite or
    undefined ratio stays what it is. *)
Definition premium (weekend_mean weekday_mean : option Q) : flt :=
  match fdiv weekend_mean weekday_mean with
  | FFin q => FFin (round1 (fmul (fsub (b64 q) 1) 100))
  | other => other
  end.

Definition generate_summary_insights (self : DataProcessor) : DataProcessor * outcome :=
  match processed_data self with
  | None => (warning "No processed data available for summary insights" self, Returned)
  | Some df =>
    let rs := rows df in
    let n := length rs in
    let has := has_col df in
    let domestic_count :=
      length (List.filter (fun r => bool_decide (is_domestic r = Some true)) rs) in
    let domestic_df := List.filter (fun r => bool_decide (is_domestic r = Some true)) rs in
    let international_df := List.filter (fun r => bool_decide (is_domestic r = Some false)) rs in
    let weekend_df := List.filter (is_flag 1) rs in
    let weekday_df := List.filter (is_flag 0) rs in
    let day :=
      if has "day_of_week" then
        match busiest (map day_of_week rs) with
        | inl e => inl e
        | inr d => inr (Some (day_names d))
        end
      else inr None in
    let month_ :=
      if has "month" then
        match busiest (map month rs) with
        | inl e => inl e
        | inr m =>
          match month_label (month_is_float rs) m with
          | inl e => inl e
          | inr s => inr (Some s)
          end
        end
      else inr None in
    match day with
    | inl e => (self, Raised e)
    | inr busiest_day_ =>
      match month_ with
      | inl e => (self, Raised e)
      | inr busiest_month_ =>
        let s := {|
          total_flights := n;
          domestic_flights :=
            if has "is_domestic" then Some (Z.of_nat domestic_count) else None;
          international_flights :=
            if has "is_domestic" then Some (Z.of_nat n - Z.of_nat domestic_count)%Z else None;
          domestic_percentage :=
            if has "is_domestic" then
              Some (if (n =? 0)%nat then None
                    else Some (round1 (fmul (fquot (inject_Z (Z.of_nat domestic_count))
                                                   (inject_Z (Z.of_nat n))) 100)))
            else None;
          avg_price := if has "price" then Some (round2 <$> mean (map price rs)) else None;
          median_price := if has "price" then Some (round2 <$> median (prices rs)) else None;
          avg_domestic_price :=
            if has "price" && has "is_domestic" && (0 <? length domestic_df)%nat
            then Some (round2 <$> mean (map price domestic_df)) else None;
          avg_international_price :=
            if has "price" && has "is_domestic" && (0 <? length international_df)%nat
            then Some (round2 <$> mean (map price international_df)) else None;
          top_origins := if has "origin" then Some (top_codes (map origin rs)) else None;
          top_destinations :=
            if has "destination" then Some (top_codes (map destination rs)) else None;
          busiest_day := busiest_day_;
          weekend_price_premium :=
            if has "day_of_week" && has "is_weekend" && has "price"
               && (0 <? length weekend_df)%nat && (0 <? length weekday_df)%nat
            then Some (premium (mean (map price weekend_df)) (mean (map price weekday_df)))
            else None;
          busiest_month := busiest_month_
        |} in
        (set_insight "summary" (summary_of s) self, Returned)
      end
    end
  end.

(** Sequencing of two methods: an exception ends the run. *)
Definition and_then (f g : DataProcessor -> DataProcessor * outcome)
    (self : DataProcessor) : DataProcessor * outcome :=
  match f self with
  | (self, Returned) => g self
  | (self, Raised e) => (self, Raised e)
  end.

Definition run_all_analyses (parse_datetime : string -> option (option date))
    (self : DataProcessor) : DataProcessor * outcome :=
  match raw_data self with
  | None => (warning "No data available for analysis" self, Returned)
  | Some _ =>
    and_then (clean_data parse_datetime)
      (and_then (analyze_popular_routes 10)
        (and_then analyze_price_trends
          (and_then analyze_seasonal_patterns
            (and_then analyze_price_distribution
              (and_then analyze_market_opportunities generate_summary_insights)))))
      self
  end.

(** What [get_insights] hands back: the whole mapping or one entry. *)
Inductive insights_view :=
| all_insights (m : gmap string insight)
| one_insight (v : insight).

Definition get_insights (category : option string) (self : DataProcessor)
    : DataProcessor * insights_view :=
  if bool_decide (insights self = ∅)
  then (warning "No insights available. Run analyses first." self, all_insights ∅)
  else
    match category with
    | Some c =>
      if negb (String.eqb c "") then
        match insights self !! c with
        | Some v => (self, one_insight v)
        | None => (self, all_insights (insights self))
        end
      else (self, all_insights (insights self))
    | None => (self, all_insights (insights self))
    end.

(** ** Dashboard filter ([app.py]) *)

Definition selected (name : string) (route_types : list string) : bool :=
  existsb (String.eqb name) route_types.

Definition in_price_range (price_range : Q * Q) (r : Row) : bool :=
  ge_cell (price r) (Some (fst price_range)) && le_cell (price r) (Some (snd price_range)).

Definition filter_data (data : option DataFrame) (route_types : list string)
    (price_range : Q * Q) : exn + DataFrame :=
  match data with
  | None => inr empty_frame
  | Some data =>
    if df_empty data then inr empty_frame
    else
      let filtered := data in   (* data.copy() *)
      let by_type (v : bool) :=
        if has_col filtered "is_domestic" then
          inr (mkDF (columns filtered) (date_dtype filtered)
                    (List.filter (fun r => bool_decide (is_domestic r = Some v))
                                 (rows filtered)))
        else inl (KeyError "is_domestic") in
      let routed :=
        if selected "Domestic" route_types && selected "International" route_types
        then inr filtered
        else if selected "Domestic" route_types then by_type true
        else if selected "International" route_types then by_type false
        else inr filtered in
      match routed with
      | inl e => inl e
      | inr filtered =>
        if has_col filtered "price" then
          inr (mkDF (columns filtered) (date_dtype filtered)
                    (List.filter (in_price_range price_range) (rows filtered)))
        else inr filtered
      end
  end.

(** *** The filter on references

    The same function with the frames held in a store and passed by
    reference, as Python passes them: [pd.DataFrame()], [data.copy()] and
    an indexing [frame[mask]] each make a new frame; an assignment to the
    local name [filtered] changes no frame. *)

(** The frames of the program; a reference is the position of a frame. *)
Definition store := list DataFrame.

(** A new frame gets a reference that no frame of the store has. *)
Definition alloc (df : DataFrame) (h : store) : store * nat :=
  ((h ++ [df])%list, length h).

(** The frame a reference denotes.  The references a program holds all
    denote a frame; any other reads as the empty frame. *)
Definition deref (h : store) (ref : nat) : DataFrame := default empty_frame (h !! ref).



(** ** The city table of the charts ([visualizations.py]) *)

Definition AIRPORT_TO_CITY : list (string * string) :=
  [("SYD", "Sydney"); ("MEL", "Melbourne"); ("BNE", "Brisbane"); ("PER", "Perth");
   ("ADL", "Adelaide"); ("DRW", "Darwin"); ("OOL", "Gold Coast"); ("CNS", "Cairns");
   ("CBR", "Canberra"); ("HBA", "Hobart");
   ("AKL", "Auckland"); ("SIN", "Singapore"); ("DPS", "Bali"); ("HND", "Tokyo");
   ("HKG", "Hong Kong"); ("LAX", "Los Angeles"); ("LHR", "London"); ("DXB", "Dubai");
   ("BKK", "Bangkok"); ("KUL", "Kuala Lumpur")].

(** [AIRPORT_TO_CITY.get(airport_code, airport_code)]; the keys of the
    literal are distinct. *)
Definition get_city_name (airport_code : string) : string :=
  match List.find (fun kv => String.eqb (fst kv) airport_code) AIRPORT_TO_CITY with
  | Some kv => snd kv
  | None => airport_code
  end.

(** ** Generated insights ([generate_ai_insights]) *)

Record ai_insights := mkAI {
  trend_summary : string;
  market_observations : list string;
  hostel_recommendations : list string;
  seasonal_strategies : list string
}.

(** What [generate_ai_insights] returns: the two-key dictionary of a
    provider placeholder, or the four-key dictionary of the mock. *)
Inductive ai_result :=
| provider_insights (trend : string) (recommendations : list string)
| mock_insights (i : ai_insights).

Definition generate_openai_insights (data : gmap string insight) : ai_result :=
  provider_insights "OpenAI trend analysis would be here"
                    ["Recommendation 1"; "Recommendation 2"].

Definition generate_gemini_insights (data : gmap string insight) : ai_result :=
  provider_insights "Google Gemini trend analysis would be here"
                    ["Recommendation 1"; "Recommendation 2"].

(** [str(x)] of a cell that may be [None]. *)
Definition str_cell (s : option string) : string :=
  match s with Some s => s | None => "None" end.

(** [{month: flight_count for item in records}]: a dictionary keeps the
    place of the first occurrence of a key and the value of the last. *)
Fixpoint dict_set (k : Z) (v : nat) (d : list (Z * nat)) : list (Z * nat) :=
  match d with
  | [] => [(k, v)]
  | (k', v') :: t => if Z.eqb k' k then (k, v) :: t else (k', v') :: dict_set k v t
  end.

Definition flight_counts (l : list monthly_record) : list (Z * nat) :=
  fold_left (fun d item => dict_set (mr_month item) (mr_flight_count item) d) l [].

Definition observation (r : route_record) : string :=
  "High demand observed between " ++ rr_origin r ++ " and " ++ rr_destination r
  ++ ", suggesting strong traveler interest in this route.".

(** The recommendation an opportunity gives rise to; a weekend premium
    gives none. *)
Definition recommendation (x : opportunity) : list string :=
  match x with
  | high_demand_high_price _ dest _ _ =>
    ["Consider expanding hostel capacity near " ++ dest
     ++ " airport due to high demand and premium pricing in this market."]
  | seasonal_variation _ dest high_month _ _ =>
    ["Implement dynamic pricing for hostels near " ++ dest ++ " during " ++ high_month
     ++ " to capitalize on peak travel season pricing."]
  | weekend_premium _ _ _ _ _ => []
  end.

Definition peak_strategy (month_name : string) : string :=
  "Increase hostel capacity and rates during " ++ month_name
  ++ ", which shows significantly higher travel volume.".

Definition general_strategy : string :=
  "Consider offering package deals with local attractions during shoulder seasons to boost occupancy rates.".

Section GeneratedInsights.
(** [str(x)] of a float, as an f-string prints it. *)
Variable str_float : option Q -> string.
Variable str_flt : flt -> string.
(** [config.OPENAI_API_KEY] and [config.GOOGLE_API_KEY], read from the
    environment. *)
Variable OPENAI_API_KEY : string.
Variable GOOGLE_API_KEY : string.

Definition trend_summary_of (data : gmap string insight) : string :=
  match data !! "summary" with
  | Some (summary_of s) =>
    (match domestic_percentage s with
     | Some domestic_pct =>
       if gt_cell domestic_pct (Some 70%Q)
       then "The market is predominantly domestic (" ++ str_float domestic_pct
            ++ "% of flights), suggesting strong intra-Australian travel demand. "
       else "There's a healthy mix of domestic (" ++ str_float domestic_pct
            ++ "%) and international flights, indicating diverse travel patterns. "
     | None => ""
     end)
    ++ (match busiest_day s, busiest_month s with
        | Some d, Some m =>
          str_cell d ++ " is the most popular day for flights, and " ++ m
          ++ " shows the highest travel activity. "
        | _, _ => ""
        end)
    ++ (match weekend_price_premium s with
        | Some premium =>
          "Weekend flights command a " ++ str_flt premium
          ++ "% price premium over weekday flights. "
        | None => ""
        end)
  | _ => ""
  end.

Definition market_observations_of (data : gmap string insight) : list string :=
  match data !! "popular_routes" with
  | Some (popular_routes_of routes) => map observation (firstn 5 routes)
  | _ => []
  end.

Definition hostel_recommendations_of (data : gmap string insight) : list string :=
  match data !! "market_opportunities" with
  | Some (market_opportunities_of opportunities) =>
    concat (map recommendation (firstn 3 opportunities))
  | _ => []
  end.

(** [months_are_float] says whether the months of the records are floats,
    which the records themselves do not keep: [datetime(2000, m, 1)]
    refuses a float. *)
Definition seasonal_strategies_of (months_are_float : bool) (data : gmap string insight)
    : exn + list string :=
  match data !! "monthly_patterns" with
  | Some (monthly_patterns_of records) =>
    let peak_months :=
      if (0 <? length records)%nat
      then firstn 2 (sort_desc (fun kv => inject_Z (Z.of_nat (snd kv)))
                               (flight_counts records))
      else [] in
    match collect (fun kv => month_label months_are_float (fst kv)) peak_months with
    | inl e => inl e
    | inr names => inr (map peak_strategy names ++ [general_strategy])%list
    end
  | _ => inr []
  end.

(** The document is read through the shapes its keys have in the
    processor. *)
Definition generate_mock_ai_insights (months_are_float : bool) (data : gmap string insight)
    : exn + ai_result :=
  match seasonal_strategies_of months_are_float data with
  | inl e => inl e
  | inr strategies =>
    inr (mock_insights (mkAI (trend_summary_of data) (market_observations_of data)
                             (hostel_recommendations_of data) strategies))
  end.

Definition generate_ai_insights (months_are_float : bool) (data : gmap string insight)
    (ai_provider : string) : exn + ai_result :=
  if String.eqb ai_provider "openai" && negb (String.eqb OPENAI_API_KEY "")
  then inr (generate_openai_insights data)
  else if String.eqb ai_provider "gemini" && negb (String.eqb GOOGLE_API_KEY "")
  then inr (generate_gemini_insights data)
  else generate_mock_ai_insights months_are_float data.
End GeneratedInsights.

(** ** The request loop of the collector ([data_collector.py]) *)

(** [config.MAX_API_RETRIES] *)
Definition MAX_API_RETRIES : nat := 3.

Section Collector.
(** The payload of a response, as [response.json()] returns it. *)
Variable J : Type.

(** What [requests.get] does on one call: it raises a RequestException,
    or it returns a response with a status code and a body, which is JSON
    or not ([response.json()] raises a RequestException on a body that is
    not). *)
Inductive reply :=
| request_failed
| replied (status_code : Z) (json : option J).

(** What the loop does, in order; the text of a log message is not kept. *)
Inductive event :=
| requested
| slept (seconds : Z)
| logged_warning
| logged_error.

(** The loops of [handle_api_error] and of the clients can raise one
    exception of their own. *)
Inductive collector_exn := APIRateLimitError.

(** [handle_api_error(response, service_name)]: logs the error, then raises
    on status 429 and returns [None] otherwise. *)
Definition handle_api_error (status_code : Z) : list event * (collector_exn + option J) :=
  ([logged_error],
   if (status_code =? 429)%Z then inl APIRateLimitError else inr None).

(** One turn of [for attempt in range(config.MAX_API_RETRIES)]: the events
    of the turn and, when the turn leaves the loop, what it returns. *)
Definition attempt_once (attempt : nat) (r : reply)
    : list event * option (collector_exn + option J) :=
  match r with
  | request_failed => ([requested; logged_error; slept 1], None)
  | replied status_code json =>
    if (status_code =? 200)%Z then
      match json with
      | Some payload => ([requested], Some (inr (Some payload)))
      | None => ([requested; logged_error; slept 1], None)
      end
    else if (status_code =? 429)%Z then
      ([requested; logged_warning; slept (Z.min (2 ^ Z.of_nat attempt) 60)], None)
    else
      let '(events, result) := handle_api_error status_code in
      ((requested :: events)%list, Some result)
  end.

(** The loop over the attempts that are left, against the replies of the
    server to the successive requests. *)
Fixpoint attempts (todo : list nat) (server : nat -> reply)
    : list event * (collector_exn + option J) :=
  match todo with
  | [] => ([], inr None)
  | attempt :: rest =>
    match attempt_once attempt (server attempt) with
    | (events, Some result) => (events, result)
    | (events, None) =>
      let '(later, result) := attempts rest server in ((events ++ later)%list, result)
    end
  end.

(** [AviationStackAPI.get_flights] and [OpenSkyAPI.get_flights_by_airport]:
    the same loop around one request. *)
Definition get_flights (server : nat -> reply) : list event * (collector_exn + option J) :=
  attempts (seq 0 MAX_API_RETRIES) server.

Definition requests_of (trace : list event) : nat :=
  length (List.filter (fun e => match e with requested => true | _ => false end) trace).

Definition seconds_slept (trace : list event) : Z :=
  fold_right Z.add 0%Z
    (map (fun e => match e with slept s => s | _ => 0%Z end) trace).

(** A reply the loop retries after. *)
Definition retried (r : reply) : bool :=
  match r with
  | request_failed => true
  | replied status_code json =>
    if (status_code =? 200)%Z then match json with Some _ => false | None => true end
    else (status_code =? 429)%Z
  end.
End Collector.

Arguments request_failed {J}.
Arguments replied {J} status_code json.
Arguments get_flights {J} server.
Arguments retried {J} r.

(** * Specification vocabulary

    Definitions used to state the properties: what the specification calls
    the identity key, a route frequency, a bucket, a pass and its frame, and
    the concrete tables the scenarios run on. *)

(** ** The cleaner *)

(** The identity key of a flight, also the columns [drop_duplicates] needs. *)
Definition identity_columns : list string :=
  ["flight_date"; "flight_time"; "origin"; "destination"; "airline"].

(** The table after "Handle missing values" when the route columns exist. *)
Definition imputed (raw : DataFrame) : DataFrame :=
  if has_col raw "price" && isna_any (rows raw) then
    let filled := map (fun r => fillna (route_median (rows raw) r) r) (rows raw) in
    mkDF (columns raw) (date_dtype raw) (map (fillna (median (prices filled))) filled)
  else raw.

(** What imputation does to one row. *)
Definition imputed_price (raw : DataFrame) (r0 : Row) : option Q :=
  match price r0 with
  | Some p => Some p
  | None =>
    match route_median (rows raw) r0 with
    | Some m => Some m
    | None =>
      median (prices (map (fun r => fillna (route_median (rows raw) r) r) (rows raw)))
    end
  end.

(** Two rows that differ at most in the [flight_date] cell. *)
Definition same_but_date (r r' : Row) : Prop :=
  r' = set_flight_date (flight_date r') r.

(** The table [clean_data] stores when nothing raises. *)
Definition cleaned (parse_datetime : string -> option (option date)) (raw : DataFrame)
    : DataFrame :=
  let df := fst (ensure_datetime parse_datetime (imputed raw)) in
  add_date_fields
    (remove_outliers
       (if (3 <? length (columns df))%nat
        then mkDF (columns df) (date_dtype df) (keep_first (rows df)) else df)).

Definition date_columns (cols : list string) : list string :=
  add_col "is_weekend" (add_col "month" (add_col "day_of_week" cols)).


(** ** Orders and routes *)

(** The order of a list sorted by descending weight. *)
Definition heavier {A : Type} (weight : A -> Q) (x y : A) : Prop :=
  (weight y <= weight x)%Q.

(** The number of rows of a table that fly from [o] to [d]. *)
Definition route_frequency (df : DataFrame) (o d : string) : nat :=
  length (List.filter
            (fun r => bool_decide (origin r = Some o /\ destination r = Some d))
            (rows df)).

(** The configured domestic airports. *)
Definition domestic_airports : list string := dict_values AUSTRALIAN_CITIES.

Definition route_of (e : route_record) : string * string :=
  (rr_origin e, rr_destination e).

(** ** Price buckets *)

(** Membership of a price in the bucket of a label, the buckets read as
    the code cuts them: open on the left, closed on the right. *)
Definition in_bucket (c : category) (r : Row) : bool :=
  match price r with
  | None => false
  | Some p =>
    match c with
    | Budget => negb (Qle_bool p 0) && Qle_bool p 200
    | Economy => negb (Qle_bool p 200) && Qle_bool p 500
    | Premium => negb (Qle_bool p 500) && Qle_bool p 1000
    | Luxury => negb (Qle_bool p 1000)
    end
  end.

(** Membership in the buckets as the specification words them: closed on
    the left, open on the right. *)
Definition in_left_closed_bucket (c : category) (r : Row) : bool :=
  match price r with
  | None => false
  | Some p =>
    match c with
    | Budget => Qle_bool 0 p && negb (Qle_bool 200 p)
    | Economy => Qle_bool 200 p && negb (Qle_bool 500 p)
    | Premium => Qle_bool 500 p && negb (Qle_bool 1000 p)
    | Luxury => Qle_bool 1000 p
    end
  end.

Definition has_positive_price (r : Row) : bool :=
  match price r with
  | Some p => negb (Qle_bool p 0)
  | None => false
  end.

Definition has_price (r : Row) : bool :=
  match price r with Some _ => true | None => false end.

Definition total_count (l : list (category * nat)) : nat :=
  fold_right Nat.add 0%nat (map snd l).

(** The [price_categories] entry after the distribution pass. *)
Definition price_categories_after (self : DataProcessor) : option insight :=
  insights (fst (analyze_price_distribution self)) !! "price_categories".

(** ** Weekend and weekday rows *)



(** ** The passes and the state they share *)

Inductive pass :=
| popular_routes_pass
| price_trends_pass
| seasonal_patterns_pass
| price_distribution_pass
| market_opportunities_pass
| summary_pass.

Definition run_pass (p : pass) : DataProcessor -> DataProcessor * outcome :=
  match p with
  | popular_routes_pass => analyze_popular_routes 10
  | price_trends_pass => analyze_price_trends
  | seasonal_patterns_pass => analyze_seasonal_patterns
  | price_distribution_pass => analyze_price_distribution
  | market_opportunities_pass => analyze_market_opportunities
  | summary_pass => generate_summary_insights
  end.

(** The keys of the insights document a pass owns. *)
Definition keys_of (p : pass) : list string :=
  match p with
  | popular_routes_pass => ["popular_routes"]
  | price_trends_pass => ["daily_price_trends"; "weekly_price_trends"]
  | seasonal_patterns_pass =>
    ["monthly_patterns"; "day_of_week_patterns"; "peak_travel_periods"]
  | price_distribution_pass => ["price_stats"; "price_categories"]
  | market_opportunities_pass => ["market_opportunities"]
  | summary_pass => ["summary"]
  end.

(** The helper columns a pass assigns on the processed table; the seasonal
    pass assigns [month] only when the table has no such column. *)
Definition assigned_columns (p : pass) (df : DataFrame) : list string :=
  match p with
  | price_trends_pass => ["week"; "year"]
  | seasonal_patterns_pass => if has_col df "month" then [] else ["month"]
  | price_distribution_pass => ["price_category"]
  | _ => []
  end.

(** The content of a cell, whatever its column. *)
Inductive cell :=
| date_cell_of (c : date_cell)
| text_cell_of (s : option string)
| float_cell_of (q : option Q)
| int_cell_of (z : option Z)
| bool_cell_of (b : option bool)
| label_cell_of (c : option category).

(** [row[c]] for the columns the model gives a cell. *)
Definition cell_at (c : string) (r : Row) : option cell :=
  if String.eqb c "flight_date" then Some (date_cell_of (flight_date r))
  else if String.eqb c "flight_time" then Some (text_cell_of (flight_time r))
  else if String.eqb c "origin" then Some (text_cell_of (origin r))
  else if String.eqb c "destination" then Some (text_cell_of (destination r))
  else if String.eqb c "price" then Some (float_cell_of (price r))
  else if String.eqb c "airline" then Some (text_cell_of (airline r))
  else if String.eqb c "duration" then Some (int_cell_of (duration r))
  else if String.eqb c "is_domestic" then Some (bool_cell_of (is_domestic r))
  else if String.eqb c "day_of_week" then Some (int_cell_of (day_of_week r))
  else if String.eqb c "month" then Some (int_cell_of (month r))
  else if String.eqb c "is_weekend" then Some (int_cell_of (is_weekend r))
  else if String.eqb c "week" then Some (int_cell_of (week r))
  else if String.eqb c "year" then Some (int_cell_of (year r))
  else if String.eqb c "price_category" then Some (label_cell_of (price_category r))
  else None.

(** What a pass may change: it may append and fill its helper columns and
    write its own keys. *)
Definition frame (p : pass) (self self' : DataProcessor) (df : DataFrame) : Prop :=
  raw_data self' = raw_data self
  /\ (forall k, ~ In k (keys_of p) -> insights self' !! k = insights self !! k)
  /\ exists df',
       processed_data self' = Some df'
       /\ date_dtype df' = date_dtype df
       /\ (exists added, columns df' = (columns df ++ added)%list
                         /\ incl added (assigned_columns p df))
       /\ (forall c, ~ In c (assigned_columns p df) ->
             map (cell_at c) (rows df') = map (cell_at c) (rows df))
       /\ (assigned_columns p df = [] -> df' = df).

(** ** The dashboard selection *)






(** Every frame of the store [h] is in [h'] under the same reference, as
    it was. *)
Definition untouched (h h' : store) : Prop :=
  forall ref df, h !! ref = Some df -> h' !! ref = Some df.

(** ** Concrete tables *)

(** The columns the collector writes. *)
Definition collected_columns : list string :=
  ["flight_date"; "flight_time"; "origin"; "destination"; "price"; "airline";
   "duration"; "is_domestic"].

Definition flight (day o d : string) (fare : option Q) : Row :=
  mkRow (DateStr day) (Some "10:00") (Some o) (Some d) fare (Some "Qantas")
        (Some 90%Z) (Some (route_is_domestic o d)) None None None None None None.

(** The four flights of the imputation scenario. *)
Definition four_flights : DataFrame :=
  mkDF collected_columns false
    [flight "2024-01-01" "SYD" "MEL" (Some 150%Q);
     flight "2024-01-02" "SYD" "MEL" (Some 160%Q);
     flight "2024-01-03" "SYD" "LAX" (Some 1200%Q);
     flight "2024-01-04" "SYD" "LAX" None].

(** Two flights to Melbourne and one to Los Angeles. *)
Definition three_flights : DataFrame :=
  mkDF collected_columns false
    [flight "2024-01-01" "SYD" "MEL" (Some 150%Q);
     flight "2024-01-02" "SYD" "MEL" (Some 160%Q);
     flight "2024-01-03" "SYD" "LAX" (Some 1200%Q)].


(** A table without [flight_time] and [airline]. *)
Definition no_airline : DataFrame :=
  mkDF ["flight_date"; "origin"; "destination"; "price"] false
    [mkRow (DateStr "2024-01-01") None (Some "SYD") (Some "MEL") (Some 150%Q) None
           None None None None None None None None].

(** One origin, January at 1000 and June at 400. *)
Definition one_origin : DataFrame :=
  mkDF collected_columns false
    [flight "2024-01-08" "SYD" "MEL" (Some 1000%Q);
     flight "2024-06-03" "SYD" "MEL" (Some 400%Q)].

(** The same two months out of two origins. *)
Definition two_origins : DataFrame :=
  mkDF collected_columns false
    [flight "2024-01-08" "MEL" "BNE" (Some 1000%Q);
     flight "2024-06-03" "MEL" "BNE" (Some 400%Q);
     flight "2024-01-09" "SYD" "PER" (Some 1000%Q);
     flight "2024-06-04" "SYD" "PER" (Some 400%Q)].

(** A first origin with one month, a second with three. *)
Definition three_months : DataFrame :=
  mkDF collected_columns false
    [flight "2024-02-05" "MEL" "BNE" (Some 500%Q);
     flight "2024-01-09" "SYD" "PER" (Some 400%Q);
     flight "2024-06-04" "SYD" "PER" (Some 1000%Q);
     flight "2024-09-03" "SYD" "PER" (Some 700%Q)].

(** Four fares, two of them on a bucket edge. *)
Definition boundary_fares : DataFrame :=
  mkDF collected_columns false
    [flight "2024-03-04" "SYD" "MEL" (Some 0%Q);
     flight "2024-03-05" "SYD" "MEL" (Some 200%Q);
     flight "2024-03-06" "SYD" "MEL" (Some 300%Q);
     flight "2024-03-07" "SYD" "MEL" (Some 600%Q)].

(** Weekend flights at 200 and weekday flights at 100. *)
Definition weekend_fares : DataFrame :=
  mkDF collected_columns false
    [flight "2024-01-06" "SYD" "MEL" (Some 200%Q);
     flight "2024-01-07" "SYD" "BNE" (Some 200%Q);
     flight "2024-01-08" "SYD" "MEL" (Some 100%Q);
     flight "2024-01-09" "SYD" "BNE" (Some 100%Q)].

Definition two_flights : DataFrame :=
  mkDF ["origin"; "destination"; "price"; "is_domestic"] false
    [mkRow DateNaT None (Some "SYD") (Some "MEL") (Some 150%Q) None None (Some true)
           None None None None None None;
     mkRow DateNaT None (Some "SYD") (Some "LAX") (Some 1200%Q) None None (Some false)
           None None None None None None].

Definition cleaned_four : DataProcessor :=
  fst (clean_data parse_iso_date (load_data four_flights new_processor)).

Definition cleaned_three : DataProcessor :=
  fst (clean_data parse_iso_date (load_data three_flights new_processor)).

Definition cleaned_boundary : DataProcessor :=
  fst (clean_data parse_iso_date (load_data boundary_fares new_processor)).

Definition cleaned_weekend : DataProcessor :=
  fst (clean_data parse_iso_date (load_data weekend_fares new_processor)).

Definition cleaned_one_origin : DataProcessor :=
  fst (clean_data parse_iso_date (load_data one_origin new_processor)).

Definition cleaned_two_origins : DataProcessor :=
  fst (clean_data parse_iso_date (load_data two_origins new_processor)).

Definition cleaned_three_months : DataProcessor :=
  fst (clean_data parse_iso_date (load_data three_months new_processor)).

Definition summary_only : DataProcessor :=
  set_insight "price_categories" (price_categories_of [(Budget, 1%nat)]) new_processor.

(** ** Further vocabulary *)

(** The rows that survive deduplication and the price fence, before the
    calendar columns are added. *)
Definition retained (parse_datetime : string -> option (option date)) (raw : DataFrame)
    : list Row :=
  let deduped := keep_first (rows (fst (ensure_datetime parse_datetime (imputed raw)))) in
  if has_col raw "price"
  then List.filter (within_fence (prices deduped)) deduped
  else deduped.

(** The price column the fence is computed over: after imputation and
    deduplication. *)
Definition fenced_prices (parse_datetime : string -> option (option date))
    (raw : DataFrame) : list Q :=
  prices (keep_first (rows (fst (ensure_datetime parse_datetime (imputed raw))))).

(** The columns [clean_data] derives from the flight date. *)
Definition calendar_columns : list string := ["day_of_week"; "month"; "is_weekend"].

(** The keys of the insights document the pipeline knows. *)
Definition documented_keys : list string :=
  ["popular_routes"; "daily_price_trends"; "weekly_price_trends"; "monthly_patterns";
   "day_of_week_patterns"; "peak_travel_periods"; "price_stats"; "price_categories";
   "market_opportunities"; "summary"].

(** The warnings of a run that finds no data to clean. *)
Definition no_data_warnings : list string :=
  ["No data to clean";
   "No processed data available for route analysis";
   "No price data available for trend analysis";
   "No processed data available for seasonal analysis";
   "No price data available for distribution analysis";
   "No processed data available for opportunity analysis";
   "No processed data available for summary insights"].

(** The steps of the run after the cleaning, in order. *)
Definition analyses : list pass :=
  [popular_routes_pass; price_trends_pass; seasonal_patterns_pass;
   price_distribution_pass; market_opportunities_pass; summary_pass].

Fixpoint run_passes (ps : list pass) (self : DataProcessor) : DataProcessor * outcome :=
  match ps with
  | [] => (self, Returned)
  | [p] => run_pass p self
  | p :: ps => and_then (run_pass p) (run_passes ps) self
  end.

(** The columns a cleaned table with parsed dates is known to have. *)
Definition cleaned_columns : list string :=
  ["flight_date"; "origin"; "destination"; "price"; "day_of_week"; "month"; "is_weekend"].

(** A processed table without rows, with parsed dates and the columns of a
    cleaned table. *)
Definition drained (df : DataFrame) : Prop :=
  rows df = [] /\ date_dtype df = true
  /\ Forall (fun c => has_col df c = true) cleaned_columns.






(** The number of rows of a table that hold [v] in a column. *)
Definition cells_equal {V} `{EqDecision V} (col : Row -> option V) (df : DataFrame) (v : V)
    : nat :=
  length (List.filter (fun r => bool_decide (col r = Some v)) (rows df)).

(** What an entry of [top_origins] or [top_destinations] says. *)
Definition counts_column (col : Row -> option string) (df : DataFrame) (c : code_count)
    : Prop :=
  cc_count c = cells_equal col df (cc_code c)
  /\ (0 < cc_count c)%nat
  /\ cc_city c = city_of (cc_code c).

(** The sum of a count over the records of a list. *)
Definition counted {A} (count : A -> nat) (l : list A) : nat :=
  fold_right Nat.add 0%nat (map count l).



(** The number of priced flights of a month. *)
Definition month_flights (df : DataFrame) (m : Z) : nat :=
  length (prices (group_rows month (rows df) m)).

Definition interpolated (p : Q) (l : list Q) : Q :=
  let s := sort_values l in
  let h := (inject_Z (Z.of_nat (length l) - 1) * p)%Q in
  let lo := Qfloor h in
  let frac := (h - inject_Z lo)%Q in
  let a := nth (Z.to_nat lo) s 0%Q in
  let b := nth (Z.to_nat (lo + 1)) s a in
  (a + frac * (b - a))%Q.

(** Two flights without a price. *)
Definition unpriced_flights : DataFrame :=
  mkDF collected_columns false
    [flight "2024-01-01" "SYD" "MEL" None;
     flight "2024-01-02" "SYD" "LAX" None].

(** A table in which one flight date is not a date. *)
Definition misdated_flights : DataFrame :=
  mkDF collected_columns false
    [flight "2024-01-01" "SYD" "MEL" (Some 150%Q);
     flight "soon" "SYD" "MEL" (Some 160%Q)].

(** A table with the identity columns only. *)
Definition fareless_flights : DataFrame :=
  mkDF identity_columns false
    [mkRow (DateStr "2024-01-01") (Some "10:00") (Some "SYD") (Some "MEL") None
           (Some "Qantas") None None None None None None None None].

(** A table with its columns and no flight. *)
Definition no_flights : DataFrame := mkDF collected_columns false [].

Definition domestic_only : DataFrame :=
  mkDF ["origin"; "destination"; "price"; "is_domestic"] false
    [mkRow DateNaT None (Some "SYD") (Some "MEL") (Some 150%Q) None None (Some true)
           None None None None None None].

(** A server that is busy once and then answers. *)
Definition busy_once (i : nat) : reply nat :=
  match i with
  | O => replied 429 None
  | _ => replied 200 (Some 7%nat)
  end.

(** A rendering of floats that prints no digit. *)
Definition no_digits (x : option Q) : string := "".

Definition no_digits_flt (x : flt) : string := "".

(** The insights of a whole run over the weekend fares, and the mock
    insights generated from them. *)
Definition weekend_insights : gmap string insight :=
  insights (fst (run_all_analyses parse_iso_date (load_data weekend_fares new_processor))).

Definition weekend_ai : ai_insights :=
  match generate_mock_ai_insights no_digits no_digits_flt false weekend_insights with
  | inr (mock_insights ai) => ai
  | _ => mkAI "" [] [] []
  end.

(** ** Order statistics and the price fence *)







(** ** Imputation and deduplication *)









(** ** Exact and rounded arithmetic *)







(** A fare between one cent and a billion. *)
Definition fare (p : Q) : Prop := (1 # 100 <= p /\ p <= 1000000000)%Q.



(** ** Further tables *)




(** Three fares of 100.1, as doubles. *)
Definition repeated_fares : list (option Q) :=
  [Some (b64 (1001 # 10)); Some (b64 (1001 # 10)); Some (b64 (1001 # 10))].



(** * Properties *)

(** ** The cleaner *)

Lemma has_col_In (df : DataFrame) (c : string) :
  has_col df c = true <-> In c (columns df).
Proof.
  unfold has_col. rewrite existsb_exists. split.
  - intros (x & Hx & He). apply String.eqb_eq in He. now subst.
  - intros H. exists c. split; [exact H | apply String.eqb_refl].
Qed.

Lemma missing_col_None (df : DataFrame) (cs : list string) :
  missing_col df cs = None <-> Forall (fun c => has_col df c = true) cs.
Proof.
  unfold missing_col. induction cs as [|c cs IH]; simpl.
  - split; [constructor | reflexivity].
  - destruct (has_col df c) eqn:E; simpl.
    + rewrite IH. split; [now constructor | now inversion 1].
    + split; [discriminate | inversion 1; congruence].
Qed.

Lemma missing_col_sub (df : DataFrame) (cs ds : list string) :
  incl ds cs -> missing_col df cs = None -> missing_col df ds = None.
Proof.
  rewrite !missing_col_None, !List.Forall_forall. intros Hi H c Hc. apply H, Hi, Hc.
Qed.

Lemma fill_missing_prices_imputed (raw : DataFrame) :
  missing_col raw ["origin"; "destination"] = None ->
  fill_missing_prices raw = inr (imputed raw).
Proof.
  intros H. unfold fill_missing_prices, imputed. rewrite H.
  now destruct (has_col raw "price" && isna_any (rows raw)).
Qed.

Lemma median_Some (l : list Q) : l <> [] -> exists m, median l = Some m.
Proof.
  destruct l as [|x l]; [congruence|]. intros _. unfold median.
  destruct (Nat.even _); eexists; reflexivity.
Qed.

Lemma prices_nonempty (rs : list Row) :
  prices rs <> [] <-> exists r p, In r rs /\ price r = Some p.
Proof.
  unfold prices. induction rs as [|r rs IH]; simpl.
  - split; [congruence | intros (r & p & [] & _)].
  - destruct (price r) as [p|] eqn:E; simpl.
    + split; [| discriminate]. intros _. exists r, p. auto.
    + rewrite IH. split.
      * intros (r' & p & Hi & Hp). exists r', p. auto.
      * intros (r' & p & [->|Hi] & Hp); [congruence|]. exists r', p. auto.
Qed.

Lemma isna_any_false (rs : list Row) :
  isna_any rs = false -> forall r, In r rs -> exists p, price r = Some p.
Proof.
  unfold isna_any. intros H r Hr.
  destruct (price r) as [p|] eqn:E; [eauto|].
  assert (existsb (fun r => match price r with None => true | Some _ => false end) rs = true).
  { apply existsb_exists. exists r. now rewrite E. }
  congruence.
Qed.

Lemma fillna_price (v : option Q) (r : Row) :
  price (fillna v r) = match price r with Some p => Some p | None => v end.
Proof. unfold fillna. destruct (price r) eqn:E; [exact E | reflexivity]. Qed.

Lemma fillna_route (v : option Q) (r : Row) :
  origin (fillna v r) = origin r /\ destination (fillna v r) = destination r.
Proof. unfold fillna. destruct (price r); split; reflexivity. Qed.

Lemma imputed_rows (raw : DataFrame) (r : Row) :
  has_col raw "price" = true ->
  In r (rows (imputed raw)) ->
  exists r0, In r0 (rows raw) /\ origin r = origin r0 /\ destination r = destination r0
             /\ price r = imputed_price raw r0.
Proof.
  intros Hp. unfold imputed. rewrite Hp. cbn [andb].
  destruct (isna_any (rows raw)) eqn:Hna; cbn [rows].
  - rewrite map_map, in_map_iff. intros (r0 & <- & Hr0). exists r0.
    destruct (fillna_route (route_median (rows raw) r0) r0) as [Ho Hd].
    destruct (fillna_route (median (prices (map (fun r => fillna (route_median (rows raw) r) r)
                                                (rows raw))))
                           (fillna (route_median (rows raw) r0) r0)) as [Ho' Hd'].
    repeat split; [exact Hr0 | congruence | congruence |].
    rewrite !fillna_price. unfold imputed_price.
    destruct (price r0); [reflexivity|]. now destruct (route_median (rows raw) r0).
  - intros Hr. exists r. repeat split; [exact Hr|].
    destruct (isna_any_false _ Hna r Hr) as [p Hpr]. unfold imputed_price. now rewrite Hpr.
Qed.

Lemma imputed_price_Some (raw : DataFrame) (r0 : Row) :
  prices (rows raw) <> [] -> exists p, imputed_price raw r0 = Some p.
Proof.
  intros Hne. unfold imputed_price.
  destruct (price r0) as [p|]; [eauto|].
  destruct (route_median (rows raw) r0) as [m|]; [eauto|].
  apply median_Some. apply prices_nonempty.
  apply prices_nonempty in Hne. destruct Hne as (r & p & Hr & Hp).
  exists (fillna (route_median (rows raw) r) r), p. split.
  - apply in_map_iff. eauto.
  - rewrite fillna_price. now rewrite Hp.
Qed.

Lemma warnings_frame (msgs : list string) (self : DataProcessor) :
  let self' := fold_left (fun s m => warning m s) msgs self in
  processed_data self' = processed_data self
  /\ raw_data self' = raw_data self /\ insights self' = insights self.
Proof.
  revert self. induction msgs as [|m msgs IH]; cbn; [tauto|].
  intros self. destruct (IH (warning m self)) as (-> & -> & ->). tauto.
Qed.

Section CleanerFacts.
Variable parse_datetime : string -> option (option date).

Lemma to_datetime_cell_same r r' :
  to_datetime_cell parse_datetime r = Some r' -> same_but_date r r'.
Proof.
  unfold to_datetime_cell, same_but_date.
  destruct r as [fd ft o d p a du dom dw mo we wk yr pc]; cbn.
  destruct fd as [s|dt|]; [destruct (parse_datetime s) as [[dd|]|] | |];
    intros [= <-]; reflexivity.
Qed.

Lemma ensure_datetime_rows (df : DataFrame) :
  columns (fst (ensure_datetime parse_datetime df)) = columns df
  /\ Forall2 same_but_date (rows df) (rows (fst (ensure_datetime parse_datetime df))).
Proof.
  assert (Hrefl : forall l, Forall2 same_but_date l l).
  { induction l as [|r l IH]; constructor; [now destruct r | exact IH]. }
  unfold ensure_datetime.
  destruct (has_col df "flight_date"); [| split; [reflexivity | apply Hrefl]].
  destruct (date_dtype df); [split; [reflexivity | apply Hrefl]|].
  destruct (mapM (to_datetime_cell parse_datetime) (rows df)) as [rs|] eqn:E;
    [| split; [reflexivity | apply Hrefl]].
  cbn. split; [reflexivity|].
  apply mapM_Some in E. induction E; constructor; auto using to_datetime_cell_same.
Qed.

Lemma keep_first_In (rs : list Row) (r : Row) : In r (keep_first rs) -> In r rs.
Proof.
  revert r. induction rs as [|x rs IH]; simpl; [tauto|].
  intros r [->|H]; [now left|]. right. apply IH. now apply filter_In in H.
Qed.


Lemma date_fields_keeps (r : Row) :
  price (date_fields r) = price r /\ origin (date_fields r) = origin r
  /\ destination (date_fields r) = destination r
  /\ subset_key (date_fields r) = subset_key r
  /\ date_fields (date_fields r) = date_fields r.
Proof. destruct r. repeat split. Qed.

Lemma same_but_date_keeps (r r' : Row) :
  same_but_date r r' ->
  price r' = price r /\ origin r' = origin r /\ destination r' = destination r.
Proof. unfold same_but_date. intros ->. repeat split. Qed.

Lemma Forall2_In_r {A B} (R : A -> B -> Prop) (l : list A) (k : list B) (y : B) :
  Forall2 R l k -> In y k -> exists x, In x l /\ R x y.
Proof.
  induction 1 as [|x y' l k HR _ IH]; simpl; [tauto|].
  intros [<-|Hy]; [eauto|]. destruct (IH Hy) as (x' & Hx & Hr). eauto.
Qed.

Lemma add_date_fields_rows (df : DataFrame) (r : Row) :
  In r (rows (add_date_fields df)) ->
  exists r', In r' (rows df) /\ price r = price r' /\ origin r = origin r'
             /\ destination r = destination r'.
Proof.
  unfold add_date_fields. destruct (has_col df "flight_date" && date_dtype df); cbn [rows].
  - rewrite in_map_iff. intros (r' & <- & Hr'). exists r'.
    destruct (date_fields_keeps r') as (? & ? & ? & _). auto.
  - intros H. exists r. auto.
Qed.

Lemma remove_outliers_rows (df : DataFrame) (r : Row) :
  In r (rows (remove_outliers df)) -> In r (rows df).
Proof.
  unfold remove_outliers. destruct (has_col df "price"); cbn [rows]; [|tauto].
  intros H. now apply filter_In in H.
Qed.

(** A row of the cleaned table comes from a row of the imputed table and
    keeps its route and price. *)
Lemma cleaned_rows (raw : DataFrame) (r : Row) :
  In r (rows (cleaned parse_datetime raw)) ->
  exists r0, In r0 (rows (imputed raw)) /\ price r = price r0
             /\ origin r = origin r0 /\ destination r = destination r0.
Proof.
  unfold cleaned. intros H.
  apply add_date_fields_rows in H. destruct H as (r1 & H & Hp & Ho & Hd).
  apply remove_outliers_rows in H.
  assert (H1 : In r1 (rows (fst (ensure_datetime parse_datetime (imputed raw))))).
  { destruct (3 <? _)%nat; [apply keep_first_In|]; exact H. }
  destruct (ensure_datetime_rows (imputed raw)) as [_ HF].
  destruct (Forall2_In_r _ _ _ _ HF H1) as (r0 & Hr0 & Hs).
  apply same_but_date_keeps in Hs. destruct Hs as (Hp' & Ho' & Hd').
  exists r0. repeat split; congruence.
Qed.


(** *** Cleaning a cleaned table *)


Lemma keep_first_keys (rs : list Row) : List.NoDup (map subset_key (keep_first rs)).
Proof.
  induction rs as [|r rs IH]; simpl; [constructor|]. constructor.
  - rewrite in_map_iff. intros (x & Hk & Hx). apply filter_In in Hx.
    destruct Hx as [_ Hx]. apply negb_true_iff, bool_decide_eq_false in Hx. auto.
  - clear -IH. induction (keep_first rs) as [|x l IHl]; simpl; [constructor|].
    inversion IH as [|? ? Hn Hd]; subst.
    destruct (negb _); simpl; [|auto]. constructor; [|auto].
    rewrite in_map_iff. intros (y & Hk & Hy). apply filter_In in Hy.
    apply Hn. rewrite <- Hk. apply in_map. tauto.
Qed.


Lemma NoDup_map_filter {A B} (f : A -> B) (g : A -> bool) (l : list A) :
  List.NoDup (map f l) -> List.NoDup (map f (List.filter g l)).
Proof.
  induction l as [|x l IH]; simpl; [auto|].
  inversion 1 as [|? ? Hn Hd]; subst. destruct (g x); simpl; [|auto].
  constructor; [|auto]. rewrite in_map_iff. intros (y & Hk & Hy).
  apply filter_In in Hy. apply Hn. rewrite <- Hk. apply in_map. tauto.
Qed.

Lemma has_col_add (df : DataFrame) (c c' : string) (b : bool) (rs : list Row) :
  has_col df c' = true -> has_col (mkDF (add_col c (columns df)) b rs) c' = true.
Proof.
  rewrite !has_col_In. cbn. unfold add_col.
  destruct (existsb _ _); [auto|]. intros H. apply in_or_app. now left.
Qed.

Lemma add_col_length (c : string) (cols : list string) :
  (length cols <= length (add_col c cols))%nat.
Proof.
  unfold add_col. destruct (existsb _ _); [lia|]. rewrite length_app. lia.
Qed.

Lemma add_col_In (c c' : string) (cols : list string) :
  In c' (add_col c cols) <-> In c' cols \/ c' = c.
Proof.
  unfold add_col. destruct (existsb (String.eqb c) cols) eqn:E.
  - split; [tauto|]. intros [H| ->]; [exact H|].
    apply existsb_exists in E. destruct E as (x & Hx & He).
    apply String.eqb_eq in He. now subst.
  - rewrite in_app_iff. simpl. intuition.
Qed.


Lemma identity_columns_many (cols : list string) :
  Forall (fun c => In c cols) identity_columns -> (3 <? length cols)%nat = true.
Proof.
  intros H. apply Nat.ltb_lt.
  assert (Hl : (length identity_columns <= length cols)%nat).
  { apply List.NoDup_incl_length.
    - unfold identity_columns. repeat constructor; simpl; intuition discriminate.
    - intros c Hc. rewrite List.Forall_forall in H. now apply H. }
  simpl in Hl. lia.
Qed.

Lemma missing_identity_In (df : DataFrame) :
  missing_col df identity_columns = None <->
  Forall (fun c => In c (columns df)) identity_columns.
Proof.
  rewrite missing_col_None, !List.Forall_forall.
  split; intros H c Hc; apply has_col_In, H, Hc.
Qed.



Lemma within_fence_priced (ps : list Q) (r : Row) :
  within_fence ps r = true -> exists p, price r = Some p.
Proof.
  unfold within_fence, ge_cell. destruct (price r); [eauto | discriminate].
Qed.

(** The shape of a cleaned table whose dates were parsed. *)
Lemma cleaned_shape (raw : DataFrame) :
  missing_col raw identity_columns = None ->
  date_dtype (cleaned parse_datetime raw) = true ->
  exists rs,
    cleaned parse_datetime raw = mkDF (date_columns (columns raw)) true (map date_fields rs)
    /\ List.NoDup (map subset_key rs)
    /\ (has_col raw "price" = true -> Forall (fun r => exists p, price r = Some p) rs).
Proof.
  intros Hid Hdt. unfold cleaned in *.
  destruct (ensure_datetime_rows (imputed raw)) as [Hc _].
  assert (Hcols : columns (imputed raw) = columns raw).
  { unfold imputed. now destruct (has_col raw "price" && isna_any (rows raw)). }
  set (df := fst (ensure_datetime parse_datetime (imputed raw))) in *.
  rewrite Hcols in Hc.
  assert (Hmany : (3 <? length (columns df))%nat = true).
  { rewrite Hc. now apply identity_columns_many, missing_identity_In. }
  rewrite Hmany in *.
  assert (Hfd : has_col raw "flight_date" = true).
  { apply missing_col_None in Hid. now inversion Hid. }
  unfold remove_outliers, add_date_fields, has_col in *. cbn [columns rows date_dtype] in *.
  rewrite Hc in *. fold (has_col raw "price") in *. fold (has_col raw "flight_date") in *.
  destruct (has_col raw "price") eqn:Hp; cbn [columns rows date_dtype] in *;
    rewrite ?Hc in *; fold (has_col raw "flight_date") in *; rewrite Hfd in *;
    cbn [andb] in *; destruct (date_dtype df) eqn:Hd; cbn in Hdt; try discriminate.
  - eexists. split; [reflexivity|]. split.
    + apply NoDup_map_filter, keep_first_keys.
    + intros _. apply List.Forall_forall. intros r Hr. apply filter_In in Hr.
      destruct Hr as [_ Hr]. eapply within_fence_priced, Hr.
  - eexists. split; [reflexivity|]. split; [apply keep_first_keys | discriminate].
Qed.


Lemma map_date_fields_keys (rs : list Row) :
  map subset_key (map date_fields rs) = map subset_key rs.
Proof.
  rewrite map_map. apply map_ext. intros r. apply (date_fields_keeps r).
Qed.



(** Without data, or with a table without rows, [clean_data] logs a warning
    and leaves the processor as it is. *)
Lemma clean_data_no_data (self : DataProcessor) :
  raw_data self = None \/ (exists raw, raw_data self = Some raw /\ rows raw = []) ->
  clean_data parse_datetime self = (warning "No data to clean" self, Returned).
Proof.
  unfold clean_data. intros [->|(raw & -> & ->)]; reflexivity.
Qed.

(** The calendar columns come together: a cleaned table has [is_weekend],
    unless the raw table brought it, only with [day_of_week] and [month]. *)
Lemma cleaned_calendar_columns (raw : DataFrame) :
  has_col raw "is_weekend" = false ->
  has_col (cleaned parse_datetime raw) "is_weekend" = true ->
  has_col (cleaned parse_datetime raw) "day_of_week" = true
  /\ has_col (cleaned parse_datetime raw) "month" = true.
Proof.
  intros Hraw. unfold cleaned.
  destruct (ensure_datetime_rows (imputed raw)) as [Hc _].
  assert (Hcols : columns (imputed raw) = columns raw).
  { unfold imputed. now destruct (has_col raw "price" && isna_any (rows raw)). }
  set (df := fst (ensure_datetime parse_datetime (imputed raw))) in *.
  set (deduped := if (3 <? length (columns df))%nat
                  then mkDF (columns df) (date_dtype df) (keep_first (rows df)) else df).
  assert (Hd : columns (remove_outliers deduped) = columns raw).
  { unfold remove_outliers, deduped.
    destruct (3 <? length (columns df))%nat;
      match goal with |- columns (if ?b then _ else _) = _ => destruct b end;
      cbn [columns]; congruence. }
  unfold add_date_fields.
  destruct (has_col (remove_outliers deduped) "flight_date"
            && date_dtype (remove_outliers deduped)).
  - intros _. rewrite !has_col_In. cbn [columns]. rewrite !add_col_In. tauto.
  - unfold has_col. rewrite Hd. fold (has_col raw "is_weekend"). congruence.
Qed.

End CleanerFacts.

(** C1.  [clean_data] does raise: on a table of four columns that lacks
    [flight_time] and [airline] the duplicate removal, which is guarded by
    the number of columns only, raises KeyError, and no cleaned table is
    stored. *)
Theorem clean_data_raises_on_missing_identity_column :
  clean_data parse_iso_date (load_data no_airline new_processor)
  = (load_data no_airline new_processor, Raised (KeyError "flight_time")).
Proof. reflexivity. Qed.


(** ** Ordering, distinct values and groups *)

Section OrderingFacts.
Context {A : Type}.
Variable weight : A -> Q.

Lemma insert_desc_perm (x : A) (l : list A) :
  Permutation (insert_desc weight x l) (x :: l).
Proof.
  induction l as [|y l IH]; simpl; [reflexivity|].
  destruct (Qle_bool (weight y) (weight x)); [reflexivity|].
  rewrite IH. apply perm_swap.
Qed.

Lemma sort_desc_perm (l : list A) : Permutation (sort_desc weight l) l.
Proof.
  induction l as [|x l IH]; simpl; [reflexivity|].
  rewrite insert_desc_perm. now constructor.
Qed.

Lemma insert_desc_sorted (x : A) (l : list A) :
  StronglySorted (heavier weight) l -> StronglySorted (heavier weight) (insert_desc weight x l).
Proof.
  induction 1 as [|y l Hs IH Hall]; simpl.
  - repeat constructor.
  - destruct (Qle_bool (weight y) (weight x)) eqn:E.
    + apply Qle_bool_iff in E. constructor; [now constructor|].
      constructor; [exact E|].
      eapply List.Forall_impl; [|exact Hall]. intros z Hz. unfold heavier in *.
      now apply Qle_trans with (weight y).
    + constructor; [exact IH|].
      assert (Hxy : heavier weight y x).
      { unfold heavier. destruct (Qlt_le_dec (weight y) (weight x)) as [Hlt|Hle].
        - apply Qlt_le_weak in Hlt. apply Qle_bool_iff in Hlt. congruence.
        - exact Hle. }
      eapply Permutation_Forall; [symmetry; apply insert_desc_perm|].
      now constructor.
Qed.

Lemma sort_desc_sorted (l : list A) : StronglySorted (heavier weight) (sort_desc weight l).
Proof.
  induction l as [|x l IH]; simpl; [constructor|]. now apply insert_desc_sorted.
Qed.
End OrderingFacts.

Lemma StronglySorted_firstn {A} (R : A -> A -> Prop) (n : nat) (l : list A) :
  StronglySorted R l -> StronglySorted R (firstn n l).
Proof.
  intros H. revert n. induction H as [|x l Hs IH Hall]; intros [|n]; simpl;
    try constructor; auto.
  rewrite List.Forall_forall in *. intros y Hy. apply Hall.
  rewrite <- (firstn_skipn n l). apply in_or_app. now left.
Qed.

(** Beyond the first [n] elements of a sorted list nothing is larger. *)
Lemma StronglySorted_beyond {A} (R : A -> A -> Prop) (n : nat) (l : list A) (y : A) :
  StronglySorted R l -> In y (skipn n l) -> Forall (fun x => R x y) (firstn n l).
Proof.
  intros H. revert n. induction H as [|x l Hs IH Hall]; intros [|n]; simpl;
    try constructor; auto; try tauto.
  - rewrite List.Forall_forall in Hall. apply Hall.
    rewrite <- (firstn_skipn n l). apply in_or_app. now right.
Qed.

Section UniqueFacts.
Context {V : Type} `{EqDecision V}.

Lemma unique_In (l : list V) (x : V) : In x (unique l) <-> In x l.
Proof.
  induction l as [|y l IH]; simpl; [tauto|].
  rewrite filter_In, IH, negb_true_iff, bool_decide_eq_false.
  destruct (decide (x = y)) as [->|Hne]; intuition congruence.
Qed.

Lemma unique_NoDup (l : list V) : List.NoDup (unique l).
Proof.
  induction l as [|y l IH]; simpl; constructor.
  - rewrite filter_In, negb_true_iff, bool_decide_eq_false. tauto.
  - now apply List.NoDup_filter.
Qed.
End UniqueFacts.

Section GroupFacts.
Context {K : Type} `{EqDecision K}.
Variable leb : K -> K -> bool.
Variable key : Row -> option K.

Lemma insert_key_perm (k : K) (l : list K) : Permutation (insert_key leb k l) (k :: l).
Proof.
  induction l as [|h l IH]; simpl; [reflexivity|].
  destruct (leb k h); [reflexivity|]. rewrite IH. apply perm_swap.
Qed.

Lemma sort_keys_perm (l : list K) : Permutation (sort_keys leb l) l.
Proof.
  induction l as [|x l IH]; simpl; [reflexivity|].
  rewrite insert_key_perm. now constructor.
Qed.

Lemma omap_In (rs : list Row) (k : K) :
  In k (omap key rs) <-> exists r, In r rs /\ key r = Some k.
Proof.
  induction rs as [|r rs IH]; simpl.
  - split; [tauto | intros (r & [] & _)].
  - destruct (key r) as [k'|] eqn:E; simpl; rewrite IH.
    + split.
      * intros [<-|(r' & Hr & Hk)]; eauto.
      * intros (r' & [->|Hr] & Hk); [left; congruence | eauto].
    + split.
      * intros (r' & Hr & Hk); eauto.
      * intros (r' & [->|Hr] & Hk); [congruence | eauto].
Qed.

Lemma group_keys_In (rs : list Row) (k : K) :
  In k (group_keys leb key rs) <-> exists r, In r rs /\ key r = Some k.
Proof.
  unfold group_keys. rewrite <- omap_In, <- (unique_In (omap key rs)).
  split; apply Permutation_in; [|symmetry]; apply sort_keys_perm.
Qed.

Lemma group_keys_NoDup (rs : list Row) : List.NoDup (group_keys leb key rs).
Proof.
  unfold group_keys. eapply Permutation_NoDup; [symmetry; apply sort_keys_perm|].
  apply unique_NoDup.
Qed.

Lemma group_rows_nonempty (rs : list Row) (k : K) :
  (0 < length (group_rows key rs k))%nat <-> exists r, In r rs /\ key r = Some k.
Proof.
  unfold group_rows. split.
  - destruct (List.filter _ rs) as [|r l] eqn:E; simpl; [lia|]. intros _.
    assert (Hr : In r (List.filter (fun r => bool_decide (key r = Some k)) rs))
      by (rewrite E; now left).
    apply filter_In in Hr. destruct Hr as [Hr Hk]. apply bool_decide_eq_true in Hk. eauto.
  - intros (r & Hr & Hk).
    assert (Hin : In r (List.filter (fun r => bool_decide (key r = Some k)) rs)).
    { apply filter_In. split; [exact Hr|]. now apply bool_decide_eq_true. }
    destruct (List.filter _ rs); [destruct Hin | simpl; lia].
Qed.
End GroupFacts.

(** ** Popular routes *)

Lemma route_key_Some (r : Row) (o d : string) :
  route_key r = Some (o, d) <-> origin r = Some o /\ destination r = Some d.
Proof.
  unfold route_key. destruct (origin r), (destination r); split;
    try intros [H1 H2]; try intros H; try discriminate; try congruence; split; congruence.
Qed.

Lemma group_rows_frequency (df : DataFrame) (o d : string) :
  length (group_rows route_key (rows df) (o, d)) = route_frequency df o d.
Proof.
  unfold group_rows, route_frequency. f_equal. apply filter_ext. intros r.
  apply bool_decide_ext, route_key_Some.
Qed.

Lemma route_counts_unfold (rs : list Row) :
  route_counts rs
  = map (fun k => (k, length (group_rows route_key rs k))) (group_keys route_leb route_key rs).
Proof. unfold route_counts, groupby. now rewrite map_map. Qed.

Lemma in_values_In (code : string) (d : list (string * string)) :
  in_values code d = true <-> In code (dict_values d).
Proof.
  unfold in_values. rewrite existsb_exists. split.
  - intros (x & Hx & He). apply String.eqb_eq in He. now subst.
  - intros H. exists code. split; [exact H | apply String.eqb_refl].
Qed.

Lemma by_frequency_le (p q : string * string * nat) :
  heavier by_frequency p q <-> (snd q <= snd p)%nat.
Proof.
  unfold heavier, by_frequency. rewrite <- Zle_Qle. lia.
Qed.

Lemma NoDup_firstn {A} (n : nat) (l : list A) : List.NoDup l -> List.NoDup (firstn n l).
Proof.
  intros H. rewrite <- (firstn_skipn n l) in H. now apply NoDup_app_remove_r in H.
Qed.

Lemma StronglySorted_map {A B} (R : A -> A -> Prop) (S : B -> B -> Prop) (f : A -> B)
    (l : list A) :
  (forall x y, R x y -> S (f x) (f y)) -> StronglySorted R l -> StronglySorted S (map f l).
Proof.
  intros HRS. induction 1 as [|x l _ IH Hall]; simpl; constructor; [exact IH|].
  apply List.Forall_map. eapply List.Forall_impl; [|exact Hall]. intros y. apply HRS.
Qed.

Lemma In_firstn {A} (n : nat) (l : list A) (x : A) : In x (firstn n l) -> In x l.
Proof. intros H. rewrite <- (firstn_skipn n l). apply in_or_app. now left. Qed.

Lemma head_n_firstn {A} (n : Z) (l : list A) :
  (0 <= n)%Z -> head_n n l = firstn (Z.to_nat n) l.
Proof. intros H. unfold head_n. now rewrite (proj2 (Z.leb_le 0 n) H). Qed.

(** C7.  On a non-empty processed table with origin and destination columns
    and a non-negative [top_n], [analyze_popular_routes] returns and writes
    under [popular_routes] a list in which every entry carries the number of
    rows of its route as frequency, and is domestic exactly when both its
    airports are in the configured domestic set; no route occurs twice; the
    frequencies descend; there are at most [top_n] entries; and a route of
    the table that is left out is no more frequent than any entry, the list
    then being full. *)
Theorem popular_routes_top_n (self : DataProcessor) (df : DataFrame) (top_n : Z) :
  processed_data self = Some df ->
  rows df <> [] ->
  has_col df "origin" = true ->
  has_col df "destination" = true ->
  (0 <= top_n)%Z ->
  exists l,
    analyze_popular_routes top_n self
    = (set_insight "popular_routes" (popular_routes_of l) self, Returned)
    /\ Forall (fun e =>
                 rr_frequency e = route_frequency df (rr_origin e) (rr_destination e)
                 /\ (0 < rr_frequency e)%nat
                 /\ (rr_is_domestic e = true <->
                     In (rr_origin e) domestic_airports
                     /\ In (rr_destination e) domestic_airports)) l
    /\ List.NoDup (map route_of l)
    /\ StronglySorted (fun a b => (rr_frequency b <= rr_frequency a)%nat) l
    /\ (length l <= Z.to_nat top_n)%nat
    /\ (forall o d, (0 < route_frequency df o d)%nat ->
          In (o, d) (map route_of l)
          \/ (length l = Z.to_nat top_n
              /\ Forall (fun e => (route_frequency df o d <= rr_frequency e)%nat) l)).
Proof.
  intros Hdf _ Ho Hd Hn.
  unfold analyze_popular_routes. rewrite Hdf.
  replace (missing_col df ["origin"; "destination"]) with (@None string)
    by (symmetry; apply missing_col_None; repeat constructor; assumption).
  rewrite (head_n_firstn _ _ Hn).
  set (n := Z.to_nat top_n).
  set (sorted := sort_desc by_frequency (route_counts (rows df))).
  set (mk := fun p : string * string * nat =>
               mkRoute (fst (fst p)) (snd (fst p)) (snd p)
                       (route_is_domestic (fst (fst p)) (snd (fst p)))).
  exists (map mk (firstn n sorted)). split; [reflexivity|].
  assert (Hperm : Permutation sorted (route_counts (rows df))) by apply sort_desc_perm.
  assert (Hsorted : StronglySorted (heavier by_frequency) sorted) by apply sort_desc_sorted.
  assert (Hmem : forall p, In p sorted ->
            snd p = route_frequency df (fst (fst p)) (snd (fst p)) /\ (0 < snd p)%nat).
  { intros p Hp. apply (Permutation_in _ Hperm) in Hp.
    rewrite route_counts_unfold, in_map_iff in Hp. destruct Hp as ([o d] & <- & Hk).
    cbn [fst snd]. split; [apply group_rows_frequency|].
    apply group_rows_nonempty. now apply group_keys_In in Hk. }
  assert (Hroutes : map route_of (map mk (firstn n sorted)) = firstn n (map fst sorted)).
  { rewrite map_map, firstn_map. apply map_ext. now intros [[o d] c]. }
  split; [|split; [|split; [|split]]].
  - apply List.Forall_forall. intros e He. apply in_map_iff in He.
    destruct He as (p & <- & Hp). apply In_firstn in Hp.
    destruct (Hmem p Hp) as [Hf Hpos]. cbn. split; [exact Hf|]. split; [exact Hpos|].
    unfold route_is_domestic, domestic_airports.
    now rewrite andb_true_iff, !in_values_In.
  - rewrite Hroutes. apply NoDup_firstn.
    eapply Permutation_NoDup; [symmetry; apply Permutation_map, Hperm|].
    rewrite route_counts_unfold, map_map. cbn [fst]. rewrite map_id.
    apply group_keys_NoDup.
  - apply (StronglySorted_firstn _ n) in Hsorted.
    eapply StronglySorted_map; [|exact Hsorted].
    intros p q Hq. now apply by_frequency_le in Hq.
  - rewrite length_map, length_firstn. lia.
  - intros o d Hpos.
    assert (Hin : In ((o, d), route_frequency df o d) sorted).
    { apply (Permutation_in _ (Permutation_sym Hperm)).
      rewrite route_counts_unfold, in_map_iff. exists (o, d).
      split; [now rewrite group_rows_frequency|].
      apply group_keys_In. apply group_rows_nonempty. now rewrite group_rows_frequency. }
    rewrite <- (firstn_skipn n sorted) in Hin. apply in_app_or in Hin.
    destruct Hin as [Hin|Hin].
    + left. rewrite Hroutes, firstn_map.
      apply in_map_iff. exists ((o, d), route_frequency df o d). now split.
    + right. split.
      * rewrite length_map, length_firstn.
        assert (n < length sorted)%nat; [|lia].
        destruct (le_lt_dec (length sorted) n) as [Hle|]; [|assumption].
        rewrite skipn_all2 in Hin by exact Hle. destruct Hin.
      * apply List.Forall_map.
        eapply List.Forall_impl; [|exact (StronglySorted_beyond _ n _ _ Hsorted Hin)].
        intros q Hq. now apply by_frequency_le in Hq.
Qed.

Lemma popular_routes_top_n_witness :
  insights (fst (analyze_popular_routes 10 cleaned_three)) !! "popular_routes"
  = Some (popular_routes_of [mkRoute "SYD" "MEL" 2 true; mkRoute "SYD" "LAX" 1 false]).
Proof.
  destruct (popular_routes_top_n cleaned_three
              (default empty_frame (processed_data cleaned_three)) 10)
    as (l & Hrun & _).
  - reflexivity.
  - discriminate.
  - reflexivity.
  - reflexivity.
  - lia.
  - rewrite Hrun. vm_compute in Hrun. injection Hrun as <-. reflexivity.
Defined.

Lemma Qle_bool_false (x y : Q) : Qle_bool x y = false <-> (y < x)%Q.
Proof.
  split.
  - intros H. destruct (Qlt_le_dec y x) as [Hlt|Hle]; [exact Hlt|].
    apply Qle_bool_iff in Hle. congruence.
  - intros H. destruct (Qle_bool x y) eqn:E; [|reflexivity].
    apply Qle_bool_iff in E. lra.
Qed.

Ltac qbool :=
  repeat match goal with
  | H : Qle_bool _ _ = true |- _ => apply Qle_bool_iff in H
  | H : Qle_bool _ _ = false |- _ => apply Qle_bool_false in H
  end.

Lemma cut_in_bucket (c : category) (r : Row) :
  bool_decide (cut (price r) = Some c) = in_bucket c r.
Proof.
  unfold in_bucket, cut. destruct (price r) as [p|]; [|now destruct c].
  destruct (Qle_bool p 0) eqn:E0, (Qle_bool p 200) eqn:E2, (Qle_bool p 500) eqn:E5,
           (Qle_bool p 1000) eqn:E10; destruct c; try reflexivity;
    exfalso; qbool; lra.
Qed.

Lemma length_filter_cons {A} (f : A -> bool) (x : A) (l : list A) :
  length (List.filter f (x :: l)) = (Nat.b2n (f x) + length (List.filter f l))%nat.
Proof. simpl. now destruct (f x). Qed.

Lemma omap_id_cons {A} (x : option A) (l : list (option A)) :
  omap id (x :: l) = match x with Some y => y :: omap id l | None => omap id l end.
Proof. reflexivity. Qed.

Lemma count_of_cut (c : category) (rs : list Row) :
  count_of c (omap id (map (fun r => cut (price r)) rs))
  = length (List.filter (in_bucket c) rs).
Proof.
  unfold count_of. induction rs as [|r rs IH]; [reflexivity|].
  cbn [map]. rewrite omap_id_cons, (length_filter_cons (in_bucket c)), <- cut_in_bucket.
  destruct (cut (price r)) as [c'|].
  - rewrite length_filter_cons, IH. f_equal. f_equal.
    apply bool_decide_ext. split; congruence.
  - rewrite IH. now rewrite bool_decide_eq_false_2 by discriminate.
Qed.

Lemma one_bucket (r : Row) :
  (Nat.b2n (in_bucket Budget r) + (Nat.b2n (in_bucket Economy r)
   + (Nat.b2n (in_bucket Premium r) + (Nat.b2n (in_bucket Luxury r) + 0))))%nat
  = Nat.b2n (has_positive_price r).
Proof.
  unfold in_bucket, has_positive_price. destruct (price r) as [p|]; [|reflexivity].
  destruct (Qle_bool p 0) eqn:E0, (Qle_bool p 200) eqn:E2, (Qle_bool p 500) eqn:E5,
           (Qle_bool p 1000) eqn:E10; try reflexivity; exfalso; qbool; lra.
Qed.

Lemma bucket_counts_total (rs : list Row) :
  total_count (map (fun c => (c, length (List.filter (in_bucket c) rs))) labels)
  = length (List.filter has_positive_price rs).
Proof.
  unfold total_count, labels. cbn [map snd fold_right].
  induction rs as [|r rs IH]; [reflexivity|].
  rewrite !length_filter_cons, <- IH, <- one_bucket. lia.
Qed.

Lemma total_count_perm (l k : list (category * nat)) :
  Permutation l k -> total_count l = total_count k.
Proof.
  unfold total_count. induction 1; simpl; lia.
Qed.

(** C4, as amended.  On a processed table with a price column,
    [price_categories] holds each of the four labels once, with the number
    of rows whose price lies in the bucket of the label, the buckets being
    open on the left and closed on the right: Budget (0,200], Economy
    (200,500], Premium (500,1000], Luxury (1000,inf).  The counts add up to
    the number of rows with a price above zero. *)
Theorem price_categories_right_closed (self : DataProcessor) (df : DataFrame) :
  processed_data self = Some df ->
  has_col df "price" = true ->
  exists l,
    price_categories_after self = Some (price_categories_of l)
    /\ Permutation l (map (fun c => (c, length (List.filter (in_bucket c) (rows df)))) labels)
    /\ total_count l = length (List.filter has_positive_price (rows df)).
Proof.
  intros Hdf Hp. unfold price_categories_after, analyze_price_distribution.
  rewrite Hdf, Hp. cbn [negb fst insights set_insight rows].
  eexists. split; [apply lookup_insert_eq|].
  assert (Hperm : Permutation
            (category_counts
               (map price_category
                    (map (fun r => set_price_category (cut (price r)) r) (rows df))))
            (map (fun c => (c, length (List.filter (in_bucket c) (rows df)))) labels)).
  { unfold category_counts. rewrite sort_desc_perm, map_map.
    cbn [price_category set_price_category].
    erewrite map_ext; [reflexivity|]. intros c. cbn beta. now rewrite count_of_cut. }
  split; [exact Hperm|].
  rewrite (total_count_perm _ _ Hperm). apply bucket_counts_total.
Qed.

(** C4, refuted as stated.  In the cleaned [boundary_fares] the fare of
    exactly 200 is counted as Budget, so Economy holds one fare where the
    left-closed bucket [200,500) has two, and the fare of 0 is counted
    nowhere, so the counts add up to 3 for 4 rows with a price. *)
Lemma price_categories_not_left_closed :
  exists T l,
    processed_data cleaned_boundary = Some T
    /\ map price (rows T) = [Some 0%Q; Some 200%Q; Some 300%Q; Some 600%Q]
    /\ price_categories_after cleaned_boundary = Some (price_categories_of l)
    /\ l = [(Budget, 1); (Economy, 1); (Premium, 1); (Luxury, 0)]%nat
    /\ length (List.filter (in_left_closed_bucket Economy) (rows T)) = 2%nat
    /\ total_count l = 3%nat
    /\ length (List.filter has_price (rows T)) = 4%nat.
Proof.
  eexists. eexists. split; [vm_compute; reflexivity|].
  split; [reflexivity|]. split; [vm_compute; reflexivity|].
  repeat split.
Qed.

Lemma price_categories_right_closed_witness :
  exists l,
    price_categories_after cleaned_boundary = Some (price_categories_of l)
    /\ total_count l = 3%nat.
Proof.
  destruct (price_categories_right_closed cleaned_boundary
              (default empty_frame (processed_data cleaned_boundary)))
    as (l & Hl & _ & Htotal).
  - reflexivity.
  - reflexivity.
  - exists l. split; [exact Hl|]. rewrite Htotal. reflexivity.
Defined.

(** ** Market opportunities *)

(** The seasonal rule on one origin: January at 1000 against June at 400
    gives one record, with a ratio of 2.5. *)
Lemma seasonal_rule_on_one_origin :
  analyze_market_opportunities cleaned_one_origin
  = (set_insight "market_opportunities"
       (market_opportunities_of
          [seasonal_variation "SYD" "MEL" "January" "June" (1000 # 400)])
       cleaned_one_origin, Returned)
  /\ (1000 # 400 == 5 # 2)%Q.
Proof. split; reflexivity. Qed.

(** C5.  The seasonal rule goes wrong past the first origin.  In the
    cleaned [two_origins], with month and price columns, the second origin
    SYD has a January median of 1000 and a June median of 400, a ratio of
    2.5; the rule reads the index label of the dearest month, 2, as a
    position in the two rows of SYD, and the pass raises IndexError instead
    of emitting the record of SYD; no opportunity is written. *)
Theorem seasonal_rule_raises_on_second_origin :
  (exists T, processed_data cleaned_two_origins = Some T
             /\ has_col T "month" = true /\ has_col T "price" = true
             /\ map (fun r => (mp_label r, mp_origin r, mp_month r, mp_price r))
                    (monthly_prices (rows T))
                = [(0%nat, "MEL", 1%Z, Some 1000%Q); (1%nat, "MEL", 6%Z, Some 400%Q);
                   (2%nat, "SYD", 1%Z, Some 1000%Q); (3%nat, "SYD", 6%Z, Some 400%Q)])
  /\ analyze_market_opportunities cleaned_two_origins
     = (cleaned_two_origins,
        Raised (IndexError "single positional indexer is out-of-bounds")).
Proof.
  split; [|vm_compute; reflexivity].
  eexists. split; [vm_compute; reflexivity|]. repeat split.
Qed.

(** Where the label is still a position the rule reads the wrong rows: for
    SYD, dearest in June and cheapest in January, it reports September
    and June. *)
Lemma seasonal_rule_misreads_the_months :
  analyze_market_opportunities cleaned_three_months
  = (set_insight "market_opportunities"
       (market_opportunities_of
          [seasonal_variation "SYD" "PER" "September" "June" (1000 # 400)])
       cleaned_three_months, Returned).
Proof. vm_compute. reflexivity. Qed.

(** The exception ends the whole run: the summary is never written. *)
Lemma run_stops_at_the_seasonal_rule :
  snd (run_all_analyses parse_iso_date (load_data two_origins new_processor))
  = Raised (IndexError "single positional indexer is out-of-bounds")
  /\ insights (fst (run_all_analyses parse_iso_date (load_data two_origins new_processor)))
       !! "summary" = None.
Proof. split; vm_compute; reflexivity. Qed.

(** ** Summary *)







Lemma frame_refl (p : pass) (self : DataProcessor) (df : DataFrame) :
  processed_data self = Some df -> frame p self self df.
Proof.
  intros H. split; [reflexivity|]. split; [reflexivity|].
  exists df. split; [exact H|]. split; [reflexivity|].
  split; [exists []; split; [now rewrite app_nil_r | intros ? []]|].
  split; reflexivity.
Qed.

Lemma frame_warning (p : pass) (msg : string) (self : DataProcessor) (df : DataFrame) :
  processed_data self = Some df -> frame p self (warning msg self) df.
Proof. intros H. now apply (frame_refl p (warning msg self) df). Qed.

(** Writing a key a pass owns keeps the frame. *)
Lemma frame_set_insight (p : pass) (k : string) (v : insight)
    (self self' : DataProcessor) (df : DataFrame) :
  In k (keys_of p) -> frame p self self' df -> frame p self (set_insight k v self') df.
Proof.
  intros Hk (Hraw & Hins & Hdf). split; [exact Hraw|]. split; [|exact Hdf].
  intros k' Hk'. cbn [insights set_insight]. rewrite lookup_insert_ne; [now apply Hins|].
  intros ->. contradiction.
Qed.

Lemma add_col_app (c : string) (cols : list string) :
  exists added, add_col c cols = (cols ++ added)%list /\ incl added [c].
Proof.
  unfold add_col. destruct (existsb _ _).
  - exists []. split; [now rewrite app_nil_r | intros ? []].
  - exists [c]. split; [reflexivity | apply incl_refl].
Qed.

Ltac other_column Hc :=
  repeat match goal with
  | |- context [String.eqb ?c ?s] =>
    let E := fresh "E" in
    destruct (String.eqb c s) eqn:E;
    [ try reflexivity;
      try (apply String.eqb_eq in E; subst; exfalso; apply Hc; simpl; tauto)
    | ]
  end; try reflexivity.

(** Assigning helper columns keeps the frame. *)
Lemma frame_assign (p : pass) (self : DataProcessor) (df : DataFrame)
    (cols : list string) (f : Row -> Row) :
  processed_data self = Some df ->
  assigned_columns p df <> [] ->
  (exists added, cols = (columns df ++ added)%list /\ incl added (assigned_columns p df)) ->
  (forall c r, ~ In c (assigned_columns p df) -> cell_at c (f r) = cell_at c r) ->
  frame p self (set_processed (mkDF cols (date_dtype df) (map f (rows df))) self) df.
Proof.
  intros Hdf Hne Hcols Hcells. split; [reflexivity|]. split; [reflexivity|].
  eexists. split; [reflexivity|]. split; [reflexivity|]. split; [exact Hcols|].
  split; [|congruence].
  intros c Hc. cbn [rows]. rewrite map_map. apply map_ext. intros r. now apply Hcells.
Qed.

Lemma frame_set_processed_same (p : pass) (self : DataProcessor) (df : DataFrame) :
  processed_data self = Some df -> frame p self (set_processed df self) df.
Proof. intros H. now apply (frame_refl p (set_processed df self) df). Qed.

Lemma popular_routes_frame (top_n : Z) (self self' : DataProcessor) (df : DataFrame)
    (out : outcome) :
  processed_data self = Some df ->
  analyze_popular_routes top_n self = (self', out) ->
  frame popular_routes_pass self self' df.
Proof.
  intros Hdf. unfold analyze_popular_routes. rewrite Hdf.
  destruct (missing_col df _); intros [= <- <-].
  - now apply frame_refl.
  - apply frame_set_insight; [now left | now apply frame_refl].
Qed.

Lemma price_trends_frame (self self' : DataProcessor) (df : DataFrame) (out : outcome) :
  processed_data self = Some df ->
  analyze_price_trends self = (self', out) ->
  frame price_trends_pass self self' df.
Proof.
  intros Hdf. unfold analyze_price_trends. rewrite Hdf.
  destruct (negb (has_col df "price")); [intros [= <- <-]; now apply frame_warning|].
  destruct (has_col df "flight_date" && date_dtype df);
    [|intros [= <- <-]; now apply frame_warning].
  intros [= <- <-].
  apply frame_set_insight; [simpl; tauto|].
  apply frame_set_insight; [simpl; tauto|].
  apply frame_assign; [exact Hdf | discriminate | |].
  - destruct (add_col_app "week" (columns df)) as (a1 & -> & H1).
    destruct (add_col_app "year" (columns df ++ a1)) as (a2 & -> & H2).
    exists (a1 ++ a2)%list. split; [now rewrite app_assoc|].
    intros c Hc. apply in_app_or in Hc. destruct Hc as [Hc|Hc];
      [apply H1 in Hc | apply H2 in Hc]; simpl in *; tauto.
  - intros c r Hc. unfold cell_at. other_column Hc.
Qed.

Lemma price_distribution_frame (self self' : DataProcessor) (df : DataFrame)
    (out : outcome) :
  processed_data self = Some df ->
  analyze_price_distribution self = (self', out) ->
  frame price_distribution_pass self self' df.
Proof.
  intros Hdf. unfold analyze_price_distribution. rewrite Hdf.
  destruct (negb (has_col df "price")); [intros [= <- <-]; now apply frame_warning|].
  intros [= <- <-].
  apply frame_set_insight; [simpl; tauto|].
  apply frame_set_insight; [simpl; tauto|].
  apply frame_assign; [exact Hdf | discriminate | |].
  - destruct (add_col_app "price_category" (columns df)) as (a1 & -> & H1). eauto.
  - intros c r Hc. unfold cell_at. other_column Hc.
Qed.

Lemma seasonal_patterns_frame (self self' : DataProcessor) (df : DataFrame)
    (out : outcome) :
  processed_data self = Some df ->
  analyze_seasonal_patterns self = (self', out) ->
  frame seasonal_patterns_pass self self' df.
Proof.
  intros Hdf. unfold analyze_seasonal_patterns. rewrite Hdf.
  assert (Hstep : forall df1,
    frame seasonal_patterns_pass self (set_processed df1 self) df ->
    (let self0 := set_processed df1 self in
     if negb (has_col df1 "price") then (self0, Raised (KeyError "price"))
     else
       let monthly := monthly_stats (rows df1) in
       let self1 :=
         if has_col df1 "day_of_week"
         then set_insight "day_of_week_patterns"
                (day_of_week_patterns_of (day_stats (rows df1))) self0
         else self0 in
       let self2 := set_insight "monthly_patterns" (monthly_patterns_of monthly) self1 in
       let peak_months :=
         map mr_month
             (head_n 2 (sort_desc (fun m => inject_Z (Z.of_nat (mr_flight_count m)))
                                  monthly)) in
       match collect (month_label (month_is_float (rows df1))) peak_months with
       | inl e => (self2, Raised e)
       | inr names =>
         (set_insight "peak_travel_periods" (peak_travel_periods_of names) self2, Returned)
       end) = (self', out) ->
    frame seasonal_patterns_pass self self' df).
  { intros df1 Hf. cbv zeta.
    destruct (negb (has_col df1 "price")); [now intros [= <- <-]|].
    assert (Hf1 : frame seasonal_patterns_pass self
              (if has_col df1 "day_of_week"
               then set_insight "day_of_week_patterns"
                      (day_of_week_patterns_of (day_stats (rows df1)))
                      (set_processed df1 self)
               else set_processed df1 self) df).
    { destruct (has_col df1 "day_of_week"); [|exact Hf].
      apply frame_set_insight; [simpl; tauto | exact Hf]. }
    destruct (collect _ _); intros [= <- <-].
    - apply frame_set_insight; [simpl; tauto | exact Hf1].
    - apply frame_set_insight; [simpl; tauto|].
      apply frame_set_insight; [simpl; tauto | exact Hf1]. }
  destruct (has_col df "month") eqn:Hm.
  - apply Hstep. now apply frame_set_processed_same.
  - destruct (has_col df "flight_date" && date_dtype df);
      [|intros [= <- <-]; now apply frame_warning].
    apply Hstep. apply frame_assign; [exact Hdf | | |].
    + cbn. now rewrite Hm.
    + cbn [assigned_columns]. rewrite Hm. apply add_col_app.
    + cbn [assigned_columns]. rewrite Hm. intros c r Hc. unfold cell_at. other_column Hc.
Qed.

Lemma market_opportunities_frame (self self' : DataProcessor) (df : DataFrame)
    (out : outcome) :
  processed_data self = Some df ->
  analyze_market_opportunities self = (self', out) ->
  frame market_opportunities_pass self self' df.
Proof.
  intros Hdf. unfold analyze_market_opportunities. rewrite Hdf.
  destruct (weekend_opportunities df); [intros [= <- <-]; now apply frame_refl|].
  destruct (seasonal_opportunities df); intros [= <- <-].
  - now apply frame_refl.
  - apply frame_set_insight; [now left | now apply frame_refl].
Qed.

Lemma summary_frame (self self' : DataProcessor) (df : DataFrame) (out : outcome) :
  processed_data self = Some df ->
  generate_summary_insights self = (self', out) ->
  frame summary_pass self self' df.
Proof.
  intros Hdf. unfold generate_summary_insights. rewrite Hdf. cbv zeta.
  destruct (if has_col df "day_of_week" then _ else _);
    [intros [= <- <-]; now apply frame_refl|].
  destruct (if has_col df "month" then _ else _); intros [= <- <-].
  - now apply frame_refl.
  - apply frame_set_insight; [now left | now apply frame_refl].
Qed.

(** C6, as amended.  Each of the six passes, whatever its outcome, leaves
    the raw table, the dtype of the dates, the rows and every cell outside
    its helper columns as they were, appends at most its helper columns
    ([week] and [year] for the trends, [month] when absent for the seasonal
    patterns, [price_category] for the distribution; none for the other
    three, which leave the table identical), and changes no key of the
    insights document but its own. *)
Theorem passes_keep_frame (p : pass) (self self' : DataProcessor) (df : DataFrame)
    (out : outcome) :
  processed_data self = Some df ->
  run_pass p self = (self', out) ->
  frame p self self' df.
Proof.
  destruct p; cbn [run_pass].
  - apply popular_routes_frame.
  - apply price_trends_frame.
  - apply seasonal_patterns_frame.
  - apply price_distribution_frame.
  - apply market_opportunities_frame.
  - apply summary_frame.
Qed.

(** C6, refuted as stated.  The distribution pass assigns the column
    [price_category] on the cleaned table it reads: the table has one
    column more after the pass, and its rows carry a label they did not. *)
Lemma price_distribution_changes_the_table :
  exists before after,
    processed_data cleaned_four = Some before
    /\ processed_data (fst (run_pass price_distribution_pass cleaned_four)) = Some after
    /\ columns after = (columns before ++ ["price_category"])%list
    /\ map price_category (rows before) = [None; None; None; None]
    /\ map price_category (rows after)
       = [Some Budget; Some Budget; Some Luxury; Some Luxury]
    /\ after <> before.
Proof.
  eexists. eexists. split; [vm_compute; reflexivity|].
  split; [vm_compute; reflexivity|]. split; [reflexivity|].
  split; [reflexivity|]. split; [reflexivity|].
  intros H. apply (f_equal (fun t => length (columns t))) in H. discriminate H.
Qed.

Lemma passes_keep_frame_witness :
  frame price_distribution_pass cleaned_four
        (fst (run_pass price_distribution_pass cleaned_four))
        (default empty_frame (processed_data cleaned_four)).
Proof.
  apply (passes_keep_frame price_distribution_pass cleaned_four _ _
           (snd (run_pass price_distribution_pass cleaned_four))).
  - reflexivity.
  - vm_compute. reflexivity.
Defined.

(** ** Reading the insights *)

(** C9.  For a category that is not a key of the insights: when the
    insights are not empty, [get_insights] returns the whole mapping and
    leaves the processor as it is; when they are empty, it returns the
    empty mapping, whatever the category. *)
Theorem get_insights_unknown_category (self : DataProcessor) (c : string) :
  insights self !! c = None ->
  (insights self <> ∅ ->
   get_insights (Some c) self = (self, all_insights (insights self)))
  /\ (insights self = ∅ ->
      forall category, snd (get_insights category self) = all_insights ∅).
Proof.
  intros Hc. split.
  - intros Hne. unfold get_insights.
    rewrite bool_decide_eq_false_2 by exact Hne.
    rewrite Hc. now destruct (negb (c =? "")).
  - intros He category. unfold get_insights.
    now rewrite bool_decide_eq_true_2 by exact He.
Qed.

Lemma get_insights_unknown_category_witness :
  get_insights (Some "no_such_analysis") summary_only
  = (summary_only, all_insights (insights summary_only)).
Proof.
  apply (get_insights_unknown_category summary_only "no_such_analysis").
  - reflexivity.
  - intros H. apply (f_equal (fun m => m !! "price_categories")) in H.
    vm_compute in H. discriminate H.
Defined.

(** ** The dashboard filter *)

Lemma filter_filter {A} (f g : A -> bool) (l : list A) :
  List.filter f (List.filter g l) = List.filter (fun x => g x && f x) l.
Proof.
  induction l as [|x l IH]; simpl; [reflexivity|].
  destruct (g x); simpl; [destruct (f x)|]; now rewrite IH.
Qed.

Lemma filter_true {A} (l : list A) : List.filter (fun _ => true) l = l.
Proof. induction l; simpl; congruence. Qed.



(** * Further properties *)

(** ** The cleaned table *)

Section CleanedTable.
Variable parse_datetime : string -> option (option date).

Lemma imputed_columns (raw : DataFrame) :
  columns (imputed raw) = columns raw /\ date_dtype (imputed raw) = date_dtype raw
  /\ length (rows (imputed raw)) = length (rows raw).
Proof.
  unfold imputed. destruct (has_col raw "price" && isna_any (rows raw)); cbn;
    rewrite ?length_map; auto.
Qed.

Lemma ensure_datetime_columns (df : DataFrame) :
  columns (fst (ensure_datetime parse_datetime df)) = columns df.
Proof. apply ensure_datetime_rows. Qed.

(** The cleaned table, unfolded, for a table with the identity columns. *)
Lemma cleaned_unfold (raw : DataFrame) :
  missing_col raw identity_columns = None ->
  cleaned parse_datetime raw
  = if date_dtype (fst (ensure_datetime parse_datetime (imputed raw)))
    then mkDF (date_columns (columns raw)) true
              (map date_fields (retained parse_datetime raw))
    else mkDF (columns raw) false (retained parse_datetime raw).
Proof.
  intros Hid. unfold cleaned, retained.
  pose proof (ensure_datetime_columns (imputed raw)) as Hc.
  destruct (imputed_columns raw) as (Hcols & _ & _). rewrite Hcols in Hc.
  set (df := fst (ensure_datetime parse_datetime (imputed raw))) in *.
  rewrite Hc, (identity_columns_many _ (proj1 (missing_identity_In raw) Hid)).
  assert (Hfd : has_col raw "flight_date" = true).
  { apply missing_col_None in Hid. now inversion Hid. }
  unfold remove_outliers, add_date_fields, has_col in *. cbn [columns rows date_dtype].
  destruct (existsb (String.eqb "price") (columns raw)); cbn [columns rows date_dtype];
    rewrite Hfd; cbn [andb]; destruct (date_dtype df); reflexivity.
Qed.

Lemma cleaned_rows_cases (raw : DataFrame) :
  missing_col raw identity_columns = None ->
  rows (cleaned parse_datetime raw) = map date_fields (retained parse_datetime raw)
  \/ rows (cleaned parse_datetime raw) = retained parse_datetime raw.
Proof.
  intros Hid. rewrite (cleaned_unfold raw Hid).
  destruct (date_dtype _); [left | right]; reflexivity.
Qed.

Lemma retained_keys (raw : DataFrame) :
  List.NoDup (map subset_key (retained parse_datetime raw)).
Proof.
  unfold retained. destruct (has_col raw "price").
  - apply NoDup_map_filter, keep_first_keys.
  - apply keep_first_keys.
Qed.

(** The full state after a cleaning that does not raise. *)
Lemma clean_data_state (raw : DataFrame) :
  rows raw <> [] ->
  missing_col raw identity_columns = None ->
  clean_data parse_datetime (load_data raw new_processor)
  = (mkDP (Some raw) (Some (cleaned parse_datetime raw)) ∅
          (snd (ensure_datetime parse_datetime (imputed raw))), Returned).
Proof.
  intros Hne Hid. unfold clean_data, load_data. cbn [raw_data].
  destruct (rows raw) as [|r0 rs0] eqn:Hrows; [congruence|]. cbn [length Nat.eqb].
  rewrite fill_missing_prices_imputed
    by (eapply missing_col_sub; [|exact Hid]; intros c [<-|[<-|[]]]; cbn; tauto).
  unfold cleaned.
  destruct (ensure_datetime parse_datetime (imputed raw)) as [df msgs] eqn:E.
  pose proof (ensure_datetime_columns (imputed raw)) as Hc. rewrite E in Hc. cbn in Hc.
  destruct (imputed_columns raw) as (Hcols & _ & _). rewrite Hcols in Hc.
  assert (Hid' : missing_col df identity_columns = None).
  { unfold missing_col, has_col in *. now rewrite Hc. }
  unfold drop_duplicates. cbn [fst snd].
  rewrite Hc, (identity_columns_many _ (proj1 (missing_identity_In raw) Hid)).
  change ["flight_date"; "flight_time"; "origin"; "destination"; "airline"]
    with identity_columns. rewrite Hid'.
  f_equal. unfold set_processed.
  assert (Hlog : forall s, fold_left (fun s m => warning m s) msgs s
                           = mkDP (raw_data s) (processed_data s) (insights s)
                                  (log s ++ msgs)).
  { clear. induction msgs as [|m msgs IH]; intros s; cbn.
    - rewrite app_nil_r. now destruct s.
    - rewrite IH. cbn. now rewrite <- app_assoc. }
  rewrite Hlog. reflexivity.
Qed.
End CleanedTable.

Section CleanedInvariants.
Variable parse_datetime : string -> option (option date).

Lemma retained_In (raw : DataFrame) (r : Row) :
  In r (retained parse_datetime raw) ->
  In r (keep_first (rows (fst (ensure_datetime parse_datetime (imputed raw)))))
  /\ (has_col raw "price" = true ->
      within_fence (fenced_prices parse_datetime raw) r = true).
Proof.
  unfold retained, fenced_prices. destruct (has_col raw "price").
  - intros H. apply filter_In in H. tauto.
  - intros H. split; [exact H | discriminate].
Qed.

(** X1.  In the cleaned table no two rows share the identity key (flight
    date, flight time, origin, destination, airline). *)
Theorem cleaned_flights_are_distinct (raw : DataFrame) :
  rows raw <> [] ->
  missing_col raw identity_columns = None ->
  exists self T,
    clean_data parse_datetime (load_data raw new_processor) = (self, Returned)
    /\ processed_data self = Some T
    /\ List.NoDup (map subset_key (rows T)).
Proof.
  intros Hne Hid. eexists. eexists. split; [apply (clean_data_state _ raw Hne Hid)|].
  split; [reflexivity|].
  destruct (cleaned_rows_cases parse_datetime raw Hid) as [-> | ->].
  - rewrite map_date_fields_keys. apply retained_keys.
  - apply retained_keys.
Qed.


Lemma median_nil : median [] = None.
Proof. reflexivity. Qed.

Lemma prices_nil (rs : list Row) :
  prices rs = [] <-> forall r, In r rs -> price r = None.
Proof.
  split.
  - intros H r Hr. destruct (price r) as [p|] eqn:E; [|reflexivity].
    exfalso. apply (proj2 (prices_nonempty rs)); [eauto | exact H].
  - intros H. destruct (prices rs) eqn:E; [reflexivity|]. exfalso.
    assert (Hne : prices rs <> []) by (rewrite E; discriminate).
    apply prices_nonempty in Hne. destruct Hne as (r & p & Hr & Hp).
    rewrite (H r Hr) in Hp. discriminate.
Qed.

Lemma imputed_price_None (raw : DataFrame) (r0 : Row) :
  prices (rows raw) = [] -> In r0 (rows raw) -> imputed_price raw r0 = None.
Proof.
  intros Hnil Hr0. pose proof (proj1 (prices_nil _) Hnil) as Hall.
  assert (Hroute : forall r, route_median (rows raw) r = None).
  { intros r. unfold route_median. destruct (route_key r) as [k|]; [|reflexivity].
    replace (prices (group_rows route_key (rows raw) k)) with (@nil Q); [reflexivity|].
    symmetry. apply prices_nil. intros x Hx. apply Hall.
    unfold group_rows in Hx. now apply filter_In in Hx. }
  unfold imputed_price. rewrite (Hall r0 Hr0), Hroute.
  replace (prices (map (fun r => fillna (route_median (rows raw) r) r) (rows raw)))
    with (@nil Q); [reflexivity|].
  symmetry. apply prices_nil. intros x Hx. apply in_map_iff in Hx.
  destruct Hx as (r & <- & Hr). rewrite fillna_price, (Hall r Hr). apply Hroute.
Qed.

(** X3.  A table whose price column holds no value at all is cleaned to a
    table without rows: nothing can be imputed and no row passes the fence. *)
Theorem all_null_prices_clean_to_no_rows (raw : DataFrame) :
  rows raw <> [] ->
  missing_col raw identity_columns = None ->
  has_col raw "price" = true ->
  prices (rows raw) = [] ->
  exists self T,
    clean_data parse_datetime (load_data raw new_processor) = (self, Returned)
    /\ processed_data self = Some T
    /\ rows T = [].
Proof.
  intros Hne Hid Hp Hnil. eexists. eexists.
  split; [apply (clean_data_state _ raw Hne Hid)|]. split; [reflexivity|].
  assert (Hret : retained parse_datetime raw = []).
  { destruct (retained parse_datetime raw) as [|r l] eqn:E; [reflexivity|]. exfalso.
    assert (Hr : In r (retained parse_datetime raw)) by (rewrite E; now left).
    apply retained_In in Hr. destruct Hr as [Hk Hf]. specialize (Hf Hp).
    apply within_fence_priced in Hf. destruct Hf as [p Hprice].
    apply keep_first_In in Hk.
    destruct (ensure_datetime_rows parse_datetime (imputed raw)) as [_ HF].
    destruct (Forall2_In_r _ _ _ _ HF Hk) as (r1 & Hr1 & Hs).
    apply same_but_date_keeps in Hs. destruct Hs as (Hp1 & _).
    apply (imputed_rows raw r1 Hp) in Hr1. destruct Hr1 as (r0 & Hr0 & _ & _ & Himp).
    rewrite (imputed_price_None raw r0 Hnil Hr0) in Himp. congruence. }
  destruct (cleaned_rows_cases parse_datetime raw Hid) as [-> | ->];
    now rewrite Hret.
Qed.
End CleanedInvariants.

Lemma cleaned_flights_are_distinct_witness :
  exists self T,
    clean_data parse_iso_date (load_data four_flights new_processor) = (self, Returned)
    /\ processed_data self = Some T
    /\ List.NoDup (map subset_key (rows T)).
Proof.
  apply (cleaned_flights_are_distinct parse_iso_date four_flights).
  - intros H. discriminate H.
  - reflexivity.
Defined.


Lemma all_null_prices_clean_to_no_rows_witness :
  exists self T,
    clean_data parse_iso_date (load_data unpriced_flights new_processor) = (self, Returned)
    /\ processed_data self = Some T
    /\ rows T = [].
Proof.
  apply (all_null_prices_clean_to_no_rows parse_iso_date unpriced_flights).
  - intros H. discriminate H.
  - reflexivity.
  - reflexivity.
  - reflexivity.
Defined.

Lemma fillna_date (v : option Q) (r : Row) : flight_date (fillna v r) = flight_date r.
Proof. unfold fillna. now destruct (price r). Qed.

Lemma imputed_dates (raw : DataFrame) :
  map flight_date (rows (imputed raw)) = map flight_date (rows raw).
Proof.
  unfold imputed. destruct (has_col raw "price" && isna_any (rows raw)); [|reflexivity].
  cbn [rows]. rewrite !map_map. apply map_ext. intros r. now rewrite !fillna_date.
Qed.

Lemma mapM_fails {A B} (f : A -> option B) (l : list A) (x : A) :
  In x l -> f x = None -> mapM f l = None.
Proof.
  induction l as [|y l IH]; [intros []|].
  intros [->|Hx] Hf; cbn.
  - now rewrite Hf.
  - destruct (f y); [|reflexivity]. cbn. now rewrite (IH Hx Hf).
Qed.

Lemma dayofweek_range (d : date) : (0 <= dayofweek d <= 6)%Z.
Proof. unfold dayofweek. pose proof (Z.mod_pos_bound (days_from_civil d + 3) 7). lia. Qed.

Lemma keep_first_length (rs : list Row) : (length (keep_first rs) <= length rs)%nat.
Proof.
  induction rs as [|r rs IH]; cbn; [lia|].
  pose proof (List.filter_length_le
                (fun x => negb (bool_decide (subset_key x = subset_key r)))
                (keep_first rs)). lia.
Qed.

Section CleanedDates.
Variable parse_datetime : string -> option (option date).

Lemma to_datetime_cell_date (r : Row) :
  to_datetime_cell parse_datetime r
  = match flight_date r with
    | DateStr s =>
      match parse_datetime s with
      | Some (Some d) => Some (set_flight_date (DateVal d) r)
      | Some None => Some (set_flight_date DateNaT r)
      | None => None
      end
    | _ => Some r
    end.
Proof. unfold to_datetime_cell. now destruct (flight_date r). Qed.

(** X4.  A flight date that does not parse is not fatal: [clean_data]
    returns, logs one warning, keeps the date column as it was (every
    cleaned row carries the date cell of a raw row, the dtype stays
    unparsed) and adds no calendar column. *)
Theorem unparsed_dates_are_kept (raw : DataFrame) (r0 : Row) (s : string) :
  rows raw <> [] ->
  missing_col raw identity_columns = None ->
  date_dtype raw = false ->
  In r0 (rows raw) ->
  flight_date r0 = DateStr s ->
  parse_datetime s = None ->
  exists self T,
    clean_data parse_datetime (load_data raw new_processor) = (self, Returned)
    /\ log self = ["Could not convert flight_date to datetime"]
    /\ processed_data self = Some T
    /\ columns T = columns raw
    /\ date_dtype T = false
    /\ forall r, In r (rows T) -> In (flight_date r) (map flight_date (rows raw)).
Proof.
  intros Hne Hid Hdt Hr0 Hs Hparse.
  assert (Hfd : has_col (imputed raw) "flight_date" = true).
  { unfold has_col. rewrite (proj1 (imputed_columns raw)).
    apply missing_col_None in Hid. now inversion Hid. }
  assert (Hfail : mapM (to_datetime_cell parse_datetime) (rows (imputed raw)) = None).
  { assert (Hin : In (DateStr s) (map flight_date (rows (imputed raw)))).
    { rewrite imputed_dates, <- Hs. now apply in_map. }
    apply in_map_iff in Hin. destruct Hin as (r1 & Hd & Hr1).
    apply (mapM_fails _ _ r1 Hr1). now rewrite to_datetime_cell_date, Hd, Hparse. }
  assert (Hens : ensure_datetime parse_datetime (imputed raw)
                 = (imputed raw, ["Could not convert flight_date to datetime"])).
  { unfold ensure_datetime. rewrite Hfd, (proj1 (proj2 (imputed_columns raw))), Hdt.
    now rewrite Hfail. }
  eexists. eexists. split; [apply (clean_data_state _ raw Hne Hid)|].
  rewrite (cleaned_unfold _ raw Hid), Hens. cbn [fst snd log processed_data].
  rewrite (proj1 (proj2 (imputed_columns raw))), Hdt.
  split; [reflexivity|]. split; [reflexivity|]. cbn [columns date_dtype rows].
  split; [reflexivity|]. split; [reflexivity|].
  intros r Hr. apply retained_In in Hr. destruct Hr as [Hk _].
  apply keep_first_In in Hk. rewrite Hens in Hk. cbn [fst] in Hk.
  rewrite <- imputed_dates. now apply in_map.
Qed.

(** X5.  When the dates parse, every row of the cleaned table carries the
    calendar cells of its own flight date: the day of the week, between 0
    and 6, and the month for a timestamp, nothing for a missing date; and
    [is_weekend] is 0 or 1, and 1 exactly on days 5 and 6. *)
Theorem cleaned_calendar_cells (raw : DataFrame) :
  rows raw <> [] ->
  missing_col raw identity_columns = None ->
  date_dtype (cleaned parse_datetime raw) = true ->
  exists self T,
    clean_data parse_datetime (load_data raw new_processor) = (self, Returned)
    /\ processed_data self = Some T
    /\ Forall (fun c => has_col T c = true) calendar_columns
    /\ forall r, In r (rows T) ->
         day_of_week r = dayofweek <$> cell_date (flight_date r)
         /\ month r = d_month <$> cell_date (flight_date r)
         /\ (forall d, day_of_week r = Some d -> (0 <= d <= 6)%Z)
         /\ (is_weekend r = Some 0%Z \/ is_weekend r = Some 1%Z)
         /\ (is_weekend r = Some 1%Z <->
             day_of_week r = Some 5%Z \/ day_of_week r = Some 6%Z).
Proof.
  intros Hne Hid Hdt. eexists. eexists.
  split; [apply (clean_data_state _ raw Hne Hid)|]. split; [reflexivity|].
  rewrite (cleaned_unfold _ raw Hid) in *.
  destruct (date_dtype (fst (ensure_datetime parse_datetime (imputed raw))));
    [|discriminate Hdt].
  split.
  - apply List.Forall_forall. intros c Hc. apply has_col_In. cbn [columns].
    unfold date_columns. rewrite !(add_col_In parse_datetime). cbn in Hc. intuition.
  - cbn [rows]. intros r Hr. apply in_map_iff in Hr. destruct Hr as (r' & <- & _).
    unfold date_fields. destruct r' as [fd ft o d p a du dom dw mo we wk yr pc].
    cbn. destruct fd as [s|dt|]; cbn.
    + repeat split; try discriminate; auto; intros [H|H]; discriminate.
    + pose proof (dayofweek_range dt) as Hrange.
      split; [reflexivity|]. split; [reflexivity|].
      split; [intros d' [= <-]; exact Hrange|].
      destruct (dayofweek dt =? 5)%Z eqn:E5; destruct (dayofweek dt =? 6)%Z eqn:E6; cbn;
        rewrite ?Z.eqb_eq, ?Z.eqb_neq in *.
      * split; [now right|]. split; [intros _; left; congruence | reflexivity].
      * split; [now right|]. split; [intros _; left; congruence | reflexivity].
      * split; [now right|]. split; [intros _; right; congruence | reflexivity].
      * split; [now left|]. split; [discriminate|]. intros [[= H]|[= H]]; congruence.
    + repeat split; try discriminate; auto; intros [H|H]; discriminate.
Qed.

Lemma retained_length (raw : DataFrame) :
  (length (retained parse_datetime raw) <= length (rows raw))%nat.
Proof.
  assert (Hk : (length (keep_first (rows (fst (ensure_datetime parse_datetime
                                                   (imputed raw)))))
                <= length (rows raw))%nat).
  { etransitivity; [apply keep_first_length|].
    destruct (ensure_datetime_rows parse_datetime (imputed raw)) as [_ HF].
    apply Forall2_length in HF. rewrite <- HF.
    now rewrite (proj2 (proj2 (imputed_columns raw))). }
  unfold retained. destruct (has_col raw "price"); [|exact Hk].
  etransitivity; [apply List.filter_length_le | exact Hk].
Qed.

(** X6.  Cleaning only removes rows and only appends calendar columns: the
    cleaned table has at most as many rows as the raw table, its columns
    are the raw columns followed by calendar columns the raw table did not
    have, and the raw table stays loaded as it was. *)
Theorem cleaning_only_drops_rows (raw : DataFrame) :
  rows raw <> [] ->
  missing_col raw identity_columns = None ->
  exists self T added,
    clean_data parse_datetime (load_data raw new_processor) = (self, Returned)
    /\ raw_data self = Some raw
    /\ processed_data self = Some T
    /\ (length (rows T) <= length (rows raw))%nat
    /\ columns T = (columns raw ++ added)%list
    /\ incl added calendar_columns
    /\ (forall c, In c added -> ~ In c (columns raw)).
Proof.
  intros Hne Hid.
  assert (Hadd : forall c cols, exists added,
            add_col c cols = (cols ++ added)%list /\ incl added [c]
            /\ (forall x, In x added -> ~ In x cols)).
  { intros c cols. unfold add_col. destruct (existsb (String.eqb c) cols) eqn:E.
    - exists []. split; [now rewrite app_nil_r|]. split; [intros ? []|intros ? []].
    - exists [c]. split; [reflexivity|]. split; [apply incl_refl|].
      intros x [<-|[]] Hin.
      assert (existsb (String.eqb c) cols = true); [|congruence].
      apply existsb_exists. exists c. split; [exact Hin | apply String.eqb_refl]. }
  rewrite (clean_data_state _ raw Hne Hid), (cleaned_unfold _ raw Hid).
  destruct (date_dtype (fst (ensure_datetime parse_datetime (imputed raw)))).
  - unfold date_columns.
    destruct (Hadd "day_of_week" (columns raw)) as (a1 & E1 & I1 & N1).
    destruct (Hadd "month" (columns raw ++ a1)%list) as (a2 & E2 & I2 & N2).
    destruct (Hadd "is_weekend" ((columns raw ++ a1) ++ a2)%list) as (a3 & E3 & I3 & N3).
    eexists. eexists. exists (a1 ++ a2 ++ a3)%list.
    split; [reflexivity|]. split; [reflexivity|]. split; [reflexivity|].
    cbn [rows columns]. split; [rewrite length_map; apply retained_length|].
    split; [rewrite E1, E2, E3; now rewrite <- !app_assoc|].
    split.
    + intros c Hc. unfold calendar_columns. rewrite !in_app_iff in Hc.
      destruct Hc as [Hc|[Hc|Hc]]; [apply I1 in Hc | apply I2 in Hc | apply I3 in Hc];
        cbn in *; tauto.
    + intros c Hc Hin. rewrite !in_app_iff in Hc. destruct Hc as [Hc|[Hc|Hc]].
      * now apply (N1 c).
      * apply (N2 c Hc). apply in_or_app. now left.
      * apply (N3 c Hc). apply in_or_app. left. apply in_or_app. now left.
  - eexists. eexists. exists [].
    split; [reflexivity|]. split; [reflexivity|]. split; [reflexivity|].
    cbn [rows columns]. split; [apply retained_length|].
    split; [now rewrite app_nil_r|]. split; intros ? [].
Qed.
End CleanedDates.

Lemma unparsed_dates_are_kept_witness :
  exists self T,
    clean_data parse_iso_date (load_data misdated_flights new_processor) = (self, Returned)
    /\ log self = ["Could not convert flight_date to datetime"]
    /\ processed_data self = Some T
    /\ columns T = columns misdated_flights
    /\ date_dtype T = false
    /\ forall r, In r (rows T) ->
         In (flight_date r) (map flight_date (rows misdated_flights)).
Proof.
  apply (unparsed_dates_are_kept parse_iso_date misdated_flights
           (flight "soon" "SYD" "MEL" (Some 160%Q)) "soon").
  - intros H. discriminate H.
  - reflexivity.
  - reflexivity.
  - right. left. reflexivity.
  - reflexivity.
  - reflexivity.
Defined.

Lemma cleaned_calendar_cells_witness :
  exists self T,
    clean_data parse_iso_date (load_data four_flights new_processor) = (self, Returned)
    /\ processed_data self = Some T
    /\ Forall (fun c => has_col T c = true) calendar_columns
    /\ forall r, In r (rows T) ->
         day_of_week r = dayofweek <$> cell_date (flight_date r)
         /\ month r = d_month <$> cell_date (flight_date r)
         /\ (forall d, day_of_week r = Some d -> (0 <= d <= 6)%Z)
         /\ (is_weekend r = Some 0%Z \/ is_weekend r = Some 1%Z)
         /\ (is_weekend r = Some 1%Z <->
             day_of_week r = Some 5%Z \/ day_of_week r = Some 6%Z).
Proof.
  apply (cleaned_calendar_cells parse_iso_date four_flights).
  - intros H. discriminate H.
  - reflexivity.
  - vm_compute. reflexivity.
Defined.

Lemma cleaning_only_drops_rows_witness :
  exists self T added,
    clean_data parse_iso_date (load_data four_flights new_processor) = (self, Returned)
    /\ raw_data self = Some four_flights
    /\ processed_data self = Some T
    /\ (length (rows T) <= length (rows four_flights))%nat
    /\ columns T = (columns four_flights ++ added)%list
    /\ incl added calendar_columns
    /\ (forall c, In c added -> ~ In c (columns four_flights)).
Proof.
  apply (cleaning_only_drops_rows parse_iso_date four_flights).
  - intros H. discriminate H.
  - reflexivity.
Defined.

(** ** The whole run *)

(** X7.  On a table without rows a fresh processor runs to the end without
    raising: nothing is cleaned, no insight is written, and each of the
    seven steps logs its warning. *)
Theorem run_on_empty_table_writes_nothing (parse_datetime : string -> option (option date))
    (raw : DataFrame) :
  rows raw = [] ->
  run_all_analyses parse_datetime (load_data raw new_processor)
  = (mkDP (Some raw) None ∅ no_data_warnings, Returned).
Proof.
  intros H. unfold run_all_analyses, and_then, clean_data, load_data.
  cbn [raw_data]. rewrite H. reflexivity.
Qed.

Lemma run_on_empty_table_writes_nothing_witness :
  run_all_analyses parse_iso_date (load_data no_flights new_processor)
  = (mkDP (Some no_flights) None ∅ no_data_warnings, Returned).
Proof.
  apply (run_on_empty_table_writes_nothing parse_iso_date no_flights). reflexivity.
Defined.

Lemma pass_without_table (p : pass) (self self' : DataProcessor) (out : outcome) :
  processed_data self = None ->
  run_pass p self = (self', out) ->
  processed_data self' = None /\ insights self' = insights self
  /\ raw_data self' = raw_data self /\ out = Returned.
Proof.
  intros H. destruct p; cbn [run_pass];
    [unfold analyze_popular_routes | unfold analyze_price_trends
    | unfold analyze_seasonal_patterns | unfold analyze_price_distribution
    | unfold analyze_market_opportunities | unfold generate_summary_insights];
    rewrite H; intros [= <- <-]; cbn; auto.
Qed.

(** A pass changes no key but its own, keeps the raw table, and neither
    drops nor creates the processed table. *)
Lemma pass_keeps_other_keys (p : pass) (self self' : DataProcessor) (out : outcome) :
  run_pass p self = (self', out) ->
  (forall k, ~ In k (keys_of p) -> insights self' !! k = insights self !! k)
  /\ raw_data self' = raw_data self
  /\ (is_Some (processed_data self) -> is_Some (processed_data self')).
Proof.
  intros Hrun. destruct (processed_data self) as [df|] eqn:Hdf.
  - assert (Hf : frame p self self' df).
    { destruct p; cbn [run_pass] in Hrun;
        eauto using popular_routes_frame, price_trends_frame, seasonal_patterns_frame,
                    price_distribution_frame, market_opportunities_frame, summary_frame. }
    destruct Hf as (Hraw & Hins & df' & Hdf' & _).
    split; [exact Hins|]. split; [exact Hraw|]. intros _. rewrite Hdf'. eauto.
  - destruct (pass_without_table p self self' out Hdf Hrun) as (_ & -> & -> & _).
    split; [reflexivity|]. split; [reflexivity|]. intros [? [=]].
Qed.

Lemma run_passes_keys (ps : list pass) (self self' : DataProcessor) (out : outcome) :
  run_passes ps self = (self', out) ->
  forall k, (forall p, In p ps -> ~ In k (keys_of p)) ->
            insights self' !! k = insights self !! k.
Proof.
  revert self. induction ps as [|p ps IH]; intros self Hrun k Hk.
  - now injection Hrun as <- _.
  - destruct ps as [|q ps].
    + cbn in Hrun. apply pass_keeps_other_keys in Hrun.
      apply Hrun, Hk. now left.
    + change (and_then (run_pass p) (run_passes (q :: ps)) self = (self', out)) in Hrun.
      unfold and_then in Hrun. destruct (run_pass p self) as [s1 o1] eqn:E1.
      apply pass_keeps_other_keys in E1. destruct E1 as (Hp & _).
      destruct o1.
      * rewrite (IH s1 Hrun k); [apply Hp, Hk; now left|].
        intros p' Hp'. apply Hk. now right.
      * injection Hrun as <- _. apply Hp, Hk. now left.
Qed.

Section Run.
Variable parse_datetime : string -> option (option date).

(** Cleaning writes no insight and keeps the raw table. *)
Lemma clean_data_keeps_insights (self self' : DataProcessor) (out : outcome) :
  clean_data parse_datetime self = (self', out) ->
  insights self' = insights self /\ raw_data self' = raw_data self.
Proof.
  unfold clean_data. intros H.
  repeat match type of H with
         | context [match ?x with _ => _ end] => destruct x eqn:?
         end;
    injection H as <- <-; cbn; auto;
    match goal with
    | |- context [fold_left _ ?msgs self] =>
      destruct (warnings_frame msgs self) as (_ & Hraw & Hins); split; congruence
    end.
Qed.

Lemma run_all_unfold (self : DataProcessor) (raw : DataFrame) :
  raw_data self = Some raw ->
  run_all_analyses parse_datetime self
  = and_then (clean_data parse_datetime) (run_passes analyses) self.
Proof. intros H. unfold run_all_analyses. rewrite H. reflexivity. Qed.

(** X8.  Whatever the table and whatever the outcome, a run of a fresh
    processor writes no key outside the ten documented ones. *)
Theorem run_writes_documented_keys_only (raw : DataFrame) (self : DataProcessor)
    (out : outcome) (k : string) :
  run_all_analyses parse_datetime (load_data raw new_processor) = (self, out) ->
  is_Some (insights self !! k) ->
  In k documented_keys.
Proof.
  intros Hrun Hk. rewrite (run_all_unfold (load_data raw new_processor) raw eq_refl) in Hrun.
  unfold and_then in Hrun.
  destruct (clean_data parse_datetime (load_data raw new_processor)) as [s1 o1] eqn:E1.
  apply clean_data_keeps_insights in E1. destruct E1 as [Hins _].
  destruct (in_dec string_dec k documented_keys) as [Hin|Hout]; [exact Hin|]. exfalso.
  assert (Hnone : insights self !! k = None).
  { destruct o1.
    - rewrite (run_passes_keys _ _ _ _ Hrun k), Hins; [reflexivity|].
      intros p Hp Hkp. apply Hout.
      unfold analyses in Hp. cbn in Hp.
      repeat destruct Hp as [<-|Hp]; try destruct Hp; cbn in Hkp; cbn; tauto.
    - injection Hrun as <- _. now rewrite Hins. }
  rewrite Hnone in Hk. destruct Hk as [? [=]].
Qed.
End Run.

Lemma run_writes_documented_keys_only_witness :
  In "price_stats" documented_keys.
Proof.
  apply (run_writes_documented_keys_only parse_iso_date weekend_fares
           (fst (run_all_analyses parse_iso_date (load_data weekend_fares new_processor)))
           (snd (run_all_analyses parse_iso_date (load_data weekend_fares new_processor)))
           "price_stats").
  - vm_compute. reflexivity.
  - vm_compute. eexists. reflexivity.
Defined.

Lemma and_then_Returned (f g : DataProcessor -> DataProcessor * outcome)
    (self self' : DataProcessor) :
  and_then f g self = (self', Returned) ->
  exists s1, f self = (s1, Returned) /\ g s1 = (self', Returned).
Proof.
  unfold and_then. destruct (f self) as [s1 [|e]]; [eauto | discriminate].
Qed.

(** A pass that returns on a processed table has written its main key. *)
Lemma returned_pass_wrote_its_key (p : pass) (k : string) (self self' : DataProcessor) :
  is_Some (processed_data self) ->
  run_pass p self = (self', Returned) ->
  (p = popular_routes_pass /\ k = "popular_routes"
   \/ p = market_opportunities_pass /\ k = "market_opportunities"
   \/ p = summary_pass /\ k = "summary") ->
  is_Some (insights self' !! k).
Proof.
  intros [df Hdf] Hrun [[-> ->]|[[-> ->]|[-> ->]]]; cbn [run_pass] in Hrun.
  - unfold analyze_popular_routes in Hrun. rewrite Hdf in Hrun.
    destruct (missing_col df _); [discriminate|]. injection Hrun as <-.
    cbn. rewrite lookup_insert_eq. eauto.
  - unfold analyze_market_opportunities in Hrun. rewrite Hdf in Hrun.
    destruct (weekend_opportunities df); [discriminate|].
    destruct (seasonal_opportunities df); [discriminate|]. injection Hrun as <-.
    cbn. rewrite lookup_insert_eq. eauto.
  - unfold generate_summary_insights in Hrun. rewrite Hdf in Hrun. cbv zeta in Hrun.
    destruct (if has_col df "day_of_week" then _ else _); [discriminate|].
    destruct (if has_col df "month" then _ else _); [discriminate|].
    injection Hrun as <-. cbn. rewrite lookup_insert_eq. eauto.
Qed.

Lemma pass_keeps_key (p : pass) (k : string) (self self' : DataProcessor) (out : outcome) :
  run_pass p self = (self', out) ->
  is_Some (insights self !! k) -> is_Some (insights self' !! k).
Proof.
  intros Hrun Hk. destruct (in_dec string_dec k (keys_of p)) as [Hin|Hout].
  - (* its own key: a pass only ever inserts *)
    destruct (processed_data self) as [df|] eqn:Hdf.
    + revert Hrun Hin. destruct p; cbn [run_pass keys_of].
      * unfold analyze_popular_routes. rewrite Hdf.
        destruct (missing_col df _); intros [= <- <-] Hin; [exact Hk|].
        cbn. rewrite lookup_insert. case_decide; eauto.
      * unfold analyze_price_trends. rewrite Hdf.
        destruct (negb _); [intros [= <- <-]; auto|].
        destruct (_ && _); intros [= <- <-] Hin; [|exact Hk].
        cbn. rewrite !lookup_insert. repeat case_decide; eauto.
      * unfold analyze_seasonal_patterns. rewrite Hdf.
        destruct (if has_col df "month" then _ else _);
          [|intros [= <- <-]; auto].
        destruct (negb _); [intros [= <- <-]; auto|]. cbv zeta.
        destruct (collect _ _); destruct (has_col _ "day_of_week");
          intros [= <- <-] Hin; cbn; rewrite ?lookup_insert;
          repeat case_decide; eauto.
      * unfold analyze_price_distribution. rewrite Hdf.
        destruct (negb _); intros [= <- <-] Hin; [exact Hk|].
        cbn. rewrite !lookup_insert. repeat case_decide; eauto.
      * unfold analyze_market_opportunities. rewrite Hdf.
        destruct (weekend_opportunities df); [intros [= <- <-]; auto|].
        destruct (seasonal_opportunities df); intros [= <- <-] Hin; [exact Hk|].
        cbn. rewrite lookup_insert. case_decide; eauto.
      * unfold generate_summary_insights. rewrite Hdf. cbv zeta.
        destruct (if has_col df "day_of_week" then _ else _);
          [intros [= <- <-]; auto|].
        destruct (if has_col df "month" then _ else _); intros [= <- <-] Hin;
          [exact Hk|].
        cbn. rewrite lookup_insert. case_decide; eauto.
    + destruct (pass_without_table p self self' out Hdf Hrun) as (_ & -> & _). exact Hk.
  - apply pass_keeps_other_keys in Hrun. destruct Hrun as (H & _). now rewrite (H k Hout).
Qed.

Section RunKeys.
Variable parse_datetime : string -> option (option date).

Lemma clean_data_Returned (raw : DataFrame) (self : DataProcessor) :
  rows raw <> [] ->
  clean_data parse_datetime (load_data raw new_processor) = (self, Returned) ->
  is_Some (processed_data self).
Proof.
  intros Hne. unfold clean_data, load_data. cbn [raw_data].
  destruct (rows raw) as [|r rs]; [congruence|]. cbn [length Nat.eqb].
  intros H.
  repeat match type of H with
         | context [match ?x with _ => _ end] => destruct x eqn:?
         end; try discriminate.
  injection H as <-. cbn. eauto.
Qed.

(** X9.  A run that returns on a table with rows has cleaned the table and
    has written at least the popular routes, the market opportunities and
    the summary. *)
Theorem returned_run_has_core_insights (raw : DataFrame) (self : DataProcessor) :
  rows raw <> [] ->
  run_all_analyses parse_datetime (load_data raw new_processor) = (self, Returned) ->
  is_Some (processed_data self)
  /\ Forall (fun k => is_Some (insights self !! k))
            ["popular_routes"; "market_opportunities"; "summary"].
Proof.
  intros Hne Hrun.
  rewrite (run_all_unfold _ (load_data raw new_processor) raw eq_refl) in Hrun.
  apply and_then_Returned in Hrun. destruct Hrun as (s0 & Hclean & Hrun).
  apply (clean_data_Returned raw s0 Hne) in Hclean.
  change (run_passes analyses s0) with
    (and_then (run_pass popular_routes_pass)
       (and_then (run_pass price_trends_pass)
          (and_then (run_pass seasonal_patterns_pass)
             (and_then (run_pass price_distribution_pass)
                (and_then (run_pass market_opportunities_pass)
                   (run_pass summary_pass))))) s0) in Hrun.
  apply and_then_Returned in Hrun. destruct Hrun as (s1 & H1 & Hrun).
  apply and_then_Returned in Hrun. destruct Hrun as (s2 & H2 & Hrun).
  apply and_then_Returned in Hrun. destruct Hrun as (s3 & H3 & Hrun).
  apply and_then_Returned in Hrun. destruct Hrun as (s4 & H4 & Hrun).
  apply and_then_Returned in Hrun. destruct Hrun as (s5 & H5 & H6).
  pose proof (proj2 (proj2 (pass_keeps_other_keys _ _ _ _ H1)) Hclean) as P1.
  pose proof (proj2 (proj2 (pass_keeps_other_keys _ _ _ _ H2)) P1) as P2.
  pose proof (proj2 (proj2 (pass_keeps_other_keys _ _ _ _ H3)) P2) as P3.
  pose proof (proj2 (proj2 (pass_keeps_other_keys _ _ _ _ H4)) P3) as P4.
  pose proof (proj2 (proj2 (pass_keeps_other_keys _ _ _ _ H5)) P4) as P5.
  pose proof (proj2 (proj2 (pass_keeps_other_keys _ _ _ _ H6)) P5) as P6.
  split; [exact P6|].
  assert (K1 : is_Some (insights s1 !! "popular_routes"))
    by (apply (returned_pass_wrote_its_key popular_routes_pass _ s0 s1 Hclean H1); auto).
  assert (K5 : is_Some (insights s5 !! "market_opportunities"))
    by (apply (returned_pass_wrote_its_key market_opportunities_pass _ s4 s5 P4 H5); auto).
  assert (K6 : is_Some (insights self !! "summary"))
    by (apply (returned_pass_wrote_its_key summary_pass _ s5 self P5 H6); auto 6).
  repeat constructor.
  - eauto 10 using pass_keeps_key.
  - eauto using pass_keeps_key.
  - exact K6.
Qed.
End RunKeys.

Lemma returned_run_has_core_insights_witness :
  is_Some (processed_data
             (fst (run_all_analyses parse_iso_date (load_data weekend_fares new_processor))))
  /\ Forall (fun k =>
               is_Some (insights
                          (fst (run_all_analyses parse_iso_date
                                  (load_data weekend_fares new_processor))) !! k))
            ["popular_routes"; "market_opportunities"; "summary"].
Proof.
  apply (returned_run_has_core_insights parse_iso_date weekend_fares).
  - intros H. discriminate H.
  - vm_compute. reflexivity.
Defined.

Lemma drained_add (df : DataFrame) (c : string) :
  drained df -> drained (mkDF (add_col c (columns df)) true []).
Proof.
  intros (Hr & Hd & Hc). repeat split; auto.
  eapply List.Forall_impl; [|exact Hc]. intros a Ha. now apply has_col_add.
Qed.

Lemma pass_on_drained (p : pass) (self : DataProcessor) (df : DataFrame) :
  processed_data self = Some df -> drained df -> p <> summary_pass ->
  exists self' df',
    run_pass p self = (self', Returned)
    /\ processed_data self' = Some df' /\ drained df'.
Proof.
  intros Hdf Hdr Hp. pose proof Hdr as (Hr & Hd & Hc).
  unfold cleaned_columns in Hc.
  repeat match goal with
         | H : Forall _ (_ :: _) |- _ => apply Forall_cons_iff in H; destruct H as [? H]
         end.
  destruct p; cbn [run_pass]; try congruence.
  - unfold analyze_popular_routes. rewrite Hdf.
    replace (missing_col df ["origin"; "destination"]) with (@None string)
      by (symmetry; apply missing_col_None; repeat constructor; assumption).
    eexists _, df. split; [reflexivity|]. split; [first [exact Hdf | reflexivity] | exact Hdr].
  - unfold analyze_price_trends. rewrite Hdf.
    match goal with H : has_col df "price" = true |- _ => rewrite H end.
    match goal with H : has_col df "flight_date" = true |- _ => rewrite H end.
    rewrite Hr. cbn [andb]. rewrite Hd. cbn [negb].
    eexists _, _. split; [reflexivity|]. split; [reflexivity|].
    exact (drained_add _ "year" (drained_add df "week" Hdr)).
  - unfold analyze_seasonal_patterns. rewrite Hdf.
    match goal with H : has_col df "month" = true |- _ => rewrite H end.
    match goal with H : has_col df "price" = true |- _ => rewrite H end.
    match goal with H : has_col df "day_of_week" = true |- _ => rewrite H end.
    rewrite Hr. cbn.
    eexists _, df. split; [reflexivity|]. split; [first [exact Hdf | reflexivity] | exact Hdr].
  - unfold analyze_price_distribution. rewrite Hdf.
    match goal with H : has_col df "price" = true |- _ => rewrite H end.
    rewrite Hr, Hd. cbn [negb].
    eexists _, _. split; [reflexivity|]. split; [reflexivity|].
    exact (drained_add df "price_category" Hdr).
  - unfold analyze_market_opportunities, weekend_opportunities, seasonal_opportunities,
      high_demand_opportunities. rewrite Hdf.
    replace (missing_col df ["origin"; "destination"]) with (@None string)
      by (symmetry; apply missing_col_None; repeat constructor; assumption).
    repeat match goal with H : has_col df _ = true |- _ => rewrite H; clear H end.
    rewrite Hr. cbn.
    eexists _, df. split; [reflexivity|]. split; [first [exact Hdf | reflexivity] | exact Hdr].
Qed.

(** On a table without rows that has a [day_of_week] column the summary
    raises: [value_counts().idxmax()] of an empty column. *)
Lemma summary_on_no_rows (self : DataProcessor) (df : DataFrame) :
  processed_data self = Some df -> rows df = [] -> has_col df "day_of_week" = true ->
  generate_summary_insights self
  = (self, Raised (ValueError "attempt to get argmax of an empty sequence")).
Proof.
  intros Hdf Hr Hc. unfold generate_summary_insights. rewrite Hdf. cbv zeta.
  rewrite Hc, Hr. reflexivity.
Qed.

Section Unpriced.
Variable parse_datetime : string -> option (option date).

Lemma retained_unpriced (raw : DataFrame) :
  has_col raw "price" = true -> prices (rows raw) = [] ->
  retained parse_datetime raw = [].
Proof.
  intros Hp Hnil.
  destruct (retained parse_datetime raw) as [|r l] eqn:E; [reflexivity|]. exfalso.
  assert (Hr : In r (retained parse_datetime raw)) by (rewrite E; now left).
  apply retained_In in Hr. destruct Hr as [Hk Hf]. specialize (Hf Hp).
  apply within_fence_priced in Hf. destruct Hf as [p Hprice].
  apply keep_first_In in Hk.
  destruct (ensure_datetime_rows parse_datetime (imputed raw)) as [_ HF].
  destruct (Forall2_In_r _ _ _ _ HF Hk) as (r1 & Hr1 & Hs).
  apply same_but_date_keeps in Hs. destruct Hs as (Hp1 & _).
  apply (imputed_rows raw r1 Hp) in Hr1. destruct Hr1 as (r0 & Hr0 & _ & _ & Himp).
  rewrite (imputed_price_None raw r0 Hnil Hr0) in Himp. congruence.
Qed.

Lemma cleaned_unpriced_drained (raw : DataFrame) :
  missing_col raw identity_columns = None ->
  has_col raw "price" = true -> prices (rows raw) = [] ->
  date_dtype (cleaned parse_datetime raw) = true ->
  drained (cleaned parse_datetime raw).
Proof.
  intros Hid Hp Hnil Hd. revert Hd.
  rewrite (cleaned_unfold parse_datetime raw Hid), (retained_unpriced raw Hp Hnil).
  destruct (date_dtype (fst (ensure_datetime parse_datetime (imputed raw))));
    [intros _ | discriminate].
  split; [reflexivity|]. split; [reflexivity|].
  apply missing_col_None in Hid. unfold identity_columns in Hid.
  apply has_col_In in Hp.
  apply List.Forall_forall. intros c Hc. apply has_col_In. cbn [columns].
  unfold date_columns. rewrite !(add_col_In parse_datetime).
  rewrite List.Forall_forall in Hid.
  assert (Hin : forall c, In c ["flight_date"; "origin"; "destination"] -> In c (columns raw))
    by (intros x Hx; apply has_col_In, Hid; cbn in *; tauto).
  unfold cleaned_columns in Hc. cbn in Hc.
  destruct Hc as [<-|[<-|[<-|[<-|[<-|[<-|[<-|[]]]]]]]]; auto;
    left; left; left; apply Hin; cbn; auto.
Qed.

(** X10.  A table in which no flight has a price, with dates that parse
    (and, if it flags domestic flights, a flag on every row), is cleaned
    down to no rows; the run then goes through the first five passes and
    ends in the summary with a ValueError, the busiest day of no flights,
    so that no summary is written. *)
Theorem run_raises_when_no_price_is_known (raw : DataFrame) :
  rows raw <> [] ->
  missing_col raw identity_columns = None ->
  has_col raw "price" = true ->
  prices (rows raw) = [] ->
  date_dtype (cleaned parse_datetime raw) = true ->
  Forall (fun r => is_domestic r <> None) (rows raw) ->
  exists self T,
    run_all_analyses parse_datetime (load_data raw new_processor)
    = (self, Raised (ValueError "attempt to get argmax of an empty sequence"))
    /\ processed_data self = Some T /\ rows T = []
    /\ insights self !! "summary" = None.
Proof.
  intros Hne Hid Hp Hnil Hd _.
  pose proof (cleaned_unpriced_drained raw Hid Hp Hnil Hd) as D0.
  rewrite (run_all_unfold _ (load_data raw new_processor) raw eq_refl).
  unfold and_then at 1. rewrite (clean_data_state _ raw Hne Hid).
  set (s0 := mkDP _ _ _ _).
  assert (I0 : insights s0 !! "summary" = None) by apply lookup_empty.
  assert (P0 : processed_data s0 = Some (cleaned parse_datetime raw)) by reflexivity.
  change (run_passes analyses s0) with
    (and_then (run_pass popular_routes_pass)
       (and_then (run_pass price_trends_pass)
          (and_then (run_pass seasonal_patterns_pass)
             (and_then (run_pass price_distribution_pass)
                (and_then (run_pass market_opportunities_pass)
                   (run_pass summary_pass))))) s0).
  clearbody s0. revert D0 P0 I0. generalize (cleaned parse_datetime raw). intros T0 D0 P0 I0.
  repeat match goal with
  | |- context [and_then (run_pass ?p) _ ?s] =>
    match goal with
    | P : processed_data s = Some ?T, D : drained ?T, I : insights s !! "summary" = None |- _ =>
      let s' := fresh "s" in let T' := fresh "T" in let E := fresh "E" in
      let P' := fresh "P" in let D' := fresh "D" in let I' := fresh "I" in
      destruct (pass_on_drained p s T P D ltac:(discriminate)) as (s' & T' & E & P' & D');
      assert (I' : insights s' !! "summary" = None)
        by (rewrite (proj1 (pass_keeps_other_keys _ _ _ _ E) "summary"); [exact I|];
            cbn; intuition discriminate);
      unfold and_then at 1; rewrite E; clear E P D I
    end
  end.
  match goal with
  | P : processed_data ?s = Some ?T, D : drained ?T |- _ =>
    exists s, T; cbn [run_pass]; destruct D as (Hr & _ & D);
    rewrite List.Forall_forall in D;
    rewrite (summary_on_no_rows s T P Hr) by (apply D; cbn; auto 10);
    auto
  end.
Qed.
End Unpriced.

Lemma run_raises_when_no_price_is_known_witness :
  exists self T,
    run_all_analyses parse_iso_date (load_data unpriced_flights new_processor)
    = (self, Raised (ValueError "attempt to get argmax of an empty sequence"))
    /\ processed_data self = Some T /\ rows T = []
    /\ insights self !! "summary" = None.
Proof.
  apply (run_raises_when_no_price_is_known parse_iso_date unpriced_flights).
  - intros H. discriminate H.
  - reflexivity.
  - reflexivity.
  - reflexivity.
  - vm_compute. reflexivity.
  - repeat constructor; intros H; discriminate H.
Defined.

Lemma has_col_date_columns (cols : list string) (b : bool) (rs : list Row) (c : string) :
  has_col (mkDF (date_columns cols) b rs) c
  = existsb (String.eqb c) cols || existsb (String.eqb c) calendar_columns.
Proof.
  apply eq_true_iff_eq. rewrite orb_true_iff, has_col_In, !existsb_exists. cbn [columns].
  unfold date_columns. rewrite !(add_col_In (fun _ => None)).
  split.
  - intros [[[H| ->]| ->]| ->].
    + left. exists c. split; [exact H | apply String.eqb_refl].
    + right. exists "day_of_week". split; [cbn; auto | reflexivity].
    + right. exists "month". split; [cbn; auto | reflexivity].
    + right. exists "is_weekend". split; [cbn; auto | reflexivity].
  - intros [(x & Hx & He)|(x & Hx & He)]; apply String.eqb_eq in He; subst x.
    + auto.
    + cbn in Hx. intuition.
Qed.

Section Unpriced.
Variable parse_datetime : string -> option (option date).

(** X11.  A table without a price column, with dates that parse: the
    trend pass only warns, but the seasonal pass aggregates the missing
    column and the run ends there with a KeyError, the popular routes being
    the only insight written. *)
Theorem run_raises_without_price_column (raw : DataFrame) :
  rows raw <> [] ->
  missing_col raw identity_columns = None ->
  has_col raw "price" = false ->
  date_dtype (cleaned parse_datetime raw) = true ->
  exists self,
    run_all_analyses parse_datetime (load_data raw new_processor)
    = (self, Raised (KeyError "price"))
    /\ is_Some (insights self !! "popular_routes")
    /\ (forall k, is_Some (insights self !! k) -> k = "popular_routes")
    /\ In "No price data available for trend analysis" (log self).
Proof.
  intros Hne Hid Hp Hd.
  rewrite (run_all_unfold _ (load_data raw new_processor) raw eq_refl).
  unfold and_then at 1. rewrite (clean_data_state _ raw Hne Hid).
  destruct (cleaned_shape parse_datetime raw Hid Hd) as (rs & -> & _).
  apply missing_col_None in Hid. rewrite List.Forall_forall in Hid.
  set (T := mkDF _ true _).
  assert (Ho : has_col T "origin" = true)
    by (unfold T; rewrite has_col_date_columns; fold (has_col raw "origin");
        rewrite Hid; cbn; auto 10).
  assert (Hde : has_col T "destination" = true)
    by (unfold T; rewrite has_col_date_columns; fold (has_col raw "destination");
        rewrite Hid; cbn; auto 10).
  assert (Hm : has_col T "month" = true)
    by (unfold T; rewrite has_col_date_columns; apply orb_true_r).
  assert (Hpr : has_col T "price" = false)
    by (unfold T; rewrite has_col_date_columns; fold (has_col raw "price");
        rewrite Hp; reflexivity).
  clearbody T.
  cbn [analyses run_passes]. unfold and_then at 1. cbn [run_pass].
  unfold analyze_popular_routes. cbn [processed_data].
  replace (missing_col T ["origin"; "destination"]) with (@None string)
    by (symmetry; apply missing_col_None; repeat constructor; assumption).
  unfold and_then at 1. unfold analyze_price_trends.
  cbn [processed_data set_insight]. rewrite Hpr. cbn [negb].
  unfold and_then at 1. unfold analyze_seasonal_patterns.
  cbn [processed_data warning set_insight]. rewrite Hm. cbv zeta. rewrite Hpr. cbn [negb].
  eexists. split; [reflexivity|]. cbn [insights set_processed log warning set_insight].
  split; [rewrite lookup_insert_eq; eauto|]. split.
  - intros k [v Hk]. destruct (decide (k = "popular_routes")) as [|Hne']; [assumption|].
    rewrite lookup_insert_ne, lookup_empty in Hk by congruence. discriminate.
  - apply in_or_app. right. now left.
Qed.
End Unpriced.

Lemma run_raises_without_price_column_witness :
  exists self,
    run_all_analyses parse_iso_date (load_data fareless_flights new_processor)
    = (self, Raised (KeyError "price"))
    /\ is_Some (insights self !! "popular_routes")
    /\ (forall k, is_Some (insights self !! k) -> k = "popular_routes")
    /\ In "No price data available for trend analysis" (log self).
Proof.
  apply (run_raises_without_price_column parse_iso_date fareless_flights).
  - intros H. discriminate H.
  - reflexivity.
  - reflexivity.
  - vm_compute. reflexivity.
Defined.

(** ** Reading the insights, continued *)

(** X12.  A category that is a key of the insights is answered with its
    entry alone and without any effect, except the empty string, which
    Python reads as no category: it is answered with the whole mapping. *)
Theorem get_insights_known_category (self : DataProcessor) (k : string) (v : insight) :
  insights self !! k = Some v ->
  get_insights (Some k) self
  = (self, if String.eqb k "" then all_insights (insights self) else one_insight v).
Proof.
  intros Hk. unfold get_insights.
  rewrite bool_decide_eq_false_2.
  - rewrite Hk. now destruct (String.eqb k "").
  - intros He. rewrite He, lookup_empty in Hk. discriminate.
Qed.

Lemma get_insights_known_category_witness :
  get_insights (Some "price_categories") summary_only
  = (summary_only, one_insight (price_categories_of [(Budget, 1%nat)])).
Proof.
  apply (get_insights_known_category summary_only "price_categories"
           (price_categories_of [(Budget, 1%nat)])).
  vm_compute. reflexivity.
Defined.

(** ** The dashboard filter, continued *)

(** X13.  With exactly one route type ticked, a table that has rows but no
    [is_domestic] column makes the filter raise a KeyError. *)
Theorem filter_data_raises_without_flag (data : DataFrame) (route_types : list string)
    (price_range : Q * Q) :
  df_empty data = false ->
  has_col data "is_domestic" = false ->
  selected "Domestic" route_types <> selected "International" route_types ->
  filter_data (Some data) route_types price_range = inl (KeyError "is_domestic").
Proof.
  intros He Hc Hs. unfold filter_data. rewrite He, Hc.
  destruct (selected "Domestic" route_types), (selected "International" route_types);
    cbn; congruence.
Qed.

Lemma filter_data_raises_without_flag_witness :
  filter_data (Some no_airline) ["Domestic"] (0%Q, 1000%Q) = inl (KeyError "is_domestic").
Proof.
  apply (filter_data_raises_without_flag no_airline ["Domestic"] (0%Q, 1000%Q)).
  - reflexivity.
  - reflexivity.
  - vm_compute. intros H. discriminate H.
Defined.

Lemma filter_idem {A} (f : A -> bool) (l : list A) :
  List.filter f (List.filter f l) = List.filter f l.
Proof.
  induction l as [|x l IH]; [reflexivity|]. cbn. destruct (f x) eqn:E; cbn; [|exact IH].
  now rewrite E, IH.
Qed.

(** The result of the filter is the table restricted by a test on rows
    that depends on the columns and the settings only. *)
Lemma filter_data_shape (data result : DataFrame) (route_types : list string)
    (price_range : Q * Q) :
  df_empty data = false ->
  filter_data (Some data) route_types price_range = inr result ->
  exists f,
    result = mkDF (columns data) (date_dtype data) (List.filter f (rows data))
    /\ forall data',
         columns data' = columns data -> df_empty data' = false ->
         filter_data (Some data') route_types price_range
         = inr (mkDF (columns data') (date_dtype data') (List.filter f (rows data'))).
Proof.
  intros He H. unfold filter_data in H. rewrite He in H. cbv zeta in H.
  assert (Hcol : forall data' c, columns data' = columns data ->
                                 has_col data' c = has_col data c)
    by (intros data' c Hc; unfold has_col; now rewrite Hc).
  assert (Hsame : forall b rs c, has_col (mkDF (columns data) b rs) c = has_col data c)
    by reflexivity.
  assert (Hsame' : forall data' b rs c, columns data' = columns data ->
                     has_col (mkDF (columns data') b rs) c = has_col data c)
    by (intros data' b rs c Hc; unfold has_col; cbn [columns]; now rewrite Hc).
  destruct (selected "Domestic" route_types) eqn:Ed,
           (selected "International" route_types) eqn:Ei;
    cbn [andb] in H;
    destruct (has_col data "is_domestic") eqn:Hd, (has_col data "price") eqn:Hp;
    try discriminate H; rewrite ?Hsame, ?Hp in H; injection H as <-.
  all: match goal with
       | |- context [List.filter ?g (List.filter ?f (rows _))] =>
         exists (fun r => f r && g r); split; [now rewrite filter_filter|]
       | |- context [List.filter ?f (rows _)] =>
         exists f; split; [reflexivity|]
       | |- _ =>
         exists (fun _ => true); split; [rewrite filter_true; now destruct data|]
       end.
  all: intros data' Hc He'; unfold filter_data; rewrite He'; cbv zeta;
       rewrite Ed, Ei; cbn [andb]; rewrite ?(Hcol data' _ Hc), ?Hd, ?Hp;
       rewrite ?(Hsame' data' _ _ _ Hc), ?Hp, ?filter_filter, ?filter_true;
       cbn [columns date_dtype rows]; rewrite ?filter_filter;
       try reflexivity; now destruct data'.
Qed.

(** X14.  Filtering the result of a filter again with the same settings
    gives the same table as long as it has rows; a result without rows is
    answered with the empty frame, which has no columns either. *)
Theorem filter_data_again (data result : DataFrame) (route_types : list string)
    (price_range : Q * Q) :
  filter_data (Some data) route_types price_range = inr result ->
  filter_data (Some result) route_types price_range
  = inr (if df_empty result then empty_frame else result).
Proof.
  intros H. destruct (df_empty data) eqn:He.
  { unfold filter_data in H. rewrite He in H. injection H as <-. reflexivity. }
  destruct (df_empty result) eqn:Hr.
  { unfold filter_data. now rewrite Hr. }
  destruct (filter_data_shape data result route_types price_range He H) as (f & Hres & Hf).
  assert (Hc : columns result = columns data) by (rewrite Hres; reflexivity).
  rewrite (Hf result Hc Hr), Hres. cbn [columns date_dtype rows]. now rewrite filter_idem.
Qed.

Lemma filter_data_again_witness :
  filter_data (Some domestic_only) ["Domestic"] (0%Q, 1000%Q)
  = inr (if df_empty domestic_only then empty_frame else domestic_only).
Proof.
  apply (filter_data_again two_flights domestic_only ["Domestic"] (0%Q, 1000%Q)).
  vm_compute. reflexivity.
Defined.

(** ** Market opportunities *)










Lemma collect_inr {A B} (f : A -> exn + B) (l : list A) (ys : list B) :
  collect f l = inr ys -> Forall2 (fun x y => f x = inr y) l ys.
Proof.
  revert ys. induction l as [|x l IH]; intros ys; cbn.
  - intros [= <-]. constructor.
  - destruct (f x) as [e|y] eqn:E; [discriminate|].
    destruct (collect f l) as [e|ys']; [discriminate|]. intros [= <-].
    constructor; auto.
Qed.

Lemma month_label_inr (is_float : bool) (m : Z) (s : string) :
  month_label is_float m = inr s -> month_name m = Some s.
Proof.
  unfold month_label. destruct is_float; [discriminate|].
  destruct (month_name m); [now intros [= ->] | discriminate].
Qed.




(** ** The summary *)

Lemma count_of_column {V} `{EqDecision V} (col : Row -> option V) (rs : list Row) (v : V) :
  count_of v (omap id (map col rs))
  = length (List.filter (fun r => bool_decide (col r = Some v)) rs).
Proof.
  unfold count_of. induction rs as [|r rs IH]; [reflexivity|].
  cbn [map]. rewrite omap_id_cons, (length_filter_cons (fun r => bool_decide (col r = Some v))).
  destruct (col r) as [x|].
  - rewrite length_filter_cons, IH. f_equal. f_equal.
    apply bool_decide_ext. split; congruence.
  - rewrite IH. now rewrite bool_decide_eq_false_2 by discriminate.
Qed.

Lemma omap_id_In {V} (cells : list (option V)) (v : V) :
  In v (omap id cells) <-> In (Some v) cells.
Proof.
  induction cells as [|c cells IH]; simpl; [tauto|].
  destruct c as [x|]; simpl; rewrite IH; intuition congruence.
Qed.

Lemma count_of_pos {V} `{EqDecision V} (l : list V) (v : V) :
  (0 < count_of v l)%nat <-> In v l.
Proof.
  unfold count_of. induction l as [|x l IH]; [cbn; split; [lia | tauto]|].
  rewrite length_filter_cons. cbn [In]. rewrite <- IH.
  destruct (decide (x = v)) as [->|Hne].
  - rewrite bool_decide_eq_true_2 by reflexivity. cbn. split; [auto | lia].
  - rewrite bool_decide_eq_false_2 by exact Hne. cbn. split; [auto | intros [?|?]; [congruence | assumption]].
Qed.

Lemma StronglySorted_weaken {A} (R S : A -> A -> Prop) (l : list A) :
  (forall x y, R x y -> S x y) -> StronglySorted R l -> StronglySorted S l.
Proof.
  intros H. induction 1 as [|x l Hl IH Hx]; constructor; [exact IH|].
  eapply List.Forall_impl; [|exact Hx]. auto.
Qed.

(** The entries of [value_counts()]: one for each value, with its count,
    by descending count. *)
Lemma value_counts_spec {V} `{EqDecision V} (cells : list (option V)) :
  let vs := omap id cells in
  List.NoDup (map fst (value_counts cells))
  /\ (forall p, In p (value_counts cells) <->
                In (fst p) vs /\ snd p = count_of (fst p) vs)
  /\ StronglySorted (fun p q => (snd q <= snd p)%nat) (value_counts cells).
Proof.
  intros vs. unfold value_counts. fold vs.
  set (w := fun p : V * nat => inject_Z (Z.of_nat (snd p))).
  set (counted := map (fun v => (v, count_of v vs)) (unique vs)).
  pose proof (sort_desc_perm w counted) as Hperm.
  assert (Hin : forall p, In p counted <-> In (fst p) vs /\ snd p = count_of (fst p) vs).
  { intros [v n]. unfold counted. rewrite in_map_iff. cbn [fst snd]. split.
    - intros (v' & [= -> <-] & Hv). split; [now apply unique_In | reflexivity].
    - intros [Hv ->]. exists v. split; [reflexivity | now apply unique_In]. }
  split; [|split].
  - eapply Permutation_NoDup; [apply Permutation_map; symmetry; exact Hperm|].
    unfold counted. rewrite map_map. cbn [fst]. rewrite map_id. apply unique_NoDup.
  - intros p. rewrite <- Hin. split; apply Permutation_in; [exact Hperm | now symmetry].
  - apply StronglySorted_weaken with (R := heavier w); [|apply sort_desc_sorted].
    intros p q H. unfold heavier, w in H. rewrite <- Zle_Qle in H. lia.
Qed.

Lemma busiest_most_frequent {V} `{EqDecision V} (cells : list (option V)) (v : V) :
  busiest cells = inr v ->
  In (Some v) cells
  /\ forall v', (count_of v' (omap id cells) <= count_of v (omap id cells))%nat.
Proof.
  unfold busiest. destruct (value_counts_spec cells) as (_ & Hin & Hs).
  destruct (value_counts cells) as [|p l]; [discriminate|]. intros [= <-].
  destruct (proj1 (Hin p) (or_introl eq_refl)) as [Hp Hn].
  split; [now apply omap_id_In|]. intros v'. rewrite <- Hn.
  destruct (in_dec (fun a b => decide (a = b)) v' (omap id cells)) as [Hv|Hv].
  - destruct (proj2 (Hin (v', count_of v' (omap id cells))) (conj Hv eq_refl)) as [Heq|Hl];
      [rewrite Heq; cbn; lia|].
    apply StronglySorted_inv in Hs. destruct Hs as [_ Hall].
    rewrite List.Forall_forall in Hall. exact (Hall _ Hl).
  - destruct (count_of v' (omap id cells)) eqn:E; [lia|]. exfalso. apply Hv.
    apply count_of_pos. lia.
Qed.

(** X16.  On a table with the calendar columns, the summary names as busiest
    day and busiest month a day and a month that no other day or month
    outnumbers, each held by at least one row. *)
Theorem summary_names_the_busiest (self self' : DataProcessor) (df : DataFrame) :
  processed_data self = Some df ->
  has_col df "day_of_week" = true ->
  has_col df "month" = true ->
  generate_summary_insights self = (self', Returned) ->
  exists s d m name,
    insights self' !! "summary" = Some (summary_of s)
    /\ busiest_day s = Some (day_names d)
    /\ busiest_month s = Some name /\ month_name m = Some name
    /\ (0 < cells_equal day_of_week df d)%nat
    /\ (forall d', (cells_equal day_of_week df d' <= cells_equal day_of_week df d)%nat)
    /\ (0 < cells_equal month df m)%nat
    /\ (forall m', (cells_equal month df m' <= cells_equal month df m)%nat).
Proof.
  intros Hdf Hd Hm. unfold generate_summary_insights. rewrite Hdf. cbv zeta.
  rewrite Hd, Hm.
  destruct (busiest (map day_of_week (rows df))) as [|d] eqn:Ed; [discriminate|].
  destruct (busiest (map month (rows df))) as [|m] eqn:Em; [discriminate|].
  destruct (month_label _ m) as [|name] eqn:En; [discriminate|].
  intros [= <-]. eexists _, d, m, name. cbn [insights set_insight].
  rewrite lookup_insert_eq. split; [reflexivity|]. cbn [busiest_day busiest_month].
  split; [reflexivity|]. split; [reflexivity|].
  split; [now apply month_label_inr in En|].
  apply busiest_most_frequent in Ed, Em.
  destruct Ed as [Hd1 Hd2], Em as [Hm1 Hm2]. unfold cells_equal.
  setoid_rewrite <- count_of_column.
  repeat split; auto; apply count_of_pos, omap_id_In; assumption.
Qed.

Lemma summary_names_the_busiest_witness :
  exists s d m name,
    insights (fst (generate_summary_insights cleaned_weekend)) !! "summary"
    = Some (summary_of s)
    /\ busiest_day s = Some (day_names d)
    /\ busiest_month s = Some name /\ month_name m = Some name
    /\ (0 < cells_equal day_of_week (cleaned parse_iso_date weekend_fares) d)%nat
    /\ (forall d', (cells_equal day_of_week (cleaned parse_iso_date weekend_fares) d'
                    <= cells_equal day_of_week (cleaned parse_iso_date weekend_fares) d)%nat)
    /\ (0 < cells_equal month (cleaned parse_iso_date weekend_fares) m)%nat
    /\ (forall m', (cells_equal month (cleaned parse_iso_date weekend_fares) m'
                    <= cells_equal month (cleaned parse_iso_date weekend_fares) m)%nat).
Proof.
  apply (summary_names_the_busiest cleaned_weekend).
  - vm_compute. reflexivity.
  - vm_compute. reflexivity.
  - vm_compute. reflexivity.
  - vm_compute. reflexivity.
Defined.

(** X17.  The summary counts every row once: [total_flights] is the number
    of rows and, on a table with an [is_domestic] column, the domestic
    flights are the rows flagged domestic and the international flights are
    all the others, so that the two add up to the total. *)
Theorem summary_counts_add_up (self self' : DataProcessor) (df : DataFrame) :
  processed_data self = Some df ->
  generate_summary_insights self = (self', Returned) ->
  exists s,
    insights self' !! "summary" = Some (summary_of s)
    /\ total_flights s = length (rows df)
    /\ (has_col df "is_domestic" = false ->
        domestic_flights s = None /\ international_flights s = None)
    /\ (has_col df "is_domestic" = true ->
        exists dom int,
          domestic_flights s = Some dom /\ international_flights s = Some int
          /\ dom = Z.of_nat (cells_equal is_domestic df true)
          /\ (0 <= int)%Z
          /\ (dom + int)%Z = Z.of_nat (total_flights s)).
Proof.
  intros Hdf. unfold generate_summary_insights. rewrite Hdf. cbv zeta.
  destruct (if has_col df "day_of_week" then _ else _); [discriminate|].
  destruct (if has_col df "month" then _ else _); [discriminate|].
  intros [= <-]. eexists. cbn [insights set_insight]. rewrite lookup_insert_eq.
  split; [reflexivity|].
  cbn [total_flights domestic_flights international_flights].
  split; [reflexivity|]. split; intros ->; [split; reflexivity|].
  eexists _, _. split; [reflexivity|]. split; [reflexivity|].
  split; [reflexivity|].
  pose proof (filter_length_le (fun r => bool_decide (is_domestic r = Some true)) (rows df)).
  split; lia.
Qed.

Lemma summary_counts_add_up_witness :
  exists s,
    insights (fst (generate_summary_insights cleaned_weekend)) !! "summary"
    = Some (summary_of s)
    /\ total_flights s = length (rows (cleaned parse_iso_date weekend_fares))
    /\ (has_col (cleaned parse_iso_date weekend_fares) "is_domestic" = false ->
        domestic_flights s = None /\ international_flights s = None)
    /\ (has_col (cleaned parse_iso_date weekend_fares) "is_domestic" = true ->
        exists dom int,
          domestic_flights s = Some dom /\ international_flights s = Some int
          /\ dom = Z.of_nat (cells_equal is_domestic (cleaned parse_iso_date weekend_fares) true)
          /\ (0 <= int)%Z
          /\ (dom + int)%Z = Z.of_nat (total_flights s)).
Proof.
  apply (summary_counts_add_up cleaned_weekend).
  - vm_compute. reflexivity.
  - vm_compute. reflexivity.
Defined.

Lemma top_codes_spec (col : Row -> option string) (df : DataFrame) :
  let l := top_codes (map col (rows df)) in
  (length l <= 5)%nat
  /\ List.NoDup (map cc_code l)
  /\ Forall (counts_column col df) l
  /\ StronglySorted (fun a b => (cc_count b <= cc_count a)%nat) l
  /\ forall code, (0 < cells_equal col df code)%nat ->
       In code (map cc_code l)
       \/ (length l = 5%nat
           /\ Forall (fun c => (cells_equal col df code <= cc_count c)%nat) l).
Proof.
  intros l. unfold l, top_codes.
  destruct (value_counts_spec (map col (rows df))) as (Hnd & Hin & Hs).
  set (vc := value_counts (map col (rows df))) in *.
  rewrite head_n_firstn by lia. change (Z.to_nat 5) with 5%nat.
  split; [rewrite length_map, length_firstn; lia|]. split; [|split; [|split]].
  - rewrite map_map. cbn [cc_code]. rewrite <- firstn_map. now apply NoDup_firstn.
  - apply List.Forall_forall. intros c Hc. apply in_map_iff in Hc.
    destruct Hc as (p & <- & Hp). apply In_firstn, Hin in Hp. destruct Hp as [Hp Hn].
    unfold counts_column, cells_equal. cbn [cc_code cc_count cc_city].
    rewrite <- count_of_column, <- Hn. split; [reflexivity|]. split; [|reflexivity].
    rewrite Hn. now apply count_of_pos.
  - apply StronglySorted_map with (R := fun p q : string * nat => (snd q <= snd p)%nat);
      [auto | now apply StronglySorted_firstn].
  - intros code Hpos. unfold cells_equal in Hpos. rewrite <- count_of_column in Hpos.
    set (p := (code, count_of code (omap id (map col (rows df))))).
    assert (Hp : In p vc) by (apply Hin; split; [now apply count_of_pos | reflexivity]).
    rewrite <- (firstn_skipn 5 vc) in Hp. apply in_app_or in Hp. destruct Hp as [Hp|Hp].
    + left. rewrite map_map. cbn [cc_code]. apply in_map_iff. exists p. now split.
    + right. split.
      * rewrite length_map, length_firstn.
        assert (length (skipn 5 vc) <> 0)%nat by (destruct (skipn 5 vc); [destruct Hp | discriminate]).
        rewrite length_skipn in *. lia.
      * pose proof (StronglySorted_beyond _ 5 vc p Hs Hp) as Hall.
        apply List.Forall_map. eapply List.Forall_impl; [|exact Hall].
        intros q Hq. cbn [cc_count]. unfold cells_equal. rewrite <- count_of_column.
        exact Hq.
Qed.

(** X18.  [top_origins] and [top_destinations] hold at most five airports,
    each once, with the number of rows that name it and its city, by
    descending count; an airport that is left out is named by no more rows
    than any of the five. *)
Theorem summary_top_airports (self self' : DataProcessor) (df : DataFrame) :
  processed_data self = Some df ->
  has_col df "origin" = true ->
  has_col df "destination" = true ->
  generate_summary_insights self = (self', Returned) ->
  exists s from to,
    insights self' !! "summary" = Some (summary_of s)
    /\ top_origins s = Some from /\ top_destinations s = Some to
    /\ (length from <= 5)%nat /\ (length to <= 5)%nat
    /\ List.NoDup (map cc_code from) /\ List.NoDup (map cc_code to)
    /\ Forall (counts_column origin df) from
    /\ Forall (counts_column destination df) to
    /\ StronglySorted (fun a b => (cc_count b <= cc_count a)%nat) from
    /\ StronglySorted (fun a b => (cc_count b <= cc_count a)%nat) to
    /\ (forall code, (0 < cells_equal origin df code)%nat ->
          In code (map cc_code from)
          \/ (length from = 5%nat
              /\ Forall (fun c => (cells_equal origin df code <= cc_count c)%nat) from))
    /\ (forall code, (0 < cells_equal destination df code)%nat ->
          In code (map cc_code to)
          \/ (length to = 5%nat
              /\ Forall (fun c => (cells_equal destination df code <= cc_count c)%nat) to)).
Proof.
  intros Hdf Ho Hd. unfold generate_summary_insights. rewrite Hdf. cbv zeta.
  destruct (if has_col df "day_of_week" then _ else _); [discriminate|].
  destruct (if has_col df "month" then _ else _); [discriminate|].
  intros [= <-]. eexists _, _, _. cbn [insights set_insight]. rewrite lookup_insert_eq.
  split; [reflexivity|]. cbn [top_origins top_destinations]. rewrite Ho, Hd.
  split; [reflexivity|]. split; [reflexivity|].
  destruct (top_codes_spec origin df) as (A1 & A2 & A3 & A4 & A5).
  destruct (top_codes_spec destination df) as (B1 & B2 & B3 & B4 & B5).
  repeat split; assumption.
Qed.

Lemma summary_top_airports_witness :
  exists s from to,
    insights (fst (generate_summary_insights cleaned_weekend)) !! "summary"
    = Some (summary_of s)
    /\ top_origins s = Some from /\ top_destinations s = Some to
    /\ (length from <= 5)%nat /\ (length to <= 5)%nat
    /\ List.NoDup (map cc_code from) /\ List.NoDup (map cc_code to)
    /\ Forall (counts_column origin (cleaned parse_iso_date weekend_fares)) from
    /\ Forall (counts_column destination (cleaned parse_iso_date weekend_fares)) to
    /\ StronglySorted (fun a b => (cc_count b <= cc_count a)%nat) from
    /\ StronglySorted (fun a b => (cc_count b <= cc_count a)%nat) to
    /\ (forall code,
          (0 < cells_equal origin (cleaned parse_iso_date weekend_fares) code)%nat ->
          In code (map cc_code from)
          \/ (length from = 5%nat
              /\ Forall (fun c => (cells_equal origin (cleaned parse_iso_date weekend_fares)
                                               code <= cc_count c)%nat) from))
    /\ (forall code,
          (0 < cells_equal destination (cleaned parse_iso_date weekend_fares) code)%nat ->
          In code (map cc_code to)
          \/ (length to = 5%nat
              /\ Forall (fun c => (cells_equal destination
                                               (cleaned parse_iso_date weekend_fares)
                                               code <= cc_count c)%nat) to)).
Proof.
  apply (summary_top_airports cleaned_weekend).
  - vm_compute. reflexivity.
  - vm_compute. reflexivity.
  - vm_compute. reflexivity.
  - vm_compute. reflexivity.
Defined.

(** A code that is configured nowhere is answered with itself. *)
Lemma city_of_unknown (code : string) :
  ~ In code (dict_values (AUSTRALIAN_CITIES ++ POPULAR_INTERNATIONAL_DESTINATIONS)%list) ->
  city_of code = code.
Proof.
  intros H. unfold city_of.
  destruct (List.find _ _) as [kv|] eqn:E; [|reflexivity]. exfalso. apply H.
  apply find_some in E. destruct E as [Hin He]. apply String.eqb_eq in He.
  apply in_rev in Hin. unfold airport_to_city in Hin. apply in_map_iff in Hin.
  destruct Hin as (p & <- & Hp). cbn [fst] in He. subst code.
  unfold dict_values. now apply in_map.
Qed.

(** X19.  The city dictionary of the summary inverts the two configured
    dictionaries: the airport code of every configured city, domestic or
    international, is answered with that city. *)
Theorem city_of_inverts_the_configuration (city code : string) :
  In (city, code) (AUSTRALIAN_CITIES ++ POPULAR_INTERNATIONAL_DESTINATIONS)%list ->
  city_of code = city.
Proof.
  intros H. cbn in H.
  repeat (destruct H as [[= <- <-]|H]; [reflexivity|]). destruct H.
Qed.

Lemma city_of_inverts_the_configuration_witness : city_of "LAX" = "Los Angeles".
Proof.
  apply (city_of_inverts_the_configuration "Los Angeles" "LAX").
  vm_compute. auto 20.
Defined.

(** ** Price trends *)

Lemma counted_perm {A} (count : A -> nat) (l l' : list A) :
  Permutation l l' -> counted count l = counted count l'.
Proof.
  unfold counted. induction 1; cbn; try lia.
Qed.






Section GroupTotals.
Context {K : Type} `{EqDecision K}.
Variable leb : K -> K -> bool.
Variable key : Row -> option K.

Lemma prices_length (rs : list Row) :
  length (prices rs)
  = length (List.filter (fun r => match price r with Some _ => true | None => false end) rs).
Proof.
  unfold prices. induction rs as [|r rs IH]; [reflexivity|].
  cbn. destruct (price r); cbn; now rewrite IH.
Qed.



End GroupTotals.



(** ** Seasonal patterns *)

Lemma monthly_stats_spec (rs : list Row) :
  map mr_month (monthly_stats rs) = group_keys Z.leb month rs
  /\ Forall (fun rec =>
               mr_flight_count rec = length (prices (group_rows month rs (mr_month rec)))
               /\ mr_avg_price rec = group_mean (prices (group_rows month rs (mr_month rec)))
               /\ mr_median_price rec = median (prices (group_rows month rs (mr_month rec))))
            (monthly_stats rs).
Proof.
  unfold monthly_stats, groupby. rewrite !map_map. split.
  - erewrite map_ext; [apply map_id|]. intros k. reflexivity.
  - apply List.Forall_forall. intros rec Hrec. apply in_map_iff in Hrec.
    destruct Hrec as (k & <- & _). cbn. auto.
Qed.

(** X21.  On a table with a month and a price column, when the seasonal
    pass returns, [monthly_patterns] has one record for each month that
    occurs, with the number of priced flights of the month, and
    [peak_travel_periods] names the two months with the most priced flights
    (one month, or none, when the table has no more): no month outside the
    list has more priced flights than a month in it. *)
Theorem peak_travel_periods_are_the_busiest_months (self self' : DataProcessor)
    (df : DataFrame) :
  processed_data self = Some df ->
  has_col df "month" = true ->
  has_col df "price" = true ->
  analyze_seasonal_patterns self = (self', Returned) ->
  exists monthly months names,
    insights self' !! "monthly_patterns" = Some (monthly_patterns_of monthly)
    /\ insights self' !! "peak_travel_periods" = Some (peak_travel_periods_of names)
    /\ List.NoDup (map mr_month monthly)
    /\ (forall m, In m (map mr_month monthly) <-> exists r, In r (rows df) /\ month r = Some m)
    /\ Forall (fun rec => mr_flight_count rec = month_flights df (mr_month rec)) monthly
    /\ Forall2 (fun m name => month_name m = Some name) months names
    /\ length months = Nat.min 2 (length monthly)
    /\ incl months (map mr_month monthly)
    /\ List.NoDup months
    /\ forall m m', In m months -> ~ In m' months ->
                    (month_flights df m' <= month_flights df m)%nat.
Proof.
  intros Hdf Hm Hp. unfold analyze_seasonal_patterns. rewrite Hdf, Hm. cbv zeta.
  rewrite Hp. cbn [negb].
  set (monthly := monthly_stats (rows df)).
  set (w := fun m : monthly_record => inject_Z (Z.of_nat (mr_flight_count m))).
  destruct (collect _ _) as [|names] eqn:E; [discriminate|].
  intros H. injection H as <-.
  exists monthly, (map mr_month (head_n 2 (sort_desc w monthly))), names.
  destruct (monthly_stats_spec (rows df)) as [Hkeys Hrec]. fold monthly in Hkeys, Hrec.
  assert (Hnd : List.NoDup (map mr_month monthly))
    by (rewrite Hkeys; apply group_keys_NoDup).
  assert (Hcount : Forall (fun rec => mr_flight_count rec = month_flights df (mr_month rec))
                          monthly).
  { eapply List.Forall_impl; [|exact Hrec]. intros rec (H & _). exact H. }
  pose proof (sort_desc_perm w monthly) as Hperm.
  pose proof (sort_desc_sorted w monthly) as Hsorted.
  set (sorted := sort_desc w monthly) in *.
  rewrite head_n_firstn by lia. change (Z.to_nat 2) with 2%nat.
  split.
  { cbn [insights set_insight]. rewrite lookup_insert_ne by discriminate.
    destruct (has_col df "day_of_week"); cbn [insights set_insight];
      apply lookup_insert_eq. }
  split; [cbn [insights set_insight]; apply lookup_insert_eq|].
  split; [exact Hnd|].
  split; [intros m; rewrite Hkeys; apply group_keys_In|].
  split; [exact Hcount|].
  split.
  { apply collect_inr in E. rewrite head_n_firstn in E by lia.
    eapply Forall2_impl; [exact E|]. intros m name. apply month_label_inr. }
  split.
  { rewrite length_map, length_firstn. rewrite (Permutation_length Hperm). reflexivity. }
  assert (Hnd' : List.NoDup (map mr_month sorted)).
  { eapply Permutation_NoDup; [apply Permutation_map; symmetry; exact Hperm | exact Hnd]. }
  split.
  { intros m Hin. apply in_map_iff in Hin. destruct Hin as (rec & <- & Hin).
    apply in_map. apply (Permutation_in _ Hperm). eapply In_firstn, Hin. }
  split.
  { rewrite <- firstn_map. now apply NoDup_firstn. }
  intros m m' Hin Hout.
  apply in_map_iff in Hin. destruct Hin as (rec & <- & Hin).
  destruct (in_dec Z.eq_dec m' (map mr_month monthly)) as [Hocc|Hnone].
  - apply in_map_iff in Hocc. destruct Hocc as (rec' & <- & Hrec').
    rewrite List.Forall_forall in Hcount.
    rewrite <- (Hcount rec'), <- (Hcount rec);
      [| apply (Permutation_in _ Hperm); eapply In_firstn, Hin | exact Hrec'].
    apply (Permutation_in _ (Permutation_sym Hperm)) in Hrec'.
    rewrite <- (firstn_skipn 2 sorted) in Hrec'. apply in_app_or in Hrec'.
    destruct Hrec' as [Hfirst|Hrest].
    + exfalso. apply Hout. now apply in_map.
    + pose proof (StronglySorted_beyond _ 2 sorted rec' Hsorted Hrest) as Hall.
      rewrite List.Forall_forall in Hall. specialize (Hall rec Hin).
      unfold heavier, w in Hall. rewrite <- Zle_Qle in Hall. lia.
  - unfold month_flights at 1.
    replace (group_rows month (rows df) m') with (@nil Row); [cbn; lia|].
    symmetry. destruct (group_rows month (rows df) m') as [|r l] eqn:Eg; [reflexivity|].
    exfalso. apply Hnone. rewrite Hkeys. apply group_keys_In.
    assert (Hr : In r (group_rows month (rows df) m')) by (rewrite Eg; now left).
    unfold group_rows in Hr. apply filter_In in Hr. destruct Hr as [Hr Hk].
    apply bool_decide_eq_true_1 in Hk. eauto.
Qed.

Lemma peak_travel_periods_are_the_busiest_months_witness :
  exists monthly months names,
    insights (fst (analyze_seasonal_patterns cleaned_three_months)) !! "monthly_patterns"
    = Some (monthly_patterns_of monthly)
    /\ insights (fst (analyze_seasonal_patterns cleaned_three_months))
       !! "peak_travel_periods" = Some (peak_travel_periods_of names)
    /\ List.NoDup (map mr_month monthly)
    /\ (forall m, In m (map mr_month monthly)
                  <-> exists r, In r (rows (cleaned parse_iso_date three_months))
                                /\ month r = Some m)
    /\ Forall (fun rec => mr_flight_count rec
                          = month_flights (cleaned parse_iso_date three_months)
                                          (mr_month rec)) monthly
    /\ Forall2 (fun m name => month_name m = Some name) months names
    /\ length months = Nat.min 2 (length monthly)
    /\ incl months (map mr_month monthly)
    /\ List.NoDup months
    /\ forall m m', In m months -> ~ In m' months ->
                    (month_flights (cleaned parse_iso_date three_months) m'
                     <= month_flights (cleaned parse_iso_date three_months) m)%nat.
Proof.
  apply (peak_travel_periods_are_the_busiest_months cleaned_three_months).
  - vm_compute. reflexivity.
  - vm_compute. reflexivity.
  - vm_compute. reflexivity.
  - vm_compute. reflexivity.
Defined.

(** ** Price statistics *)

Lemma insert_sorted_perm (x : Q) (l : list Q) : Permutation (insert_sorted x l) (x :: l).
Proof.
  induction l as [|y l IH]; cbn; [reflexivity|].
  destruct (Qle_bool x y); [reflexivity|]. rewrite IH. apply perm_swap.
Qed.

Lemma sort_values_perm (l : list Q) : Permutation (sort_values l) l.
Proof.
  induction l as [|x l IH]; cbn; [reflexivity|].
  rewrite insert_sorted_perm. now constructor.
Qed.

Lemma insert_sorted_sorted (x : Q) (l : list Q) :
  StronglySorted Qle l -> StronglySorted Qle (insert_sorted x l).
Proof.
  induction 1 as [|y l Hs IH Hall]; cbn.
  - repeat constructor.
  - destruct (Qle_bool x y) eqn:E.
    + apply Qle_bool_iff in E. constructor; [now constructor|].
      constructor; [exact E|].
      eapply List.Forall_impl; [|exact Hall]. intros z Hz. now apply Qle_trans with y.
    + apply Qle_bool_false in E. constructor; [exact IH|].
      eapply Permutation_Forall; [symmetry; apply insert_sorted_perm|].
      constructor; [now apply Qlt_le_weak | exact Hall].
Qed.

Lemma sort_values_sorted (l : list Q) : StronglySorted Qle (sort_values l).
Proof.
  induction l as [|x l IH]; cbn; [constructor|]. now apply insert_sorted_sorted.
Qed.

Lemma sort_values_length (l : list Q) : length (sort_values l) = length l.
Proof. apply Permutation_length, sort_values_perm. Qed.

Lemma sorted_nth_le (s : list Q) (i j : nat) (d d' : Q) :
  StronglySorted Qle s -> (i <= j)%nat -> (j < length s)%nat ->
  (nth i s d <= nth j s d')%Q.
Proof.
  intros Hs. revert i j. induction Hs as [|x t Ht IH Hall]; intros i j Hij Hj.
  - cbn in Hj. lia.
  - destruct i as [|i], j as [|j]; cbn in *; try lia.
    + apply Qle_refl.
    + rewrite List.Forall_forall in Hall. apply Hall, nth_In. lia.
    + apply IH; lia.
Qed.

Lemma fold_min_spec (t : list Q) (x : Q) :
  let m := fold_left (fun m y => if Qle_bool m y then m else y) t x in
  (m <= x)%Q /\ (forall y, In y t -> (m <= y)%Q) /\ (m = x \/ In m t).
Proof.
  revert x. induction t as [|y t IH]; intros x; cbn.
  - split; [apply Qle_refl|]. split; [intros ? []| now left].
  - destruct (Qle_bool x y) eqn:E.
    + apply Qle_bool_iff in E. destruct (IH x) as (H1 & H2 & H3).
      split; [exact H1|]. split.
      * intros z [<-|Hz]; [now apply Qle_trans with x | now apply H2].
      * destruct H3; auto.
    + apply Qle_bool_false in E. destruct (IH y) as (H1 & H2 & H3).
      split; [apply Qle_trans with y; [exact H1 | now apply Qlt_le_weak]|]. split.
      * intros z [<-|Hz]; [exact H1 | now apply H2].
      * destruct H3; auto.
Qed.

Lemma fold_max_spec (t : list Q) (x : Q) :
  let m := fold_left (fun m y => if Qle_bool y m then m else y) t x in
  (x <= m)%Q /\ (forall y, In y t -> (y <= m)%Q) /\ (m = x \/ In m t).
Proof.
  revert x. induction t as [|y t IH]; intros x; cbn.
  - split; [apply Qle_refl|]. split; [intros ? []| now left].
  - destruct (Qle_bool y x) eqn:E.
    + apply Qle_bool_iff in E. destruct (IH x) as (H1 & H2 & H3).
      split; [exact H1|]. split.
      * intros z [<-|Hz]; [now apply Qle_trans with x | now apply H2].
      * destruct H3; auto.
    + apply Qle_bool_false in E. destruct (IH y) as (H1 & H2 & H3).
      split; [apply Qle_trans with y; [now apply Qlt_le_weak | exact H1]|]. split.
      * intros z [<-|Hz]; [exact H1 | now apply H2].
      * destruct H3; auto.
Qed.

Lemma Qmin_list_spec (l : list Q) (m : Q) :
  Qmin_list l = Some m -> In m l /\ forall y, In y l -> (m <= y)%Q.
Proof.
  destruct l as [|x t]; [discriminate|]. cbn [Qmin_list]. intros [= <-].
  destruct (fold_min_spec t x) as (H1 & H2 & H3). split.
  - destruct H3 as [->|H3]; [now left | now right].
  - intros y [<-|Hy]; auto.
Qed.

Lemma Qmax_list_spec (l : list Q) (m : Q) :
  Qmax_list l = Some m -> In m l /\ forall y, In y l -> (y <= m)%Q.
Proof.
  destruct l as [|x t]; [discriminate|]. cbn [Qmax_list]. intros [= <-].
  destruct (fold_max_spec t x) as (H1 & H2 & H3). split.
  - destruct H3 as [->|H3]; [now left | now right].
  - intros y [<-|Hy]; auto.
Qed.

Lemma sorted_nth_In (l : list Q) (i : nat) :
  (i < length l)%nat -> In (nth i (sort_values l) 0%Q) l.
Proof.
  intros Hi. apply (Permutation_in _ (sort_values_perm l)), nth_In.
  now rewrite sort_values_length.
Qed.

Lemma quantile_Some (p : Q) (l : list Q) (q : Q) :
  quantile p l = Some q -> l <> [] /\ q = interpolated p l.
Proof.
  unfold quantile. destruct l; [discriminate|]. intros H.
  split; [discriminate|]. injection H as <-. reflexivity.
Qed.

(** A quantile lies between the two values of the sorted series around
    its position. *)
Lemma quantile_bounds (p : Q) (l : list Q) (q : Q) :
  (0 <= p)%Q -> (p <= 1)%Q -> quantile p l = Some q ->
  let n := length l in
  let s := sort_values l in
  let i := Z.to_nat (Qfloor (inject_Z (Z.of_nat n - 1) * p)) in
  (i <= n - 1)%nat /\ (0 < n)%nat
  /\ (nth i s 0 <= q)%Q /\ (q <= nth (Nat.min (S i) (n - 1)) s 0)%Q.
Proof.
  intros Hp0 Hp1 Hq. apply quantile_Some in Hq. destruct Hq as [Hne ->].
  unfold interpolated. cbv zeta.
  set (n := length l). set (s := sort_values l).
  assert (Hn : (0 < n)%nat) by (unfold n; destruct l; [congruence | cbn; lia]).
  set (h := (inject_Z (Z.of_nat n - 1) * p)%Q).
  assert (Hz : (0 <= inject_Z (Z.of_nat n - 1))%Q).
  { change 0%Q with (inject_Z 0). rewrite <- Zle_Qle. lia. }
  assert (Hh0 : (0 <= h)%Q) by (unfold h; nra).
  assert (Hh1 : (h <= inject_Z (Z.of_nat n - 1))%Q) by (unfold h; nra).
  assert (Hf0 : (0 <= Qfloor h)%Z).
  { change 0%Z with (Qfloor 0). now apply Qfloor_resp_le. }
  assert (Hf1 : (Qfloor h <= Z.of_nat n - 1)%Z).
  { rewrite <- (Qfloor_Z (Z.of_nat n - 1)). now apply Qfloor_resp_le. }
  set (i := Z.to_nat (Qfloor h)).
  assert (Hi : (i <= n - 1)%nat) by (unfold i; lia).
  assert (Hfrac0 : (0 <= h - inject_Z (Qfloor h))%Q).
  { pose proof (Qfloor_le h). lra. }
  assert (Hfrac1 : (h - inject_Z (Qfloor h) <= 1)%Q).
  { pose proof (Qlt_floor h) as H. rewrite inject_Z_plus in H.
    change (inject_Z 1) with 1%Q in H. lra. }
  set (frac := (h - inject_Z (Qfloor h))%Q) in *.
  assert (Hs : StronglySorted Qle s) by apply sort_values_sorted.
  assert (Hlen : length s = n) by apply sort_values_length.
  split; [exact Hi|]. split; [exact Hn|].
  replace (Z.to_nat (Qfloor h + 1)) with (S i) by (unfold i; lia).
  clearbody frac i s n. clear Hf0 Hf1 Hh0 Hh1 Hz. clearbody h.
  destruct (Nat.eq_dec i (n - 1)) as [Hlast|Hmid].
  - rewrite (nth_overflow s (nth i s 0%Q)) by lia.
    replace (Nat.min (S i) (n - 1)) with i by lia.
    split; ring_simplify (nth i s 0 + frac * (nth i s 0 - nth i s 0))%Q; apply Qle_refl.
  - replace (Nat.min (S i) (n - 1)) with (S i) by lia.
    rewrite (nth_indep s (nth i s 0%Q) 0%Q) by lia.
    assert (Hab : (nth i s 0 <= nth (S i) s 0)%Q) by (apply sorted_nth_le; [exact Hs | lia | lia]).
    split; nra.
Qed.

Lemma Qfloor_quarters (z k : Z) :
  Qfloor (inject_Z z * (k # 4)) = (z * k / 4)%Z.
Proof. reflexivity. Qed.

Lemma median_value (l : list Q) (m : Q) :
  median l = Some m ->
  l <> []
  /\ m = if Nat.even (length l)
         then ((nth (length l / 2 - 1) (sort_values l) 0
                + nth (length l / 2) (sort_values l) 0) / 2)%Q
         else nth (length l / 2) (sort_values l) 0%Q.
Proof.
  unfold median. destruct l; [discriminate|]. cbv zeta. intros H.
  split; [discriminate|]. destruct (Nat.even _); injection H as <-; reflexivity.
Qed.

(** The median lies between the two middle values of the sorted series. *)
Lemma median_bounds (l : list Q) (m : Q) :
  median l = Some m ->
  let n := length l in
  let s := sort_values l in
  (nth ((n - 1) / 2) s 0 <= m)%Q /\ (m <= nth (n / 2) s 0)%Q.
Proof.
  intros H. apply median_value in H. destruct H as [Hne ->]. cbv zeta.
  set (n := length l). set (s := sort_values l).
  assert (Hn : (0 < n)%nat) by (unfold n; destruct l; [congruence | cbn; lia]).
  assert (Hs : StronglySorted Qle s) by apply sort_values_sorted.
  assert (Hlen : length s = n) by apply sort_values_length.
  destruct (Nat.even n) eqn:E.
  - apply Nat.even_spec in E. destruct E as [k Hk].
    replace (n / 2)%nat with k by (rewrite Hk, Nat.mul_comm, Nat.div_mul; lia).
    replace ((n - 1) / 2)%nat with (k - 1)%nat.
    2:{ replace (n - 1)%nat with (1 + (k - 1) * 2)%nat by lia.
        rewrite Nat.div_add by lia. reflexivity. }
    assert (Hab : (nth (k - 1) s 0 <= nth k s 0)%Q) by (apply sorted_nth_le; [exact Hs | lia | lia]).
    split.
    + apply Qle_shift_div_l; lra.
    + apply Qle_shift_div_r; lra.
  - assert (Ho : Nat.odd n = true) by (unfold Nat.odd; now rewrite E).
    apply Nat.odd_spec in Ho. destruct Ho as [k Hk].
    replace (n / 2)%nat with k.
    2:{ rewrite Hk. replace (2 * k + 1)%nat with (1 + k * 2)%nat by lia.
        rewrite Nat.div_add by lia. reflexivity. }
    replace ((n - 1) / 2)%nat with k.
    2:{ replace (n - 1)%nat with (k * 2)%nat by lia. now rewrite Nat.div_mul by lia. }
    split; apply Qle_refl.
Qed.



(** The five-number summary of a series is ordered. *)
Lemma quartiles_ordered (l : list Q) (q1 med q3 : Q) :
  quantile (1 # 4) l = Some q1 -> median l = Some med -> quantile (3 # 4) l = Some q3 ->
  (q1 <= med)%Q /\ (med <= q3)%Q.
Proof.
  intros H1 Hm H3.
  destruct (Nat.eq_dec (length l) 2) as [Htwo|Hn].
  - destruct l as [|x [|y [|z l]]]; try discriminate Htwo.
    apply quantile_Some in H1, H3. apply median_value in Hm.
    destruct H1 as [_ ->], H3 as [_ ->], Hm as [_ ->].
    assert (Hs : exists a b, sort_values [x; y] = [a; b] /\ (a <= b)%Q).
    { unfold sort_values. cbn [fold_right insert_sorted].
      destruct (Qle_bool x y) eqn:E; [apply Qle_bool_iff in E | apply Qle_bool_false in E].
      - exists x, y. auto.
      - exists y, x. split; [reflexivity | now apply Qlt_le_weak]. }
    destruct Hs as (a & b & Hs & Hab).
    assert (E1 : interpolated (1 # 4) [x; y] = (a + ((1 # 4) - 0) * (b - a))%Q)
      by (unfold interpolated; rewrite Hs; reflexivity).
    assert (E3 : interpolated (3 # 4) [x; y] = (a + ((3 # 4) - 0) * (b - a))%Q)
      by (unfold interpolated; rewrite Hs; reflexivity).
    rewrite E1, E3, Hs. cbn [length Nat.even nth Nat.div Nat.divmod fst Nat.sub].
    split; [apply Qle_shift_div_l | apply Qle_shift_div_r]; lra.
  - pose proof (quantile_bounds (1 # 4) l q1 ltac:(discriminate) ltac:(discriminate) H1)
      as (Hi1 & Hpos & _ & Hq1).
    pose proof (quantile_bounds (3 # 4) l q3 ltac:(discriminate) ltac:(discriminate) H3)
      as (Hi3 & _ & Hq3 & _).
    pose proof (median_bounds l med Hm) as [Hm1 Hm2].
    rewrite Qfloor_quarters in *.
    set (n := length l) in *.
    assert (Hs : StronglySorted Qle (sort_values l)) by apply sort_values_sorted.
    assert (Hlen : length (sort_values l) = n) by apply sort_values_length.
    assert (Hhalf : ((n - 1) / 2 < n)%nat /\ (n / 2 < n)%nat).
    { split; apply Nat.Div0.div_lt_upper_bound; lia. }
    split.
    + eapply Qle_trans; [exact Hq1|]. eapply Qle_trans; [|exact Hm1].
      apply sorted_nth_le; [exact Hs | | lia].
      assert (Z.of_nat (Nat.min (S (Z.to_nat ((Z.of_nat n - 1) * 1 / 4))) (n - 1))
              <= Z.of_nat ((n - 1) / 2))%Z; [|lia].
      rewrite Nat2Z.inj_div, Nat2Z.inj_min, Nat2Z.inj_succ.
      rewrite Z2Nat.id by (apply Z.div_pos; lia).
      rewrite !Nat2Z.inj_sub by lia. change (Z.of_nat 1) with 1%Z. change (Z.of_nat 2) with 2%Z.
      Z.div_mod_to_equations. lia.
    + eapply Qle_trans; [exact Hm2|]. eapply Qle_trans; [|exact Hq3].
      apply sorted_nth_le; [exact Hs | | lia].
      assert (Z.of_nat (n / 2) <= Z.of_nat (Z.to_nat ((Z.of_nat n - 1) * 3 / 4)))%Z; [|lia].
      rewrite Nat2Z.inj_div.
      rewrite Z2Nat.id by (apply Z.div_pos; lia).
      change (Z.of_nat 2) with 2%Z.
      Z.div_mod_to_equations. lia.
Qed.




Lemma count_prices (rs : list Row) : count (map price rs) = length (prices rs).
Proof.
  unfold count, prices. f_equal. induction rs as [|r rs IH]; [reflexivity|].
  cbn [map]. rewrite omap_id_cons. cbn [omap list_omap]. destruct (price r); cbn; now rewrite IH.
Qed.

Lemma mean_Some (cells : list (option Q)) :
  count cells <> 0%nat -> exists avg, mean cells = Some avg.
Proof.
  intros H. unfold mean. destruct (count cells =? 0)%nat eqn:E.
  - apply Nat.eqb_eq in E. contradiction.
  - eexists. reflexivity.
Qed.

Lemma stats_defined (ps : list Q) :
  ps <> [] ->
  exists lo hi q1 q3 med,
    Qmin_list ps = Some lo /\ Qmax_list ps = Some hi
    /\ quantile (1 # 4) ps = Some q1 /\ quantile (3 # 4) ps = Some q3
    /\ median ps = Some med.
Proof.
  intros Hne. destruct ps as [|x t]; [congruence|].
  unfold Qmin_list, Qmax_list, quantile, median. cbv zeta.
  destruct (Nat.even (length (x :: t))); repeat eexists.
Qed.

(** X22.  On a table with at least one price the statistics of the
    distribution pass are all defined and the order statistics are
    ordered: the minimum and the maximum are prices of the table that
    bound every price, and min <= q1 <= median <= q3 <= max. *)
Theorem price_stats_are_ordered (self : DataProcessor) (df : DataFrame) :
  processed_data self = Some df ->
  has_col df "price" = true ->
  prices (rows df) <> [] ->
  exists self' st lo q1 med q3 hi avg,
    analyze_price_distribution self = (self', Returned)
    /\ insights self' !! "price_stats" = Some (price_stats_of st)
    /\ ps_min st = Some lo /\ ps_q1 st = Some q1 /\ ps_median st = Some med
    /\ ps_q3 st = Some q3 /\ ps_max st = Some hi /\ ps_mean st = Some avg
    /\ In lo (prices (rows df)) /\ In hi (prices (rows df))
    /\ (forall p, In p (prices (rows df)) -> (lo <= p <= hi)%Q)
    /\ (lo <= q1)%Q /\ (q1 <= med)%Q /\ (med <= q3)%Q /\ (q3 <= hi)%Q.
Proof.
  intros Hdf Hp Hne. unfold analyze_price_distribution. rewrite Hdf, Hp. cbn [negb].
  destruct (stats_defined _ Hne) as (lo & hi & q1 & q3 & med & Elo & Ehi & E1 & E3 & Em).
  destruct (mean_Some (map price (rows df))) as (avg & Ea).
  { rewrite count_prices. destruct (prices (rows df)); [congruence | discriminate]. }
  set (ps := prices (rows df)) in *. cbv zeta. rewrite Elo, Ehi, E1, E3, Em, Ea.
  eexists _, _, lo, q1, med, q3, hi, avg. split; [reflexivity|].
  cbn [insights set_insight set_processed].
  split; [rewrite lookup_insert_ne by discriminate; apply lookup_insert_eq|].
  cbn [ps_min ps_q1 ps_median ps_q3 ps_max ps_mean].
  do 6 (split; [reflexivity|]).
  destruct (Qmin_list_spec ps lo Elo) as [Hlo1 Hlo2].
  destruct (Qmax_list_spec ps hi Ehi) as [Hhi1 Hhi2].
  destruct (quartiles_ordered ps q1 med q3 E1 Em E3) as [H12 H23].
  pose proof (quantile_bounds (1 # 4) ps q1 ltac:(discriminate) ltac:(discriminate) E1)
    as (Hi1 & Hpos & Hq1 & _).
  pose proof (quantile_bounds (3 # 4) ps q3 ltac:(discriminate) ltac:(discriminate) E3)
    as (Hi3 & _ & _ & Hq3).
  cbv zeta in *.
  split; [exact Hlo1|]. split; [exact Hhi1|]. split; [intros p Hin; split; auto|].
  split; [eapply Qle_trans; [|exact Hq1]; apply Hlo2, sorted_nth_In; lia|].
  split; [exact H12|]. split; [exact H23|].
  eapply Qle_trans; [exact Hq3|]; apply Hhi2, sorted_nth_In; lia.
Qed.

Lemma price_stats_are_ordered_witness :
  exists self' st lo q1 med q3 hi avg,
    analyze_price_distribution cleaned_boundary = (self', Returned)
    /\ insights self' !! "price_stats" = Some (price_stats_of st)
    /\ ps_min st = Some lo /\ ps_q1 st = Some q1 /\ ps_median st = Some med
    /\ ps_q3 st = Some q3 /\ ps_max st = Some hi /\ ps_mean st = Some avg
    /\ In lo (prices (rows (cleaned parse_iso_date boundary_fares)))
    /\ In hi (prices (rows (cleaned parse_iso_date boundary_fares)))
    /\ (forall p, In p (prices (rows (cleaned parse_iso_date boundary_fares))) ->
                  (lo <= p <= hi)%Q)
    /\ (lo <= q1)%Q /\ (q1 <= med)%Q /\ (med <= q3)%Q /\ (q3 <= hi)%Q.
Proof.
  apply (price_stats_are_ordered cleaned_boundary).
  - vm_compute. reflexivity.
  - vm_compute. reflexivity.
  - vm_compute. intros H. discriminate H.
Defined.

(** The mean of a column is a rounded sum divided by a count, and can
    fall below every value of the column: three fares of 100.1 have a mean
    of 100.09999999999998. *)
Lemma mean_below_the_minimum :
  exists avg,
    mean repeated_fares = Some avg
    /\ Forall (fun c => exists p, c = Some p /\ (avg < p)%Q) repeated_fares.
Proof.
  eexists. split; [vm_compute; reflexivity|].
  repeat constructor; eexists; (split; [reflexivity|]); vm_compute; reflexivity.
Qed.

(** ** City names *)

Lemma get_city_name_unknown (code : string) :
  ~ In code (map fst AIRPORT_TO_CITY) -> get_city_name code = code.
Proof.
  intros H. unfold get_city_name.
  destruct (List.find _ _) as [kv|] eqn:E; [|reflexivity]. exfalso. apply H.
  apply find_some in E. destruct E as [Hin He]. apply String.eqb_eq in He.
  subst code. now apply in_map.
Qed.

(** X23.  The charts and the summary name the city of an airport alike:
    the city table of the charts is the configuration turned round, so
    [get_city_name] and the dictionary of the summary agree on every code,
    configured or not. *)
Theorem city_names_agree (code : string) :
  get_city_name code = city_of code.
Proof.
  destruct (in_dec string_dec code (map fst AIRPORT_TO_CITY)) as [Hin|Hout].
  - cbn in Hin. repeat (destruct Hin as [<-|Hin]; [reflexivity|]). destruct Hin.
  - rewrite (get_city_name_unknown code Hout). symmetry. apply city_of_unknown.
    intros H. apply Hout. cbn in *. exact H.
Qed.

(** ** Generated insights *)

Lemma dict_set_fresh (k : Z) (v : nat) (d : list (Z * nat)) :
  ~ In k (map fst d) -> dict_set k v d = (d ++ [(k, v)])%list.
Proof.
  induction d as [|[k' v'] d IH]; [reflexivity|]. cbn. intros H.
  destruct (Z.eqb_spec k' k) as [->|Hne]; [tauto|]. rewrite IH by tauto. reflexivity.
Qed.

Lemma flight_counts_distinct (l : list monthly_record) :
  List.NoDup (map mr_month l) ->
  flight_counts l = map (fun r => (mr_month r, mr_flight_count r)) l.
Proof.
  unfold flight_counts.
  assert (H : forall acc,
            List.NoDup (map fst acc ++ map mr_month l)%list ->
            fold_left (fun d item => dict_set (mr_month item) (mr_flight_count item) d) l acc
            = (acc ++ map (fun r => (mr_month r, mr_flight_count r)) l)%list).
  { induction l as [|r l IH]; intros acc Hnd; cbn.
    - now rewrite app_nil_r.
    - cbn in Hnd. rewrite dict_set_fresh.
      + rewrite IH; [now rewrite <- app_assoc|].
        rewrite map_app. cbn. rewrite <- app_assoc. exact Hnd.
      + apply NoDup_remove_2 in Hnd. intros Hin. apply Hnd. apply in_or_app. now left. }
  intros Hnd. apply (H []). exact Hnd.
Qed.

Lemma insert_desc_map {A B} (f : A -> B) (w : B -> Q) (x : A) (l : list A) :
  insert_desc w (f x) (map f l) = map f (insert_desc (fun a => w (f a)) x l).
Proof.
  induction l as [|y l IH]; [reflexivity|]. cbn.
  destruct (Qle_bool (w (f y)) (w (f x))); [reflexivity|]. cbn. now rewrite IH.
Qed.

Lemma sort_desc_map {A B} (f : A -> B) (w : B -> Q) (l : list A) :
  sort_desc w (map f l) = map f (sort_desc (fun a => w (f a)) l).
Proof.
  induction l as [|x l IH]; [reflexivity|].
  change (insert_desc w (f x) (sort_desc w (map f l))
          = map f (insert_desc (fun a => w (f a)) x (sort_desc (fun a => w (f a)) l))).
  now rewrite IH, insert_desc_map.
Qed.

Lemma collect_map {A B C} (f : A -> B) (g : B -> exn + C) (l : list A) :
  collect g (map f l) = collect (fun x => g (f x)) l.
Proof.
  induction l as [|x l IH]; [reflexivity|]. cbn. now rewrite IH.
Qed.

Section GeneratedFacts.
Variable str_float : option Q -> string.
Variable str_flt : flt -> string.
Variable OPENAI_API_KEY : string.
Variable GOOGLE_API_KEY : string.

(** X24.  The generated strategies follow the processor: on the insights a
    returned seasonal pass has written, the default provider returns the
    mock insights, and their seasonal strategies are one strategy for each
    of the processor's peak travel periods, in order, followed by the
    general one. *)
Theorem strategies_follow_the_peak_periods (self self' : DataProcessor) (df : DataFrame) :
  processed_data self = Some df ->
  has_col df "month" = true ->
  has_col df "price" = true ->
  analyze_seasonal_patterns self = (self', Returned) ->
  exists names ai,
    insights self' !! "peak_travel_periods" = Some (peak_travel_periods_of names)
    /\ generate_ai_insights str_float str_flt OPENAI_API_KEY GOOGLE_API_KEY
         (month_is_float (rows df)) (insights self') "mock"
       = inr (mock_insights ai)
    /\ seasonal_strategies ai = (map peak_strategy names ++ [general_strategy])%list.
Proof.
  intros Hdf Hm Hp. unfold analyze_seasonal_patterns. rewrite Hdf, Hm. cbv zeta.
  rewrite Hp. cbn [negb].
  set (monthly := monthly_stats (rows df)).
  set (w := fun m : monthly_record => inject_Z (Z.of_nat (mr_flight_count m))).
  destruct (collect _ _) as [|names] eqn:E; [discriminate|].
  intros H. injection H as <-.
  exists names. eexists. split; [cbn [insights set_insight]; apply lookup_insert_eq|].
  unfold generate_ai_insights. cbn [String.eqb Ascii.eqb Bool.eqb andb].
  unfold generate_mock_ai_insights, seasonal_strategies_of.
  assert (Hlook : forall s0 : DataProcessor,
            insights (set_insight "peak_travel_periods" (peak_travel_periods_of names)
                        (set_insight "monthly_patterns" (monthly_patterns_of monthly) s0))
            !! "monthly_patterns" = Some (monthly_patterns_of monthly)).
  { intros s0. cbn [insights set_insight].
    rewrite lookup_insert_ne by discriminate. apply lookup_insert_eq. }
  rewrite Hlook. cbv zeta.
  assert (Hnd : List.NoDup (map mr_month monthly)).
  { unfold monthly. rewrite (proj1 (monthly_stats_spec (rows df))). apply group_keys_NoDup. }
  rewrite (flight_counts_distinct monthly Hnd).
  rewrite (sort_desc_map (fun r => (mr_month r, mr_flight_count r))
                         (fun kv => inject_Z (Z.of_nat (snd kv)))).
  cbn [snd]. fold w.
  assert (Hpeaks : (if (0 <? length monthly)%nat
                    then firstn 2 (map (fun r => (mr_month r, mr_flight_count r))
                                       (sort_desc w monthly))
                    else [])
                   = map (fun r => (mr_month r, mr_flight_count r))
                         (head_n 2 (sort_desc w monthly))).
  { rewrite head_n_firstn by lia. change (Z.to_nat 2) with 2%nat.
    rewrite firstn_map. destruct monthly; reflexivity. }
  rewrite Hpeaks, collect_map. cbn [fst].
  rewrite collect_map in E. rewrite E. split; reflexivity.
Qed.
End GeneratedFacts.

Lemma strategies_follow_the_peak_periods_witness :
  exists names ai,
    insights (fst (analyze_seasonal_patterns cleaned_three_months)) !! "peak_travel_periods"
    = Some (peak_travel_periods_of names)
    /\ generate_ai_insights no_digits no_digits_flt "" ""
         (month_is_float (rows (cleaned parse_iso_date three_months)))
         (insights (fst (analyze_seasonal_patterns cleaned_three_months))) "mock"
       = inr (mock_insights ai)
    /\ seasonal_strategies ai = (map peak_strategy names ++ [general_strategy])%list.
Proof.
  apply (strategies_follow_the_peak_periods no_digits no_digits_flt "" ""
           cleaned_three_months).
  - vm_compute. reflexivity.
  - vm_compute. reflexivity.
  - vm_compute. reflexivity.
  - vm_compute. reflexivity.
Defined.

(** ** The request loop *)

Section CollectorFacts.
Variable J : Type.

Lemma attempt_once_spec (attempt : nat) (r : reply J) :
  (attempt < 3)%nat ->
  let '(events, result) := attempt_once J attempt r in
  requests_of events = 1%nat
  /\ (0 <= seconds_slept events <= 2 ^ Z.of_nat attempt)%Z
  /\ match result with
     | None => retried r = true
     | Some (inl _) => False
     | Some (inr (Some payload)) => r = replied 200 (Some payload)
     | Some (inr None) =>
       retried r = false /\ forall payload, r <> replied 200 (Some payload)
     end.
Proof.
  intros Ha. unfold attempt_once, retried, handle_api_error.
  assert (Hp : (1 <= 2 ^ Z.of_nat attempt <= 4)%Z).
  { destruct attempt as [|[|[|?]]]; cbn; lia. }
  destruct r as [|code json]; [cbn; repeat split; lia|].
  destruct (code =? 200)%Z eqn:E200.
  - apply Z.eqb_eq in E200. subst code.
    destruct json; cbn; repeat split; try lia; reflexivity.
  - destruct (code =? 429)%Z eqn:E429; cbn; repeat split; try lia; try reflexivity.
    intros payload [= -> _]. discriminate E200.
Qed.

(** X26.  Against a server whose 200 replies carry JSON, the request loop
    of the collector makes at most three requests and sleeps at most seven
    seconds in all; it never raises the rate-limit error, a status 429
    being retried and not handed to the error handler; and it returns a
    payload exactly when some request is answered 200 after nothing but
    retried replies, the payload being that one. *)
Theorem get_flights_is_bounded (server : nat -> reply J) :
  (forall i, server i <> replied 200 None) ->
  let '(trace, result) := get_flights server in
  (requests_of trace <= 3)%nat
  /\ (0 <= seconds_slept trace <= 7)%Z
  /\ result <> inl (APIRateLimitError)
  /\ forall payload,
       result = inr (Some payload) <->
       exists k, (k < 3)%nat
                 /\ server k = replied 200 (Some payload)
                 /\ forall i, (i < k)%nat -> retried (server i) = true.
Proof.
  intros _. unfold get_flights, MAX_API_RETRIES. cbn [seq attempts].
  pose proof (attempt_once_spec 0 (server 0%nat) ltac:(lia)) as H0.
  pose proof (attempt_once_spec 1 (server 1%nat) ltac:(lia)) as H1.
  pose proof (attempt_once_spec 2 (server 2%nat) ltac:(lia)) as H2.
  destruct (attempt_once J 0 (server 0%nat)) as [e0 [r0|]].
  - destruct H0 as (Hr & Hs & Hres). cbn in Hs.
    split; [lia|]. split; [lia|].
    destruct r0 as [[]|[p|]]; [destruct Hres| |].
    + split; [discriminate|]. intros payload. split.
      * intros [= <-]. exists 0%nat. split; [lia|]. split; [exact Hres|]. intros i Hi. lia.
      * intros (k & Hk & Hserver & Hbefore).
        destruct k as [|k]; [congruence|].
        specialize (Hbefore 0%nat ltac:(lia)). rewrite Hres in Hbefore. discriminate.
    + split; [discriminate|]. intros payload. split; [discriminate|].
      intros (k & Hk & Hserver & Hbefore).
      destruct k as [|k].
      * exfalso. now apply (proj2 Hres payload).
      * specialize (Hbefore 0%nat ltac:(lia)). destruct Hres. congruence.
  - destruct H0 as (Hr0 & Hs0 & Hres0).
    destruct (attempt_once J 1 (server 1%nat)) as [e1 [r1|]].
    + destruct H1 as (Hr1 & Hs1 & Hres1). cbn in Hs0, Hs1.
      assert (Hreq : requests_of (e0 ++ e1) = 2%nat)
        by (unfold requests_of in *; rewrite List.filter_app, length_app; lia).
      assert (Hsl : seconds_slept (e0 ++ e1) = (seconds_slept e0 + seconds_slept e1)%Z).
      { unfold seconds_slept. rewrite map_app. clear.
        induction (map _ e0) as [|z l IH]; cbn; [reflexivity | lia]. }
      split; [lia|]. split; [lia|].
      destruct r1 as [[]|[p|]]; [destruct Hres1| |].
      * split; [discriminate|]. intros payload. split.
        -- intros [= <-]. exists 1%nat. split; [lia|]. split; [exact Hres1|].
           intros i Hi. replace i with 0%nat by lia. exact Hres0.
        -- intros (k & Hk & Hserver & Hbefore).
           destruct k as [|[|k]].
           ++ rewrite Hserver in Hres0. discriminate.
           ++ congruence.
           ++ specialize (Hbefore 1%nat ltac:(lia)). rewrite Hres1 in Hbefore. discriminate.
      * split; [discriminate|]. intros payload. split; [discriminate|].
        intros (k & Hk & Hserver & Hbefore).
        destruct k as [|[|k]].
        -- rewrite Hserver in Hres0. discriminate.
        -- exfalso. now apply (proj2 Hres1 payload).
        -- specialize (Hbefore 1%nat ltac:(lia)). destruct Hres1. congruence.
    + destruct H1 as (Hr1 & Hs1 & Hres1).
      destruct (attempt_once J 2 (server 2%nat)) as [e2 r2].
      destruct H2 as (Hr2 & Hs2 & Hres2). cbn in Hs0, Hs1, Hs2.
      assert (Happ : forall a b, requests_of (a ++ b) = (requests_of a + requests_of b)%nat
                                 /\ seconds_slept (a ++ b)
                                    = (seconds_slept a + seconds_slept b)%Z).
      { intros a b. split.
        - unfold requests_of. now rewrite List.filter_app, length_app.
        - unfold seconds_slept. rewrite map_app.
          induction (map _ a) as [|z l IH]; cbn; [reflexivity | lia]. }
      assert (Hnil : requests_of [] = 0%nat /\ seconds_slept [] = 0%Z) by (split; reflexivity).
      destruct r2 as [r2|].
      * destruct (Happ e0 (e1 ++ e2)%list) as [A1 A2], (Happ e1 e2) as [B1 B2].
        split; [lia|]. split; [lia|].
        destruct r2 as [[]|[p|]]; [destruct Hres2| |].
        -- split; [discriminate|]. intros payload. split.
           ++ intros [= <-]. exists 2%nat. split; [lia|]. split; [exact Hres2|].
              intros i Hi. destruct i as [|[|i]]; [exact Hres0 | exact Hres1 | lia].
           ++ intros (k & Hk & Hserver & Hbefore).
              destruct k as [|[|[|k]]]; try lia.
              ** rewrite Hserver in Hres0. discriminate.
              ** rewrite Hserver in Hres1. discriminate.
              ** congruence.
        -- split; [discriminate|]. intros payload. split; [discriminate|].
           intros (k & Hk & Hserver & Hbefore).
           destruct k as [|[|[|k]]]; try lia.
           ** rewrite Hserver in Hres0. discriminate.
           ** rewrite Hserver in Hres1. discriminate.
           ** exfalso. now apply (proj2 Hres2 payload).
      * destruct (Happ e0 (e1 ++ (e2 ++ []))%list) as [A1 A2],
                 (Happ e1 (e2 ++ [])%list) as [B1 B2], (Happ e2 []) as [C1 C2].
        destruct Hnil as [N1 N2].
        split; [lia|]. split; [lia|].
        split; [discriminate|]. intros payload. split; [discriminate|].
        intros (k & Hk & Hserver & Hbefore).
        destruct k as [|[|[|k]]]; try lia.
        ** rewrite Hserver in Hres0. discriminate.
        ** rewrite Hserver in Hres1. discriminate.
        ** rewrite Hserver in Hres2. discriminate.
Qed.
End CollectorFacts.

Lemma get_flights_is_bounded_witness :
  let '(trace, result) := get_flights busy_once in
  (requests_of trace <= 3)%nat
  /\ (0 <= seconds_slept trace <= 7)%Z
  /\ result <> inl (APIRateLimitError)
  /\ forall payload,
       result = inr (Some payload) <->
       exists k, (k < 3)%nat
                 /\ busy_once k = replied 200 (Some payload)
                 /\ forall i, (i < k)%nat -> retried (busy_once i) = true.
Proof.
  apply (get_flights_is_bounded nat busy_once).
  intros i H. destruct i; discriminate H.
Defined.

Lemma collect_length {A B} (f : A -> exn + B) (l : list A) (ys : list B) :
  collect f l = inr ys -> length ys = length l.
Proof. intros H. apply collect_inr, Forall2_length in H. now symmetry. Qed.

Section GeneratedBounds.
Variable str_float : option Q -> string.
Variable str_flt : flt -> string.

(** X25.  Whatever the document, the mock insights stay small: at most
    five observations, at most three recommendations and at most three
    strategies; and the strategies, when there are any, end with the
    general one, which a document with monthly patterns always gets. *)
Theorem mock_insights_are_bounded (months_are_float : bool) (data : gmap string insight)
    (ai : ai_insights) :
  generate_mock_ai_insights str_float str_flt months_are_float data
  = inr (mock_insights ai) ->
  (length (market_observations ai) <= 5)%nat
  /\ (length (hostel_recommendations ai) <= 3)%nat
  /\ (length (seasonal_strategies ai) <= 3)%nat
  /\ (seasonal_strategies ai = []
      \/ exists peaks, seasonal_strategies ai = (peaks ++ [general_strategy])%list)
  /\ (forall records, data !! "monthly_patterns" = Some (monthly_patterns_of records) ->
        seasonal_strategies ai <> []).
Proof.
  unfold generate_mock_ai_insights.
  destruct (seasonal_strategies_of months_are_float data) as [|strategies] eqn:E;
    [discriminate|].
  intros [= <-]. cbn [market_observations hostel_recommendations seasonal_strategies].
  split; [|split].
  - unfold market_observations_of.
    destruct (data !! "popular_routes") as [[]|]; cbn [length]; try lia.
    rewrite length_map, length_firstn. lia.
  - unfold hostel_recommendations_of.
    destruct (data !! "market_opportunities") as [[]|]; cbn [length]; try lia.
    assert (H : forall xs : list opportunity,
              (length (concat (map recommendation xs)) <= length xs)%nat).
    { induction xs as [|x xs IH]; [cbn; lia|].
      cbn [map concat]. rewrite length_app. destruct x; cbn; lia. }
    etransitivity; [apply H|]. rewrite length_firstn. lia.
  - revert E. unfold seasonal_strategies_of.
    destruct (data !! "monthly_patterns") as [[]|];
      try (intros [= <-]; split; [cbn; lia|]; split; [now left | intros ? [=]]).
    cbv zeta. destruct (collect _ _) as [|names] eqn:Ec; [discriminate|].
    intros [= <-]. apply collect_length in Ec.
    split.
    + rewrite length_app, length_map, Ec. cbn [length].
      destruct (0 <? length l)%nat; [rewrite length_firstn | cbn]; lia.
    + split; [right; eauto|]. intros _ _. now destruct (map peak_strategy names).
Qed.
End GeneratedBounds.

Lemma mock_insights_are_bounded_witness :
  (length (market_observations weekend_ai) <= 5)%nat
  /\ (length (hostel_recommendations weekend_ai) <= 3)%nat
  /\ (length (seasonal_strategies weekend_ai) <= 3)%nat
  /\ (seasonal_strategies weekend_ai = []
      \/ exists peaks, seasonal_strategies weekend_ai = (peaks ++ [general_strategy])%list)
  /\ (forall records,
        weekend_insights !! "monthly_patterns" = Some (monthly_patterns_of records) ->
        seasonal_strategies weekend_ai <> []).
Proof.
  apply (mock_insights_are_bounded no_digits no_digits_flt false weekend_insights).
  vm_compute. reflexivity.
Defined.

(** * Properties in the terms of the specification *)

(** ** Binary64 rounding *)












(** ** Sums of fares *)




















Lemma pairwise_unfold (fuel : nat) (l : list Q) :
  pairwise fuel l
  = let n := length l in
    if (n <? 8)%nat then sum_loop 0%Q l
    else if (n <=? 128)%nat then block_sum l
    else
      match fuel with
      | O => block_sum l
      | S fuel =>
        let n2 := (n / 2 - (n / 2) mod 8)%nat in
        fadd (pairwise fuel (firstn n2 l)) (pairwise fuel (skipn n2 l))
      end.
Proof. destruct fuel; reflexivity. Qed.


(** The fuel [pairwise_sum] gives is enough: more of it changes nothing. *)
Lemma pairwise_fuel (fuel : nat) :
  forall (fuel' : nat) (l : list Q),
    (length l <= fuel)%nat -> (length l <= fuel')%nat ->
    pairwise fuel l = pairwise fuel' l.
Proof.
  induction fuel as [|fuel IH]; intros fuel' l H H'.
  - destruct l; [|cbn in H; lia]. now rewrite !pairwise_unfold.
  - rewrite !pairwise_unfold. cbv zeta.
    destruct (length l <? 8)%nat eqn:E8; [reflexivity|].
    destruct (length l <=? 128)%nat eqn:E128; [reflexivity|].
    apply Nat.leb_gt in E128.
    destruct fuel' as [|fuel']; [lia|].
    pose proof (Nat.div_mod_eq (length l) 2) as Hd2.
    pose proof (Nat.mod_upper_bound (length l) 2 ltac:(lia)) as Hm2.
    pose proof (Nat.mod_upper_bound (length l / 2) 8 ltac:(lia)) as Hm8.
    pose proof (Nat.Div0.mod_le (length l / 2) 8) as Hle8.
    f_equal; apply IH; rewrite ?length_firstn, ?length_skipn; lia.
Qed.

(** The doubles of 0.1 and of 8.7, and a tie. *)
Lemma b64_examples :
  b64 (1 # 10) = 3602879701896397 # 36028797018963968
  /\ b64 (87 # 10) = 2448832297382707 # 281474976710656
  /\ b64 (inject_Z (2 ^ 53 + 1)) = inject_Z (2 ^ 53)
  /\ b64 (inject_Z (2 ^ 53 + 3)) = inject_Z (2 ^ 53 + 4).
Proof. repeat split; vm_compute; reflexivity. Qed.

(** ** The dashboard filter on references *)




Lemma alloc_spec (df : DataFrame) (h : store) :
  untouched h (fst (alloc df h))
  /\ h !! snd (alloc df h) = None
  /\ fst (alloc df h) !! snd (alloc df h) = Some df.
Proof.
  unfold alloc, untouched, store in *. cbn [fst snd]. split; [|split].
  - intros ref x H. now apply lookup_app_l_Some.
  - apply lookup_ge_None. lia.
  - rewrite lookup_app_r by lia. now rewrite Nat.sub_diag.
Qed.

Lemma deref_alloc (df : DataFrame) (h : store) :
  deref (fst (alloc df h)) (snd (alloc df h)) = df.
Proof. unfold deref. now rewrite (proj2 (proj2 (alloc_spec df h))). Qed.







(** ** Order statistics, as the specification reads them *)












(** ** Duplicates *)




(** ** Cleaning a cleaned table, by the fence *)

Section CleaningAgain.
Variable parse_datetime : string -> option (option date).

End CleaningAgain.



(** ** Imputation, row by row *)












Section Imputation.
Variable parse_datetime : string -> option (option date).



End Imputation.



(** ** The mean of a column of fares *)










(** ** The weekend premium *)











(** Half a tenth goes to the even tenth: a weekend fare of 17 against a
    weekday fare of 16 is a premium of 6.25 percent, reported as 6.2. *)
Lemma premium_ties_to_even :
  premium (Some 17%Q) (Some 16%Q) = FFin (b64 (62 # 10)).
Proof. vm_compute. reflexivity. Qed.
